(** * URL-to-quiz service: guardrails, content extractor, quiz generator
      and the request pipeline, embedded from the Python sources

    Conventions of the embedding.
    - A Python [str] is a [string]; each [ascii] stands for one code point
      below 256, so [len], [lower], [strip] and [in] are the Python
      operations on that range.  Message constants of the sources that
      hold characters outside that range (the pictographs in front of a
      few messages) appear as their UTF-8 bytes; the code only stores and
      compares them.
    - A Python value that comes from JSON (a request body, a decoded API
      response, a result dictionary) is a [json]; a dict is an association
      list with distinct keys, looked up from the front.  Numbers are
      integers.
    - Code that raises is in [outcome]; code that logs or calls a
      collaborator is in the monad [M], which records the events in order
      and keeps them when an exception passes through. *)

From Stdlib Require Import String Ascii List ZArith NArith Lia Bool.
From Stdlib Require Import DecimalString.
Import ListNotations.
Local Open Scope list_scope.
Local Open Scope string_scope.

(* ================================================================== *)
(** ** Python strings *)

Module PyStr.

(** [c.isspace()] *)
Definition isspace (c : ascii) : bool :=
  let n := N_of_ascii c in
  (((9 <=? n) && (n <=? 13)) || ((28 <=? n) && (n <=? 32))
   || (n =? 133) || (n =? 160))%N.

Fixpoint lstrip (s : string) : string :=
  match s with
  | EmptyString => EmptyString
  | String c s' => if isspace c then lstrip s' else s
  end.

Fixpoint rstrip (s : string) : string :=
  match s with
  | EmptyString => EmptyString
  | String c s' =>
      match rstrip s' with
      | EmptyString => if isspace c then EmptyString else String c EmptyString
      | r => String c r
      end
  end.

(** [s.strip()] *)
Definition strip (s : string) : string := rstrip (lstrip s).

Definition lower_char (c : ascii) : ascii :=
  let n := N_of_ascii c in
  if (((65 <=? n) && (n <=? 90))
      || ((192 <=? n) && (n <=? 222) && negb (n =? 215)))%N
  then ascii_of_N (n + 32) else c.

(** [s.lower()] *)
Fixpoint lower (s : string) : string :=
  match s with
  | EmptyString => EmptyString
  | String c s' => String (lower_char c) (lower s')
  end.

(** [s.startswith(p)] *)
Fixpoint startswith (p s : string) : bool :=
  match p with
  | EmptyString => true
  | String a p' =>
      match s with
      | EmptyString => false
      | String b s' => if Ascii.eqb a b then startswith p' s' else false
      end
  end.

(** [p in s] *)
Fixpoint contains (p s : string) : bool :=
  if startswith p s then true
  else match s with
       | EmptyString => false
       | String _ s' => contains p s'
       end.

(** [len(s)] *)
Definition len (s : string) : Z := Z.of_nat (String.length s).

(** [s[n:]] and [s[:n]] for a bound [n >= 0] *)
Fixpoint slice_from (n : Z) (s : string) : string :=
  match s with
  | EmptyString => EmptyString
  | String _ s' => if (n <=? 0)%Z then s else slice_from (n - 1) s'
  end.

Fixpoint slice_to (n : Z) (s : string) : string :=
  match s with
  | EmptyString => EmptyString
  | String c s' =>
      if (n <=? 0)%Z then EmptyString else String c (slice_to (n - 1) s')
  end.

Fixpoint rev_acc (acc s : string) : string :=
  match s with
  | EmptyString => acc
  | String c s' => rev_acc (String c acc) s'
  end.

(** [s.split(sep)] for a non-empty [sep]: [cur] is the current piece,
    reversed; [skip] counts the characters of a separator just found that
    are still to be passed over. *)
Fixpoint split_aux (sep : string) (skip : nat) (cur s : string) : list string :=
  match s with
  | EmptyString => [rev_acc EmptyString cur]
  | String c s' =>
      match skip with
      | S k => split_aux sep k cur s'
      | O =>
          if startswith sep s
          then rev_acc EmptyString cur
               :: split_aux sep (String.length sep - 1) EmptyString s'
          else split_aux sep O (String c cur) s'
      end
  end.

Definition split (sep s : string) : list string :=
  split_aux sep O EmptyString s.

(** [s.split()]: the maximal runs of non-whitespace characters *)
Fixpoint words_aux (cur s : string) : list string :=
  match s with
  | EmptyString =>
      match cur with
      | EmptyString => []
      | _ => [rev_acc EmptyString cur]
      end
  | String c s' =>
      if isspace c
      then match cur with
           | EmptyString => words_aux EmptyString s'
           | _ => rev_acc EmptyString cur :: words_aux EmptyString s'
           end
      else words_aux (String c cur) s'
  end.

Definition words (s : string) : list string := words_aux EmptyString s.

(** [sep.join(l)] *)
Fixpoint join (sep : string) (l : list string) : string :=
  match l with
  | [] => EmptyString
  | [x] => x
  | x :: l' => x ++ sep ++ join sep l'
  end.

Definition hex_digit (n : N) : ascii :=
  if (n <? 10)%N then ascii_of_N (48 + n) else ascii_of_N (87 + n).

Definition quote1 : ascii := ascii_of_nat 39.
Definition quote2 : ascii := ascii_of_nat 34.
Definition backslash : ascii := ascii_of_nat 92.

(** One character of [repr(s)] between quotes [q]. *)
Definition repr_char (q c : ascii) : string :=
  let n := N_of_ascii c in
  if Ascii.eqb c backslash then String backslash (String backslash EmptyString)
  else if Ascii.eqb c q then String backslash (String q EmptyString)
  else if (n =? 9)%N then String backslash "t"
  else if (n =? 10)%N then String backslash "n"
  else if (n =? 13)%N then String backslash "r"
  else if ((n <? 32) || ((127 <=? n) && (n <=? 160)) || (n =? 173))%N
  then String backslash
         (String "x" (String (hex_digit (n / 16)) (String (hex_digit (n mod 16)) EmptyString)))
  else String c EmptyString.

Fixpoint repr_chars (q : ascii) (s : string) : string :=
  match s with
  | EmptyString => EmptyString
  | String c s' => repr_char q c ++ repr_chars q s'
  end.

(** [repr(s)] of a str *)
Definition repr (s : string) : string :=
  let q := if contains (String quote1 EmptyString) s
              && negb (contains (String quote2 EmptyString) s)
           then quote2 else quote1 in
  String q (repr_chars q s ++ String q EmptyString).

(** [str(n)] of an int *)
Definition of_Z (z : Z) : string := NilZero.string_of_int (Z.to_int z).

End PyStr.

(* ================================================================== *)
(** ** Values decoded from JSON, as Python sees them *)

#[warnings="-register-all"]
Inductive json : Type :=
| JNull
| JBool (b : bool)
| JNum (z : Z)
| JStr (s : string)
| JArr (l : list json)
| JObj (kv : list (string * json)).

Module Py.

(** [d.get(k)] on the association list of a dict *)
Fixpoint assoc (k : string) (kv : list (string * json)) : option json :=
  match kv with
  | [] => None
  | (k', v) :: kv' => if String.eqb k k' then Some v else assoc k kv'
  end.

(** [k in d] *)
Definition has_key (k : string) (kv : list (string * json)) : bool :=
  match assoc k kv with Some _ => true | None => false end.

(** [bool(v)] *)
Definition truthy (v : json) : bool :=
  match v with
  | JNull => false
  | JBool b => b
  | JNum z => negb (z =? 0)%Z
  | JStr s => negb (String.eqb s EmptyString)
  | JArr l => match l with [] => false | _ => true end
  | JObj kv => match kv with [] => false | _ => true end
  end.

(** [type(v).__name__] *)
Definition type_name (v : json) : string :=
  match v with
  | JNull => "NoneType"
  | JBool _ => "bool"
  | JNum _ => "int"
  | JStr _ => "str"
  | JArr _ => "list"
  | JObj _ => "dict"
  end.

(** a value that can be a dict key or be looked up in a dict *)
Definition hashable (v : json) : bool :=
  match v with
  | JArr _ | JObj _ => false
  | _ => true
  end.

(** [repr(v)] *)
Fixpoint repr (v : json) : string :=
  match v with
  | JNull => "None"
  | JBool true => "True"
  | JBool false => "False"
  | JNum z => PyStr.of_Z z
  | JStr s => PyStr.repr s
  | JArr l => "[" ++ PyStr.join ", " (map repr l) ++ "]"
  | JObj kv =>
      "{" ++ PyStr.join ", "
               (map (fun p => match p with
                              | (k, x) => PyStr.repr k ++ ": " ++ repr x
                              end) kv)
          ++ "}"
  end.

(** [str(v)] *)
Definition str (v : json) : string :=
  match v with
  | JStr s => s
  | _ => repr v
  end.

(** [list(d.keys())] printed *)
Definition keys_repr (kv : list (string * json)) : string :=
  "[" ++ PyStr.join ", " (map (fun p => PyStr.repr (fst p)) kv) ++ "]".

End Py.

(* ================================================================== *)
(** ** The fragment of [re] the sources use

    Literals, character sets, greedy [+] and [*] over one character set,
    greedy [?], alternation, sequence and numbered capturing groups, with
    the backtracking order of [re]: the first alternative first, the
    longest repetition first. *)

Module Re.

Inductive cset : Type :=
| Dot                        (* [.]: any character but a newline *)
| NotIn (l : list ascii).    (* [[^...]] *)

Inductive regex : Type :=
| Lit (s : string)
| Plus (c : cset)
| Star (c : cset)
| Opt (r : regex)
| Alt (r1 r2 : regex)
| Seq (r1 r2 : regex)
| Group (n : nat) (r : regex).

Definition newline : ascii := ascii_of_nat 10.

Definition mem (c : cset) (a : ascii) : bool :=
  match c with
  | Dot => negb (Ascii.eqb a newline)
  | NotIn l => negb (existsb (Ascii.eqb a) l)
  end.

Definition captures : Type := list (nat * string).

(** the rest of the subject after a literal *)
Fixpoint after (p s : string) : option string :=
  match p with
  | EmptyString => Some s
  | String a p' =>
      match s with
      | EmptyString => None
      | String b s' => if Ascii.eqb a b then after p' s' else None
      end
  end.

(** what was consumed between the subject [s] and its suffix [rest] *)
Definition taken (s rest : string) : string :=
  PyStr.slice_to (PyStr.len s - PyStr.len rest) s.

Section Matcher.
Variable A : Type.

Fixpoint star (c : cset) (s : string) (caps : captures)
         (k : string -> captures -> option A) : option A :=
  match s with
  | EmptyString => k s caps
  | String a s' =>
      if mem c a
      then match star c s' caps k with
           | Some x => Some x
           | None => k s caps
           end
      else k s caps
  end.

Fixpoint run (r : regex) (s : string) (caps : captures)
         (k : string -> captures -> option A) : option A :=
  match r with
  | Lit p =>
      match after p s with
      | Some rest => k rest caps
      | None => None
      end
  | Plus c =>
      match s with
      | EmptyString => None
      | String a s' => if mem c a then star c s' caps k else None
      end
  | Star c => star c s caps k
  | Opt r1 =>
      match run r1 s caps k with
      | Some x => Some x
      | None => k s caps
      end
  | Alt r1 r2 =>
      match run r1 s caps k with
      | Some x => Some x
      | None => run r2 s caps k
      end
  | Seq r1 r2 => run r1 s caps (fun rest caps' => run r2 rest caps' k)
  | Group n r1 =>
      run r1 s caps (fun rest caps' => k rest ((n, taken s rest) :: caps'))
  end.
End Matcher.

Arguments star {A}.
Arguments run {A}.

(** [re.match(r, s)]: the groups of the first match at the start *)
Definition rmatch (r : regex) (s : string) : option captures :=
  run r s [] (fun _ caps => Some caps).

(** [re.search(r, s)]: the first match at the leftmost position *)
Fixpoint search (r : regex) (s : string) : option captures :=
  match rmatch r s with
  | Some caps => Some caps
  | None =>
      match s with
      | EmptyString => None
      | String _ s' => search r s'
      end
  end.

(** [m.group(n)] *)
Fixpoint group (n : nat) (caps : captures) : option string :=
  match caps with
  | [] => None
  | (i, v) :: caps' => if Nat.eqb i n then Some v else group n caps'
  end.

End Re.

(* ================================================================== *)
(** ** Exceptions, events and the monad of effectful code *)

Inductive exn_class : Type :=
| Timeout | ConnectionError | JSONDecodeError
| AttributeError | TypeError | KeyError | IndexError | OtherException.

(** an exception: its class and [str(e)] *)
Record exn : Type := Exn { cls : exn_class; message : string }.

Inductive outcome (A : Type) : Type :=
| Ret (a : A)
| Raise (e : exn).

Arguments Ret {A}.
Arguments Raise {A}.

Inductive level : Type := INFO | WARNING | ERROR.

Inductive event : Type :=
| Log (l : level) (msg : string)
| TranscriptPost (video_id : string)
| ArticleGet (url : string) (timeout : Z)
| SummaryBackend (model content_part : string)
| QuizBackend (model : string) (num_questions : Z) (summary_part content_part : string).

(** A computation: how it ends and the events it produced, in order. *)
Definition M (A : Type) : Type := (outcome A * list event)%type.

Definition ret {A} (a : A) : M A := (Ret a, []).
Definition throw {A} (e : exn) : M A := (Raise e, []).
Definition emit (ev : event) : M unit := (Ret tt, [ev]).
Definition log (l : level) (msg : string) : M unit := emit (Log l msg).
Definition lift {A} (o : outcome A) : M A := (o, []).

Definition bind {A B} (m : M A) (f : A -> M B) : M B :=
  match m with
  | (Ret a, t1) => let (r, t2) := f a in (r, (t1 ++ t2)%list)
  | (Raise e, t1) => (Raise e, t1)
  end.

(** [try: m except ...: h e] *)
Definition try_except {A} (m : M A) (h : exn -> M A) : M A :=
  match m with
  | (Ret a, t1) => (Ret a, t1)
  | (Raise e, t1) => let (r, t2) := h e in (r, (t1 ++ t2)%list)
  end.

Declare Scope py_scope.
Delimit Scope py_scope with py.
Notation "x <- m ;; k" := (bind m (fun x => k))
  (at level 61, m at next level, right associativity) : py_scope.
Notation "m ;; k" := (bind m (fun _ => k))
  (at level 61, right associativity) : py_scope.
Local Open Scope py_scope.

Definition result {A} (m : M A) : outcome A := fst m.
Definition trace {A} (m : M A) : list event := snd m.

Module PyExc.

Definition attribute_error {A} (v : json) (attr : string) : outcome A :=
  Raise (Exn AttributeError
           ("'" ++ Py.type_name v ++ "' object has no attribute '" ++ attr ++ "'")).

(** [len(v)] *)
Definition len (v : json) : outcome Z :=
  match v with
  | JStr s => Ret (PyStr.len s)
  | JArr l => Ret (Z.of_nat (List.length l))
  | JObj kv => Ret (Z.of_nat (List.length kv))
  | _ => Raise (Exn TypeError
                  ("object of type '" ++ Py.type_name v ++ "' has no len()"))
  end.

Fixpoint chars (s : string) : list json :=
  match s with
  | EmptyString => []
  | String c s' => JStr (String c EmptyString) :: chars s'
  end.

(** the items [for x in v] goes through *)
Definition iter (v : json) : outcome (list json) :=
  match v with
  | JArr l => Ret l
  | JStr s => Ret (chars s)
  | JObj kv => Ret (map (fun p => JStr (fst p)) kv)
  | _ => Raise (Exn TypeError
                  ("'" ++ Py.type_name v ++ "' object is not iterable"))
  end.

(** [d[k]] on a dict *)
Definition getitem (kv : list (string * json)) (k : string) : outcome json :=
  match Py.assoc k kv with
  | Some v => Ret v
  | None => Raise (Exn KeyError (PyStr.repr k))
  end.

(** [v in d] for a dict [d] with str keys: the key is hashed first *)
Definition in_dict {B} (v : json) (d : list (string * B)) : outcome bool :=
  match v with
  | JStr s => Ret (existsb (fun p => String.eqb s (fst p)) d)
  | JArr _ | JObj _ =>
      Raise (Exn TypeError ("unhashable type: '" ++ Py.type_name v ++ "'"))
  | _ => Ret false
  end.

End PyExc.

(* ================================================================== *)
(** ** config.py *)

Module config.
Definition SUMMARIZATION_MODEL : string := "google".
Definition NUM_QUIZ_QUESTIONS : Z := 5.
Definition REQUEST_TIMEOUT : Z := 10.
Definition MAX_CONTENT_LENGTH : Z := 100000.
Definition MIN_SUMMARY_LENGTH : Z := 100.
Definition MAX_SUMMARY_LENGTH : Z := 200000.
End config.

(* ================================================================== *)
(** ** modules/guardrails.py *)

Module ContentGuardrails.

Definition forbidden_patterns : list string :=
  ["violence"; "hate"; "adult content"; "explicit";
   "drugs"; "weapons"; "illegal"].

(** the loop over [forbidden_patterns] and the return after it *)
Fixpoint scan_patterns (ps : list string) (summary_lower : string)
  : M (bool * string) :=
  match ps with
  | [] => ret (true, "Summary passed validation")
  | pattern :: ps' =>
      if PyStr.contains pattern summary_lower
      then log WARNING ("Potentially harmful content detected: " ++ pattern) ;;
           ret (false, "Content contains inappropriate material")
      else scan_patterns ps' summary_lower
  end.

Definition validate_summary (summary : string) : M (bool * string) :=
  if String.eqb summary EmptyString
  then ret (false, "Summary is empty")
  else if (PyStr.len summary <? config.MIN_SUMMARY_LENGTH)%Z
  then ret (false, "Summary too short (min "
                     ++ PyStr.of_Z config.MIN_SUMMARY_LENGTH ++ " chars)")
  else if (PyStr.len summary >? config.MAX_SUMMARY_LENGTH)%Z
  then ret (false, "Summary too long (max "
                     ++ PyStr.of_Z config.MAX_SUMMARY_LENGTH ++ " chars)")
  else
    let summary_lower := PyStr.lower summary in
    scan_patterns forbidden_patterns summary_lower.

Definition required_fields : list (string * list string) :=
  [("multiple_choice", ["id"; "question"; "options"; "correct_answer"]);
   ("true_false", ["id"; "question"; "correct_answer"]);
   ("fill_blank", ["id"; "question"; "correct_answer"])].

(** [required_fields[q_type]] once [q_type in required_fields] holds *)
Fixpoint fields_of (q_type : string) (d : list (string * list string))
  : list string :=
  match d with
  | [] => []
  | (k, fs) :: d' => if String.eqb q_type k then fs else fields_of q_type d'
  end.

(** the loop over the required fields of one question: the first one
    missing, if any *)
Fixpoint missing_field (fs : list string) (q : list (string * json))
  : option string :=
  match fs with
  | [] => None
  | field :: fs' =>
      if negb (Py.has_key field q) then Some field else missing_field fs' q
  end.

(** the loop over the questions and the return after it *)
Fixpoint check_questions (qs : list json) : outcome (bool * string) :=
  match qs with
  | [] => Ret (true, "Quiz passed validation")
  | q :: qs' =>
      match q with
      | JObj kv =>
          let q_type :=
            match Py.assoc "type" kv with Some v => v | None => JStr "unknown" end in
          match PyExc.in_dict q_type required_fields with
          | Raise e => Raise e
          | Ret false => Ret (false, "Unknown question type: " ++ Py.str q_type)
          | Ret true =>
              match missing_field (fields_of (Py.str q_type) required_fields) kv with
              | Some field =>
                  Ret (false, "Missing field '" ++ field ++ "' in question")
              | None => check_questions qs'
              end
          end
      | _ => PyExc.attribute_error q "get"
      end
  end.

Definition validate_quiz (quiz_questions : json) : outcome (bool * string) :=
  if negb (Py.truthy quiz_questions)
  then Ret (false, "No quiz questions generated")
  else
    match PyExc.len quiz_questions with
    | Raise e => Raise e
    | Ret n =>
        if (n =? 0)%Z then Ret (false, "No quiz questions generated")
        else match PyExc.iter quiz_questions with
             | Raise e => Raise e
             | Ret qs => check_questions qs
             end
    end.

Definition dangerous_protocols : list string :=
  ["javascript:"; "data:"; "vbscript:"].

(** the loop over [dangerous_protocols] and the return after it *)
Fixpoint scan_protocols (ps : list string) (url_lower : string)
  : bool * string :=
  match ps with
  | [] => (true, "URL is safe")
  | protocol :: ps' =>
      if PyStr.contains protocol url_lower
      then (false, "Unsafe URL protocol detected")
      else scan_protocols ps' url_lower
  end.

Definition validate_url (url : string) : bool * string :=
  let url_lower := PyStr.lower url in
  scan_protocols dangerous_protocols url_lower.

End ContentGuardrails.

(* ================================================================== *)
(** ** What the code runs against

    The collaborators the sources call and the library decoder they use
    are inputs of the embedding: each is asked through its call event. *)

(** a [requests] response: [.status_code], [.text], [.json()] *)
Record response : Type := Response {
  status_code : Z;
  text : string;
  json_body : outcome json
}.

(** a fetched and parsed page, scripts and styles removed:
    [soup.title.string] when there is a [soup.title], and
    [soup.get_text(separator=' ', strip=True)] *)
Record page : Type := Page {
  soup_title : option json;
  soup_text : string
}.

Record env : Type := Env {
  (** [config.YOUTUBE_TRANSCRIPT_IO_API_KEY], from the process environment *)
  YOUTUBE_TRANSCRIPT_IO_API_KEY : option string;
  (** the POST to the transcript service for [{"ids": [video_id]}] *)
  transcript_service : string -> outcome response;
  (** the session GET with its retry policy, [raise_for_status], the parse *)
  fetch_page : string -> Z -> outcome page;
  (** the text a backend returns for the summary prompt *)
  summary_backend : string -> string -> outcome string;
  (** the text a backend returns for the quiz prompt *)
  quiz_backend : string -> Z -> string -> string -> outcome string;
  (** [json.loads] *)
  json_loads : string -> outcome json
}.

(* ================================================================== *)
(** ** modules/scraper.py *)

Module WebScraper.

Import Re.

(** [(https?://)?(www\.)?(youtube|youtu|youtube-nocookie)\.(com|be)/] *)
Definition youtube_regex : regex :=
  Seq (Opt (Group 1 (Seq (Lit "http") (Seq (Opt (Lit "s")) (Lit "://")))))
   (Seq (Opt (Group 2 (Lit "www.")))
    (Seq (Group 3 (Alt (Lit "youtube") (Alt (Lit "youtu") (Lit "youtube-nocookie"))))
     (Seq (Lit ".")
      (Seq (Group 4 (Alt (Lit "com") (Lit "be")))
           (Lit "/"))))).

Definition is_youtube_url (url : string) : bool :=
  match rmatch youtube_regex url with
  | Some _ => true
  | None => false
  end.

Definition amp : ascii := ascii_of_nat 38.
Definition qmark : ascii := ascii_of_nat 63.
Definition hash : ascii := ascii_of_nat 35.

(** [[^&\n?#]+] and [[^?&]+] *)
Definition id_chars : cset := NotIn [amp; newline; qmark; hash].
Definition id_chars' : cset := NotIn [qmark; amp].

Definition patterns : list regex :=
  [ (* (?:youtube\.com\/watch\?v=|youtu\.be\/|youtube\.com\/embed\/)([^&\n?#]+) *)
    Seq (Alt (Lit "youtube.com/watch?v=")
             (Alt (Lit "youtu.be/") (Lit "youtube.com/embed/")))
        (Group 1 (Plus id_chars));
    (* (?:youtube\.com\/watch\?.*v=)([^&\n?#]+) *)
    Seq (Seq (Lit "youtube.com/watch?") (Seq (Star Dot) (Lit "v=")))
        (Group 1 (Plus id_chars));
    (* youtu\.be\/([^?&]+) *)
    Seq (Lit "youtu.be/") (Group 1 (Plus id_chars'));
    (* youtube\.com\/embed\/([^?&]+) *)
    Seq (Lit "youtube.com/embed/") (Group 1 (Plus id_chars')) ].

(** the loop over the patterns and the [return None] after it *)
Fixpoint first_match (ps : list regex) (url : string) : option string :=
  match ps with
  | [] => None
  | pattern :: ps' =>
      match search pattern url with
      | Some caps => group 1 caps
      | None => first_match ps' url
      end
  end.

Definition extract_youtube_id (url : string) : option string :=
  first_match patterns url.

(** an error result that carries the URL *)
Definition error_result (msg url : string) : json :=
  JObj [("status", JStr "error"); ("message", JStr msg); ("url", JStr url)].

(** [isinstance(v, dict) and k in v] *)
Definition dict_has (v : json) (k : string) : bool :=
  match v with
  | JObj kv => Py.has_key k kv
  | _ => false
  end.

Definition is_str (v : json) : bool :=
  match v with JStr _ => true | _ => false end.

(** [v[k]] where [v] was tested to be a dict *)
Definition subscript (v : json) (k : string) : outcome json :=
  match v with
  | JObj kv => PyExc.getitem kv k
  | _ => Raise (Exn TypeError
                  ("'" ++ Py.type_name v ++ "' object is not subscriptable"))
  end.

(** [v.keys()] printed, for the log lines *)
Definition keys (v : json) : outcome string :=
  match v with
  | JObj kv => Ret ("dict_keys(" ++ Py.keys_repr kv ++ ")")
  | _ => PyExc.attribute_error v "keys"
  end.

Definition class_repr (v : json) : string :=
  "<class '" ++ Py.type_name v ++ "'>".

(** [[item.get('text', '') for item in transcript_data if isinstance(item, dict)]] *)
Fixpoint fragment_texts (items : list json) : list json :=
  match items with
  | [] => []
  | JObj kv :: items' =>
      match Py.assoc "text" kv with
      | Some v => v :: fragment_texts items'
      | None => JStr EmptyString :: fragment_texts items'
      end
  | _ :: items' => fragment_texts items'
  end.

(** the items of [' '.join(l)]: each one has to be a str *)
Fixpoint join_items (i : Z) (l : list json) : outcome (list string) :=
  match l with
  | [] => Ret []
  | JStr s :: l' =>
      match join_items (i + 1) l' with
      | Ret ss => Ret (s :: ss)
      | Raise e => Raise e
      end
  | v :: _ =>
      Raise (Exn TypeError
               ("sequence item " ++ PyStr.of_Z i ++ ": expected str instance, "
                  ++ Py.type_name v ++ " found"))
  end.

(** Methods 1 to 4 of [get_youtube_transcript]: the value of [content]
    after the chain, [JNull] for [None] *)
Definition select_content (transcript_item : json) : M json :=
  if dict_has transcript_item "text" then
    content <- lift (subscript transcript_item "text") ;;
    log INFO "Found text in transcript_item['text']" ;;
    ret content
  else if dict_has transcript_item "tracks" then
    tracks <- lift (subscript transcript_item "tracks") ;;
    match tracks with
    | JArr (track :: _) =>
        if dict_has track "transcript" then
          transcript_data <- lift (subscript track "transcript") ;;
          items <- lift (PyExc.iter transcript_data) ;;
          texts <- lift (join_items 0 (fragment_texts items)) ;;
          log INFO "Found text in tracks[0]['transcript']" ;;
          ret (JStr (PyStr.join " " texts))
        else ret JNull
    | _ => ret JNull
    end
  else if is_str transcript_item then
    log INFO "Found direct string text" ;;
    ret transcript_item
  else if dict_has transcript_item "content" then
    content <- lift (subscript transcript_item "content") ;;
    log INFO "Found text in transcript_item['content']" ;;
    ret content
  else ret JNull.

(** [data[0]] once [data] is a non-empty list *)
Definition first_item (data : json) : outcome json :=
  match data with
  | JArr (x :: _) => Ret x
  | _ => Raise (Exn IndexError "list index out of range")
  end.

Definition is_nonempty_list (data : json) : bool :=
  match data with
  | JArr (_ :: _) => true
  | _ => false
  end.

Section WithEnv.
Variable w : env.

(** the body of the inner [try] *)
Definition transcript_body (url video_id : string) : M json :=
  match YOUTUBE_TRANSCRIPT_IO_API_KEY w with
  | None | Some EmptyString =>
      log ERROR "YOUTUBE_TRANSCRIPT_IO_API_KEY not configured" ;;
      ret (error_result
             "API key not configured. Please set YOUTUBE_TRANSCRIPT_IO_API_KEY in .env"
             url)
  | Some _ =>
      log INFO "Calling youtube-transcript.io API..." ;;
      emit (TranscriptPost video_id) ;;
      response <- lift (transcript_service w video_id) ;;
      log INFO ("API Response Status: " ++ PyStr.of_Z (status_code response)) ;;
      if negb (status_code response =? 200)%Z then
        log ERROR ("API Error " ++ PyStr.of_Z (status_code response)
                     ++ ": " ++ text response) ;;
        ret (error_result
               ("API Error: " ++ PyStr.of_Z (status_code response)
                  ++ ". Video may not have captions.")
               url)
      else
        data <- lift (json_body response) ;;
        data_keys <- lift (match data with
                           | JObj _ => keys data
                           | _ => Ret (class_repr data)
                           end) ;;
        log INFO ("API Response keys: " ++ data_keys) ;;
        if negb (is_nonempty_list data) then
          ret (error_result "⚠️ No transcript found for this video." url)
        else
          transcript_item <- lift (first_item data) ;;
          item_keys <- lift (keys transcript_item) ;;
          log INFO ("Transcript item keys: " ++ item_keys) ;;
          content <- select_content transcript_item ;;
          if negb (Py.truthy content) then
            log ERROR ("Could not extract content. Response structure: "
                         ++ match transcript_item with
                            | JObj kv => Py.keys_repr kv
                            | _ => class_repr transcript_item
                            end) ;;
            ret (error_result "Failed to parse transcript data." url)
          else
            let content := PyStr.strip (Py.str content) in
            if String.eqb content EmptyString || (PyStr.len content <? 50)%Z then
              ret (error_result "Transcript is empty or too short." url)
            else
              log INFO ("✅ Successfully extracted transcript ("
                          ++ PyStr.of_Z (PyStr.len content) ++ " chars)") ;;
              ret (JObj [("status", JStr "success");
                         ("title", JStr ("YouTube Video: " ++ video_id));
                         ("content", JStr content);
                         ("url", JStr url);
                         ("type", JStr "video")])
  end.

(** the [except] clauses of the inner [try], in their order *)
Definition transcript_handler (url : string) (e : exn) : M json :=
  match cls e with
  | Timeout =>
      log ERROR "API request timeout" ;;
      ret (error_result "Request timed out. Please try again." url)
  | JSONDecodeError =>
      log ERROR ("Failed to parse API response: " ++ message e) ;;
      ret (error_result "Failed to parse API response." url)
  | _ =>
      let error_str := PyStr.lower (message e) in
      log ERROR ("Transcript error: " ++ error_str) ;;
      if PyStr.contains "disabled" error_str then
        ret (error_result "❌ Transcripts are disabled for this video." url)
      else if PyStr.contains "not found" error_str
              || PyStr.contains "no transcript" error_str then
        ret (error_result
               "⚠️ No captions found. Try another video or use an article URL."
               url)
      else
        ret (error_result ("Failed: " ++ PyStr.slice_to 100 (message e)) url)
  end.

Definition get_youtube_transcript (url : string) : M json :=
  try_except
    (match extract_youtube_id url with
     | None | Some EmptyString =>
         ret (error_result
                "❌ Invalid YouTube URL format. Please check the URL." url)
     | Some video_id =>
         log INFO ("Processing YouTube video: " ++ video_id) ;;
         try_except (transcript_body url video_id) (transcript_handler url)
     end)
    (fun e =>
       log ERROR ("Unexpected error in get_youtube_transcript: " ++ message e) ;;
       ret (error_result ("Error: " ++ PyStr.slice_to 100 (message e)) url)).

Definition scrape_article (url : string) (timeout : Z) : M json :=
  try_except
    (emit (ArticleGet url timeout) ;;
     soup <- lift (fetch_page w url timeout) ;;
     let text := soup_text soup in
     let text := PyStr.join " " (PyStr.words text) in
     let title := match soup_title soup with
                  | Some t => t
                  | None => JStr "No title"
                  end in
     if (PyStr.len text <? 100)%Z then
       ret (error_result
              "Article content too short or unable to extract text" url)
     else
       log INFO ("Successfully scraped article from " ++ url) ;;
       ret (JObj [("status", JStr "success");
                  ("title", title);
                  ("content", JStr text);
                  ("url", JStr url);
                  ("type", JStr "article")]))
    (fun e =>
       match cls e with
       | Timeout =>
           log ERROR ("Timeout while scraping " ++ url) ;;
           ret (error_result
                  "Request timed out. Website took too long to respond." url)
       | ConnectionError =>
           log ERROR ("Connection error while scraping " ++ url) ;;
           ret (error_result
                  "Connection error. Unable to reach the website." url)
       | _ =>
           log ERROR ("Error scraping article: " ++ message e) ;;
           ret (error_result
                  ("Failed to scrape article: " ++ PyStr.slice_to 100 (message e))
                  url)
       end).

Definition extract_content (url : json) : M json :=
  if negb (Py.truthy url) || negb (is_str url) then
    ret (JObj [("status", JStr "error");
               ("message", JStr "Invalid URL provided")])
  else
    let url := PyStr.strip (Py.str url) in
    if is_youtube_url url
    then get_youtube_transcript url
    else scrape_article url 10.

End WithEnv.

End WebScraper.

(* ================================================================== *)
(** ** modules/summarizer.py *)

Module LLMSummarizer.

Section WithEnv.
Variable w : env.
Variable model_type : string.

Definition summarize_with_google (content : string) : M json :=
  try_except
    (let content_part := PyStr.slice_to 300000 content in
     emit (SummaryBackend "gemini-2.5-flash" content_part) ;;
     summary <- lift (summary_backend w "gemini-2.5-flash" content_part) ;;
     log INFO "Summary generated successfully with Gemini 2.5 Flash" ;;
     ret (JObj [("status", JStr "success");
                ("summary", JStr summary);
                ("model", JStr "google-gemini-2.5-flash")]))
    (fun e =>
       log ERROR ("Error in Google summarization: " ++ message e) ;;
       ret (JObj [("status", JStr "error");
                  ("message", JStr ("Summarization failed: " ++ message e))])).

Definition summarize_with_openai (content : string) : M json :=
  try_except
    (let content_part := PyStr.slice_to 2000 content in
     emit (SummaryBackend "gpt-3.5-turbo" content_part) ;;
     summary <- lift (summary_backend w "gpt-3.5-turbo" content_part) ;;
     log INFO "Summary generated successfully with OpenAI" ;;
     ret (JObj [("status", JStr "success");
                ("summary", JStr summary);
                ("model", JStr "openai-gpt3.5")]))
    (fun e =>
       log ERROR ("Error in OpenAI summarization: " ++ message e) ;;
       ret (JObj [("status", JStr "error");
                  ("message", JStr ("Summarization failed: " ++ message e))])).

Definition summarize (content : string) : M json :=
  if String.eqb content EmptyString || (PyStr.len content <? 100)%Z then
    ret (JObj [("status", JStr "error");
               ("message", JStr "Content too short for summarization")])
  else if String.eqb model_type "google" then summarize_with_google content
  else if String.eqb model_type "openai" then summarize_with_openai content
  else
    ret (JObj [("status", JStr "error");
               ("message", JStr "Unknown model type")]).

End WithEnv.

End LLMSummarizer.

(* ================================================================== *)
(** ** modules/quiz_generator.py *)

Module QuizGenerator.

Definition fence : string := "```".

(** the block under [# Clean markdown if present] *)
Definition clean_markdown (response_text : string) : outcome string :=
  if PyStr.startswith fence response_text then
    match nth_error (PyStr.split fence response_text) 1 with
    | None => Raise (Exn IndexError "list index out of range")
    | Some response_text =>
        let response_text :=
          if PyStr.startswith "json" response_text
          then PyStr.slice_from 4 response_text
          else response_text in
        Ret (PyStr.strip response_text)
    end
  else Ret response_text.

(** [quiz_data.get('questions', [])] *)
Definition get_questions (quiz_data : json) : outcome json :=
  match quiz_data with
  | JObj kv =>
      match Py.assoc "questions" kv with
      | Some v => Ret v
      | None => Ret (JArr [])
      end
  | _ => PyExc.attribute_error quiz_data "get"
  end.

Section WithEnv.
Variable w : env.
Variable model_type : string.
Variable num_questions : Z.

(** the [except] clauses of [generate_with_google], in their order *)
Definition google_handler (e : exn) : M json :=
  match cls e with
  | JSONDecodeError =>
      log ERROR ("JSON parse error in quiz generation: " ++ message e) ;;
      ret (JObj [("status", JStr "error");
                 ("message", JStr "Failed to parse quiz format")])
  | _ =>
      log ERROR ("Error in Google quiz generation: " ++ message e) ;;
      ret (JObj [("status", JStr "error");
                 ("message", JStr ("Quiz generation failed: " ++ message e))])
  end.

(** the [except] clauses of [generate_with_openai], in their order *)
Definition openai_handler (e : exn) : M json :=
  match cls e with
  | JSONDecodeError =>
      log ERROR "JSON parse error in OpenAI quiz generation" ;;
      ret (JObj [("status", JStr "error");
                 ("message", JStr "Failed to parse quiz format")])
  | _ =>
      log ERROR ("Error in OpenAI quiz generation: " ++ message e) ;;
      ret (JObj [("status", JStr "error");
                 ("message", JStr ("Quiz generation failed: " ++ message e))])
  end.

Definition generate_with_google (summary content : string) : M json :=
  try_except
    (let summary_part := PyStr.slice_to 1000 summary in
     let content_part := PyStr.slice_to 2000 content in
     emit (QuizBackend "gemini-2.5-flash" num_questions summary_part content_part) ;;
     text <- lift (quiz_backend w "gemini-2.5-flash" num_questions
                                summary_part content_part) ;;
     let response_text := PyStr.strip text in
     response_text <- lift (clean_markdown response_text) ;;
     quiz_data <- lift (json_loads w response_text) ;;
     log INFO "Quiz generated successfully with Gemini 2.5 Flash" ;;
     questions <- lift (get_questions quiz_data) ;;
     ret (JObj [("status", JStr "success");
                ("quiz", questions);
                ("model", JStr "google-gemini-2.5-flash")]))
    google_handler.

Definition generate_with_openai (summary content : string) : M json :=
  try_except
    (let summary_part := PyStr.slice_to 1000 summary in
     let content_part := PyStr.slice_to 2000 content in
     emit (QuizBackend "gpt-3.5-turbo" num_questions summary_part content_part) ;;
     text <- lift (quiz_backend w "gpt-3.5-turbo" num_questions
                                summary_part content_part) ;;
     let response_text := PyStr.strip text in
     response_text <- lift (clean_markdown response_text) ;;
     quiz_data <- lift (json_loads w response_text) ;;
     log INFO "Quiz generated successfully with OpenAI" ;;
     questions <- lift (get_questions quiz_data) ;;
     ret (JObj [("status", JStr "success");
                ("quiz", questions);
                ("model", JStr "openai-gpt3.5")]))
    openai_handler.

Definition generate (summary content : string) : M json :=
  if String.eqb model_type "google" then generate_with_google summary content
  else if String.eqb model_type "openai" then generate_with_openai summary content
  else
    ret (JObj [("status", JStr "error");
               ("message", JStr "Unknown model type")]).

End WithEnv.

End QuizGenerator.

(* ================================================================== *)
(** ** main.py *)

Module main.

Definition error_body (msg : string) : json :=
  JObj [("status", JStr "error"); ("message", JStr msg)].

(** [v != 'success'] *)
Definition not_success (v : json) : bool :=
  match v with
  | JStr s => negb (String.eqb s "success")
  | _ => true
  end.

(** [data.get('url', '')] *)
Definition get_url (data : json) : outcome json :=
  match data with
  | JObj kv =>
      match Py.assoc "url" kv with
      | Some v => Ret v
      | None => Ret (JStr EmptyString)
      end
  | _ => PyExc.attribute_error data "get"
  end.

(** [v.strip()] *)
Definition strip (v : json) : outcome string :=
  match v with
  | JStr s => Ret (PyStr.strip s)
  | _ => PyExc.attribute_error v "strip"
  end.

(** a value the stage that built it always makes a str, read back as one *)
Definition as_str (v : json) : outcome string :=
  match v with
  | JStr s => Ret s
  | _ => Raise (Exn TypeError ("expected str, got " ++ Py.type_name v))
  end.

Section WithEnv.
Variable w : env.

Definition extract_content := WebScraper.extract_content w.
Definition summarize := LLMSummarizer.summarize w config.SUMMARIZATION_MODEL.
Definition generate :=
  QuizGenerator.generate w config.SUMMARIZATION_MODEL config.NUM_QUIZ_QUESTIONS.

(** the handler of [POST /api/process-url]; [data] is [request.get_json()],
    the value is the pair of the JSON body and the status code *)
Definition process_url (data : json) : M (json * Z) :=
  try_except
    (url <- lift (get_url data) ;;
     url <- lift (strip url) ;;
     if String.eqb url EmptyString then
       ret (error_body "URL is required", 400%Z)
     else
       let (is_safe, msg) := ContentGuardrails.validate_url url in
       if negb is_safe then ret (error_body msg, 400%Z)
       else
         log INFO ("Processing URL: " ++ url) ;;
         extraction_result <- extract_content (JStr url) ;;
         status <- lift (WebScraper.subscript extraction_result "status") ;;
         if not_success status then ret (extraction_result, 400%Z)
         else
           title <- lift (WebScraper.subscript extraction_result "title") ;;
           content <- lift (WebScraper.subscript extraction_result "content") ;;
           content_type <- lift (WebScraper.subscript extraction_result "type") ;;
           n <- lift (PyExc.len content) ;;
           log INFO ("Content extracted. Type: " ++ Py.str content_type
                       ++ ", Length: " ++ PyStr.of_Z n) ;;
           content <- lift (as_str content) ;;
           summary_result <- summarize content ;;
           status <- lift (WebScraper.subscript summary_result "status") ;;
           if not_success status then ret (summary_result, 500%Z)
           else
             summary <- lift (WebScraper.subscript summary_result "summary") ;;
             summary <- lift (as_str summary) ;;
             v <- ContentGuardrails.validate_summary summary ;;
             let (is_valid, msg) := v : bool * string in
             if negb is_valid then
               log WARNING ("Summary validation failed: " ++ msg) ;;
               ret (error_body msg, 400%Z)
             else
               log INFO ("Summary generated. Length: "
                           ++ PyStr.of_Z (PyStr.len summary)) ;;
               quiz_result <- generate summary content ;;
               status <- lift (WebScraper.subscript quiz_result "status") ;;
               if not_success status then ret (quiz_result, 500%Z)
               else
                 quiz <- lift (WebScraper.subscript quiz_result "quiz") ;;
                 v <- lift (ContentGuardrails.validate_quiz quiz) ;;
                 let (is_valid, msg) := v : bool * string in
                 (if negb is_valid
                  then log WARNING ("Quiz validation failed: " ++ msg)
                  else ret tt) ;;
                 n <- lift (PyExc.len quiz) ;;
                 log INFO ("Quiz generated with " ++ PyStr.of_Z n ++ " questions") ;;
                 ret (JObj [("status", JStr "success");
                            ("data", JObj [("title", title);
                                           ("content_type", content_type);
                                           ("summary", JStr summary);
                                           ("quiz", quiz);
                                           ("url", JStr url)])],
                      200%Z))
    (fun e =>
       log ERROR ("Unexpected error in process_url: " ++ message e) ;;
       ret (error_body "Internal server error", 500%Z)).

End WithEnv.

End main.

(* ================================================================== *)
(** * Vocabulary of the properties

    The relations the executable tests decide, the shapes of the results
    the stages hand on, the predicates on events, and the environments
    the examples run in. *)

(** ** Strings and guardrails *)

(** [p] occurs in [s]: the relation [contains] decides *)
Definition occurs (p s : string) : Prop :=
  exists a b, s = a ++ p ++ b.

(** a guardrail outcome [(True, msg)] for some [msg] *)
Definition accepts (o : outcome (bool * string)) : Prop :=
  exists msg, o = Ret (true, msg).

(** [(False, msg)] for some [msg] *)
Definition rejects (o : outcome (bool * string)) : Prop :=
  exists msg, o = Ret (false, msg).

(** no deny-list keyword occurs in the lowercased summary *)
Definition clean (summary : string) : Prop :=
  forall p, In p ContentGuardrails.forbidden_patterns ->
            ~ occurs p (PyStr.lower summary).

(** the three question types *)
Definition known_types : list string :=
  ["multiple_choice"; "true_false"; "fill_blank"].

(** the fields a question of a known type has to hold *)
Definition required_of (t : string) : list string :=
  if String.eqb t "multiple_choice"
  then ["id"; "question"; "options"; "correct_answer"]
  else ["id"; "question"; "correct_answer"].

(** a question the validation lets through: a dict whose [type] is one of
    the three known strings and that holds every field required for it;
    nothing is asked of the values *)
Definition well_formed (q : json) : Prop :=
  match q with
  | JObj kv =>
      exists t, Py.assoc "type" kv = Some (JStr t)
                /\ In t known_types
                /\ forall f, In f (required_of t) -> Py.has_key f kv = true
  | _ => False
  end.

(** a question dict whose [type], when there is one, can be looked up in
    a dict (it is no list and no dict itself) *)
Definition plain_question (q : json) : Prop :=
  match q with
  | JObj kv => forall v, Py.assoc "type" kv = Some v -> Py.hashable v = true
  | _ => False
  end.

(** ** Patterns *)

(** every character of [w] is in the set [c] *)
Fixpoint all_in (c : Re.cset) (w : string) : Prop :=
  match w with
  | EmptyString => True
  | String a w' => Re.mem c a = true /\ all_in c w'
  end.

(** [r] can match a prefix of [s] and leave [rest] *)
Fixpoint matches (r : Re.regex) (s rest : string) : Prop :=
  match r with
  | Re.Lit p => s = p ++ rest
  | Re.Plus c =>
      exists a w, s = String a (w ++ rest) /\ Re.mem c a = true /\ all_in c w
  | Re.Star c => exists w, s = w ++ rest /\ all_in c w
  | Re.Opt r1 => matches r1 s rest \/ s = rest
  | Re.Alt r1 r2 => matches r1 s rest \/ matches r2 s rest
  | Re.Seq r1 r2 => exists mid, matches r1 s mid /\ matches r2 mid rest
  | Re.Group _ r1 => matches r1 s rest
  end.

(** ** Triples for effectful code *)

(** [sat m Q E T]: every event of [m] satisfies [T], and [m] ends with a
    value in [Q] or with an exception in [E] *)
Definition sat {A} (m : M A) (Q : A -> Prop) (E : exn -> Prop)
           (T : event -> Prop) : Prop :=
  Forall T (trace m)
  /\ match result m with
     | Ret a => Q a
     | Raise e => E e
     end.

Definition any {A} : A -> Prop := fun _ => True.
Definition never {A} : A -> Prop := fun _ => False.

(** ** The extractor *)

(** what [youtube_regex] lets a URL start with, part by part *)
Definition schemes : list string := [""; "http://"; "https://"].
Definition www_prefixes : list string := [""; "www."].
Definition host_names : list string := ["youtube"; "youtu"; "youtube-nocookie"].
Definition host_suffixes : list string := ["com"; "be"].

(** the three hosts the specification names *)
Definition named_hosts : list string :=
  ["youtube.com"; "youtu.be"; "youtube-nocookie.com"].

(** the hosts [youtube_regex] lets through *)
Definition matched_hosts : list string :=
  ["youtube.com"; "youtube.be"; "youtu.com"; "youtu.be";
   "youtube-nocookie.com"; "youtube-nocookie.be"].

(** [url] starts with an optional scheme, an optional [www.], one of
    [hosts] and a slash *)
Definition video_url (hosts : list string) (url : string) : Prop :=
  exists scheme www host rest,
    In scheme schemes /\ In www www_prefixes /\ In host hosts
    /\ url = scheme ++ www ++ host ++ "/" ++ rest.

(** the results of the two extraction paths for [url]: an error result
    that carries [url], or a success result with its five fields *)
Definition path_result (url : string) (v : json) : Prop :=
  (exists msg, v = WebScraper.error_result msg url)
  \/ (exists title content type,
         v = JObj [("status", JStr "success"); ("title", title);
                   ("content", JStr content); ("url", JStr url);
                   ("type", JStr type)]).

(** predicates on events: not a page fetch, not a transcript call *)
Definition not_article_get (ev : event) : Prop :=
  match ev with ArticleGet _ _ => False | _ => True end.

Definition not_transcript_post (ev : event) : Prop :=
  match ev with TranscriptPost _ => False | _ => True end.

(** a log line: what guardrails and the handler themselves produce *)
Definition is_log (ev : event) : Prop :=
  match ev with Log _ _ => True | _ => False end.

(** [T] holds of the events of the video path; of the article path *)
Definition video_event (T : event -> Prop) : Prop :=
  (forall l msg, T (Log l msg)) /\ (forall id, T (TranscriptPost id)).

Definition article_event (T : event -> Prop) : Prop :=
  (forall l msg, T (Log l msg)) /\ (forall u t, T (ArticleGet u t)).

(** an environment for the examples: a transcript key is configured, the
    transcript service answers 404, no page can be reached (an empty URL
    is refused for its missing scheme), the summary backend fails, the
    quiz backend answers [{}], which the decoder knows *)
Definition demo : env :=
  {| YOUTUBE_TRANSCRIPT_IO_API_KEY := Some "key";
     transcript_service := fun _ =>
       Ret {| status_code := 404; text := "Not Found";
              json_body := Raise (Exn JSONDecodeError "Expecting value") |};
     fetch_page := fun url _ =>
       if String.eqb url EmptyString
       then Raise (Exn OtherException
                     "Invalid URL '': No scheme supplied. Perhaps you meant https://?")
       else Raise (Exn ConnectionError "unreachable");
     summary_backend := fun _ _ => Raise (Exn OtherException "quota exceeded");
     quiz_backend := fun _ _ _ _ => Ret "{}";
     json_loads := fun s =>
       if String.eqb s "{}" then Ret (JObj [])
       else Raise (Exn JSONDecodeError "Expecting value") |}.

(** a video identifier: not empty, and free of the four characters that
    end an identifier in a URL ([&], newline, [?], [#]) *)
Definition identifier (id : string) : Prop :=
  id <> EmptyString /\ all_in WebScraper.id_chars id.

(** what may stand in front of the host in a video URL *)
Definition url_prefixes : list string :=
  [""; "www."; "http://"; "http://www."; "https://"; "https://www."].

(** the first of the four patterns of [extract_youtube_id] *)
Definition first_pattern : Re.regex :=
  Re.Seq (Re.Alt (Re.Lit "youtube.com/watch?v=")
                 (Re.Alt (Re.Lit "youtu.be/") (Re.Lit "youtube.com/embed/")))
         (Re.Group 1 (Re.Plus WebScraper.id_chars)).

(** the parse-error result of [get_youtube_transcript] *)
Definition parse_error (url : string) : json :=
  WebScraper.error_result "Failed to parse transcript data." url.

(** what [get_youtube_transcript] answers once [content] is chosen *)
Definition transcript_result (url video_id : string) (content : json) : json :=
  if negb (Py.truthy content) then parse_error url
  else
    let text := PyStr.strip (Py.str content) in
    if String.eqb text EmptyString || (PyStr.len text <? 50)%Z
    then WebScraper.error_result "Transcript is empty or too short." url
    else JObj [("status", JStr "success");
               ("title", JStr ("YouTube Video: " ++ video_id));
               ("content", JStr text);
               ("url", JStr url);
               ("type", JStr "video")].

(** an environment in which the transcript service answers [data] *)
Definition transcripts (data : json) : env :=
  {| YOUTUBE_TRANSCRIPT_IO_API_KEY := Some "key";
     transcript_service := fun _ =>
       Ret {| status_code := 200; text := ""; json_body := Ret data |};
     fetch_page := fetch_page demo;
     summary_backend := summary_backend demo;
     quiz_backend := quiz_backend demo;
     json_loads := json_loads demo |}.

(** a transcript of more than 50 characters *)
Definition sample_text : string :=
  "The quick brown fox jumps over the lazy dog, again and again and again.".

(** the error result of [extract_content] for an input that is no URL *)
Definition invalid_url_result : json :=
  JObj [("status", JStr "error"); ("message", JStr "Invalid URL provided")].

(** the field [k] of a result dictionary *)
Definition field (k : string) (v : json) : option json :=
  match v with
  | JObj kv => Py.assoc k kv
  | _ => None
  end.

(** ** The quiz generator *)

Definition backtick : ascii := ascii_of_nat 96.

(** no backtick in [s] *)
Fixpoint plain (s : string) : Prop :=
  match s with
  | EmptyString => True
  | String c s' => c <> backtick /\ plain s'
  end.

(** the language tag the generator knows, taken off the front of a block *)
Definition untag (block : string) : string :=
  if PyStr.startswith "json" block then PyStr.slice_from 4 block else block.

(** the one call [generate_with_google] makes, and what it is answered *)
Definition quiz_call (n : Z) (summary content : string) : event :=
  QuizBackend "gemini-2.5-flash" n
    (PyStr.slice_to 1000 summary) (PyStr.slice_to 2000 content).



Definition quiz_parse_error : json :=
  JObj [("status", JStr "error");
        ("message", JStr "Failed to parse quiz format")].

Definition quiz_generation_failed (e : exn) : json :=
  JObj [("status", JStr "error");
        ("message", JStr ("Quiz generation failed: " ++ message e))].

(** ** The request handler *)

(** the URL of a request: [data.get('url', '').strip()] *)
Definition request_url (data : json) : outcome string :=
  match main.get_url data with
  | Ret v => main.strip v
  | Raise e => Raise e
  end.

(** a stage result that makes the handler stop *)
Definition failed (v : json) : Prop :=
  exists st, field "status" v = Some st /\ main.not_success st = true.

(** the results the stages hand to the handler *)
Definition stage_error (msg : string) : json :=
  JObj [("status", JStr "error"); ("message", JStr msg)].

Definition extraction_success (title : json) (content url : string) (type : json)
  : json :=
  JObj [("status", JStr "success"); ("title", title);
        ("content", JStr content); ("url", JStr url); ("type", type)].

Definition summary_success (summary model : string) : json :=
  JObj [("status", JStr "success"); ("summary", JStr summary);
        ("model", JStr model)].

Definition generation_success (quiz : json) (model : string) : json :=
  JObj [("status", JStr "success"); ("quiz", quiz); ("model", JStr model)].

(** predicates on events: no backend call, no quiz backend call *)
Definition not_backend (ev : event) : Prop :=
  match ev with
  | SummaryBackend _ _ | QuizBackend _ _ _ _ => False
  | _ => True
  end.

Definition not_quiz_backend (ev : event) : Prop :=
  match ev with
  | QuizBackend _ _ _ _ => False
  | _ => True
  end.

(** the body of the 500 response of the top-level [except] *)
Definition internal_error : json := main.error_body "Internal server error".

(** the body of the 200 response *)
Definition envelope (title content_type : json) (summary : string)
           (quiz : json) (url : string) : json :=
  JObj [("status", JStr "success");
        ("data", JObj [("title", title); ("content_type", content_type);
                       ("summary", JStr summary); ("quiz", quiz);
                       ("url", JStr url)])].

(** the events up to the call of the summarizer, and those of the call *)
Definition until_summary (w : env) (url : string) (content_type : json)
           (content : string) : list event :=
  (Log INFO ("Processing URL: " ++ url)
     :: trace (main.extract_content w (JStr url))
     ++ Log INFO ("Content extracted. Type: " ++ Py.str content_type
                    ++ ", Length: " ++ PyStr.of_Z (PyStr.len content))
     :: trace (main.summarize w content))%list.

(** the events up to the call of the quiz generator, and those of the call *)
Definition until_quiz (w : env) (url : string) (content_type : json)
           (content summary : string) : list event :=
  (until_summary w url content_type content
     ++ trace (ContentGuardrails.validate_summary summary)
     ++ Log INFO ("Summary generated. Length: "
                    ++ PyStr.of_Z (PyStr.len summary))
     :: trace (main.generate w summary content))%list.

(** the text of a page, and a summary of it, each of 100 characters or
    more *)
Definition article_text : string :=
  "Rivers carry water from the mountains to the sea. Along the way they shape valleys, feed lakes and wetlands, and give towns their drinking water.".

Definition summary_text : string :=
  "Rivers move water from high ground to the sea, carve valleys on the way, fill lakes and wetlands, and supply towns with water.".

(** a double quote *)
Definition dquote : string := String PyStr.quote2 EmptyString.

(** the text [{"questions": null}] *)
Definition null_questions : string :=
  "{" ++ dquote ++ "questions" ++ dquote ++ ": null}".

(** the text [{"questions": ["What is a river?"]}] *)
Definition string_questions : string :=
  "{" ++ dquote ++ "questions" ++ dquote ++ ": [" ++ dquote
      ++ "What is a river?" ++ dquote ++ "]}".

(** an environment in which the page is fetched, the summary backend
    answers [summary_text], the quiz backend answers the text [answer],
    and the decoder reads [answer] as [decoded] *)
Definition answering (answer : string) (decoded : json) : env :=
  {| YOUTUBE_TRANSCRIPT_IO_API_KEY := None;
     transcript_service := transcript_service demo;
     fetch_page := fun _ _ =>
       Ret {| soup_title := Some (JStr "Rivers"); soup_text := article_text |};
     summary_backend := fun _ _ => Ret summary_text;
     quiz_backend := fun _ _ _ _ => Ret answer;
     json_loads := fun s =>
       if String.eqb s answer then Ret decoded
       else Raise (Exn JSONDecodeError "Expecting value") |}.

(** the quiz backend answers [{"questions": null}] *)
Definition null_env : env :=
  answering null_questions (JObj [("questions", JNull)]).

(** the quiz backend answers [{}] *)
Definition empty_env : env := answering "{}" (JObj []).

(** the request body [{"url": "https://example.com/article"}] *)
Definition article_request : json :=
  JObj [("url", JStr "https://example.com/article")].

(** ** The summarizer and the quiz backends *)

(** a summarizer result: failure with [msg], success with [summary] *)
Definition summary_failed (e : exn) : json :=
  stage_error ("Summarization failed: " ++ message e).

(** the calls of collaborators among the events: everything but log lines *)
Definition calls (t : list event) : list event :=
  filter (fun ev => match ev with Log _ _ => false | _ => true end) t.

(** [s[:n]]: a prefix of [s] of at most [n] characters *)
Definition prefix_upto (n : Z) (part s : string) : Prop :=
  (exists rest, s = part ++ rest) /\ (PyStr.len part <= n)%Z.

(** what an exception becomes in a quiz backend method *)
Definition quiz_failure (e : exn) : json :=
  match cls e with
  | JSONDecodeError => quiz_parse_error
  | _ => quiz_generation_failed e
  end.

(** what a quiz backend method makes of the decoded text *)
Definition quiz_of_decoded (name : string) (decoded : outcome json) : json :=
  match decoded with
  | Ret (JObj kv) =>
      generation_success
        match Py.assoc "questions" kv with
        | Some questions => questions
        | None => JArr []
        end
        name
  | Ret v =>
      quiz_generation_failed
        (Exn AttributeError
           ("'" ++ Py.type_name v ++ "' object has no attribute 'get'"))
  | Raise e => quiz_failure e
  end.

(** what a quiz backend method makes of the backend's answer *)
Definition quiz_of_answer (w : env) (name : string) (answer : outcome string)
  : json :=
  match answer with
  | Raise e => quiz_failure e
  | Ret text =>
      match QuizGenerator.clean_markdown (PyStr.strip text) with
      | Ret t => quiz_of_decoded name (json_loads w t)
      | Raise e => quiz_failure e
      end
  end.

(** ** The article path *)

(** no whitespace character in [s] *)
Fixpoint nospace (s : string) : Prop :=
  match s with
  | EmptyString => True
  | String c s' => PyStr.isspace c = false /\ nospace s'
  end.

(** a word: not empty, no whitespace in it *)
Definition word (s : string) : Prop := s <> EmptyString /\ nospace s.

(** [' '.join(text.split())] *)
Definition collapse (text : string) : string :=
  PyStr.join " " (PyStr.words text).

(** what [scrape_article] answers for a page *)
Definition article_result (url : string) (soup : page) : json :=
  if (PyStr.len (collapse (soup_text soup)) <? 100)%Z
  then WebScraper.error_result
         "Article content too short or unable to extract text" url
  else extraction_success
         match soup_title soup with Some t => t | None => JStr "No title" end
         (collapse (soup_text soup)) url (JStr "article").

(** what [scrape_article] answers for an exception *)
Definition article_failure (url : string) (e : exn) : json :=
  match cls e with
  | Timeout =>
      WebScraper.error_result
        "Request timed out. Website took too long to respond." url
  | ConnectionError =>
      WebScraper.error_result
        "Connection error. Unable to reach the website." url
  | _ =>
      WebScraper.error_result
        ("Failed to scrape article: " ++ PyStr.slice_to 100 (message e)) url
  end.

(** ** The video path *)

(** the transcript key is set and not empty *)
Definition configured (w : env) : bool :=
  match YOUTUBE_TRANSCRIPT_IO_API_KEY w with
  | Some (String _ _) => true
  | _ => false
  end.

(** the error result of the video path for a missing key *)
Definition not_configured (url : string) : json :=
  WebScraper.error_result
    "API key not configured. Please set YOUTUBE_TRANSCRIPT_IO_API_KEY in .env"
    url.

(** a result of the video path: an error, or a transcript of [video_id]
    that is stripped and has 50 characters or more *)
Definition checked_transcript (url video_id : string) (v : json) : Prop :=
  (exists msg, v = WebScraper.error_result msg url)
  \/ (exists content,
         v = extraction_success (JStr ("YouTube Video: " ++ video_id)) content
               url (JStr "video")
         /\ (50 <= PyStr.len content)%Z
         /\ PyStr.strip content = content).

(** the exception reached the transcript handler from the service: the
    POST raised it, or decoding the body of a 200 response did *)
Definition service_raises (w : env) (video_id : string) (e : exn) : Prop :=
  transcript_service w video_id = Raise e
  \/ exists resp, transcript_service w video_id = Ret resp
                  /\ status_code resp = 200%Z
                  /\ json_body resp = Raise e.

(** an environment whose transcript service raises [e] *)
Definition raising (e : exn) : env :=
  {| YOUTUBE_TRANSCRIPT_IO_API_KEY := Some "key";
     transcript_service := fun _ => Raise e;
     fetch_page := fetch_page demo;
     summary_backend := summary_backend demo;
     quiz_backend := quiz_backend demo;
     json_loads := json_loads demo |}.

(** ** The request handler: answers and calls *)

(** a response body of a failure: [status] is [error], [message] a str *)
Definition error_response (body : json) : Prop :=
  field "status" body = Some (JStr "error")
  /\ exists msg, field "message" body = Some (JStr msg).

(** what the handler answers: the envelope with 200, or an error body
    with 400 or 500 *)
Definition answered (body : json) (code : Z) : Prop :=
  (code = 200%Z
   /\ exists title content_type summary quiz url,
        body = envelope title content_type summary quiz url)
  \/ ((code = 400%Z \/ code = 500%Z) /\ error_response body).

(** the three kinds of calls *)
Definition asks_extractor (ev : event) : Prop :=
  match ev with
  | TranscriptPost _ | ArticleGet _ _ => True
  | _ => False
  end.

Definition asks_summarizer (ev : event) : Prop :=
  match ev with
  | SummaryBackend _ _ => True
  | _ => False
  end.

Definition asks_quiz (ev : event) : Prop :=
  match ev with
  | QuizBackend _ _ _ _ => True
  | _ => False
  end.

(** the calls of one request: the extractor, then the summarizer, then
    the quiz backend, each once, stopping anywhere; a 200 has all three *)
Definition call_chain (code : Z) (cs : list event) : Prop :=
  match cs with
  | [] => code <> 200%Z
  | [e] => asks_extractor e /\ code <> 200%Z
  | [e; s] => asks_extractor e /\ asks_summarizer s /\ code <> 200%Z
  | [e; s; q] => asks_extractor e /\ asks_summarizer s /\ asks_quiz q
  | _ => False
  end.

(** the request body [{"url": "https://youtu.be/abc"}] *)
Definition video_request : json :=
  JObj [("url", JStr "https://youtu.be/abc")].

(** an environment with a transcript of 71 characters *)
Definition short_video : env :=
  transcripts (JArr [JObj [("text", JStr sample_text)]]).

(** ** Guardrails: reasons *)

(** [p] is the first of the patterns [ps] that occurs in [u] *)
Definition first_found (ps : list string) (p u : string) : Prop :=
  exists before after,
    ps = (before ++ p :: after)%list
    /\ (forall q, In q before -> ~ occurs q u)
    /\ occurs p u.

(** [f] is the first of the fields [fs] that the question lacks *)
Definition first_missing (fs : list string) (f : string)
           (kv : list (string * json)) : Prop :=
  exists before after,
    fs = (before ++ f :: after)%list
    /\ (forall g, In g before -> Py.has_key g kv = true)
    /\ Py.has_key f kv = false.

(** the exception of [q.get] on a question that is no dict *)
Definition no_get (q : json) : exn :=
  Exn AttributeError ("'" ++ Py.type_name q ++ "' object has no attribute 'get'").

(** the exception of looking up a [type] that is a list or a dict *)
Definition unhashable (v : json) : exn :=
  Exn TypeError ("unhashable type: '" ++ Py.type_name v ++ "'").

Definition is_dict (v : json) : bool :=
  match v with JObj _ => true | _ => false end.


(** ** Video URLs without an identifier *)

(** the three pieces of text one of which a URL has to hold for
    [extract_youtube_id] to find an identifier *)
Definition id_forms : list string :=
  ["youtu.be/"; "youtube.com/embed/"; "youtube.com/watch?"].

(** paths of video pages that none of the four patterns knows *)
Definition unknown_forms : list string :=
  ["youtube.com/shorts/"; "youtube.com/live/"; "youtube.com/v/";
   "youtube-nocookie.com/embed/"].

(** the error result of the video path for a URL without identifier *)
Definition invalid_video_url (url : string) : json :=
  WebScraper.error_result
    "❌ Invalid YouTube URL format. Please check the URL." url.

(** ** What a 200 response holds *)

(** the body is the envelope of a request that went through every
    stage: the URL is the stripped URL of the request, title and type
    are those of the extraction, the summary is the summarizer's and was
    accepted by the guardrail, the quiz is the generator's *)
Definition served (w : env) (data body : json) : Prop :=
  exists url title content_type content summary summary_model quiz quiz_model,
    request_url data = Ret url
    /\ url <> EmptyString
    /\ fst (ContentGuardrails.validate_url url) = true
    /\ result (main.extract_content w (JStr url))
       = Ret (extraction_success title content url content_type)
    /\ result (main.summarize w content)
       = Ret (summary_success summary summary_model)
    /\ accepts (result (ContentGuardrails.validate_summary summary))
    /\ result (main.generate w summary content)
       = Ret (generation_success quiz quiz_model)
    /\ body = envelope title content_type summary quiz url.

(** ** The later patterns *)

(** the first two of the four patterns *)
Definition leading_patterns : list Re.regex := firstn 2 WebScraper.patterns.

(** what may follow an identifier: nothing, or a character that ends it
    and anything after *)
Definition id_end (tail : string) : Prop :=
  match tail with
  | EmptyString => True
  | String d _ => Re.mem WebScraper.id_chars d = false
  end.

(* ================================================================== *)
(** * Properties *)

(** ** Strings *)

Lemma append_nil_r (s : string) : s ++ EmptyString = s.
Proof. induction s as [|c s IH]; simpl; [reflexivity | now rewrite IH]. Qed.

Lemma append_assoc (a b c : string) : (a ++ b) ++ c = a ++ b ++ c.
Proof. induction a as [|x a IH]; simpl; [reflexivity | now rewrite IH]. Qed.

Lemma length_append (a b : string) :
  String.length (a ++ b) = String.length a + String.length b.
Proof. induction a as [|x a IH]; simpl; [reflexivity | now rewrite IH]. Qed.

Lemma startswith_spec (p s : string) :
  PyStr.startswith p s = true <-> exists b, s = p ++ b.
Proof.
  revert s. induction p as [|a p IH]; intros s; simpl.
  - split; [intros _; now exists s | reflexivity].
  - destruct s as [|b s].
    + split; [discriminate | intros [r H]; discriminate].
    + destruct (Ascii.eqb_spec a b) as [->|Hab].
      * rewrite IH. split; intros [r H]; exists r.
        -- now rewrite H.
        -- now inversion H.
      * split; [discriminate | intros [r H]; inversion H; subst; now elim Hab].
Qed.

Lemma startswith_append (p b : string) : PyStr.startswith p (p ++ b) = true.
Proof. apply startswith_spec. now exists b. Qed.

Lemma contains_unfold (p s : string) :
  PyStr.contains p s =
  if PyStr.startswith p s then true
  else match s with
       | EmptyString => false
       | String _ s' => PyStr.contains p s'
       end.
Proof. destruct s; reflexivity. Qed.

Lemma contains_spec (p s : string) :
  PyStr.contains p s = true <-> occurs p s.
Proof.
  unfold occurs. split.
  - induction s as [|c s IH]; rewrite contains_unfold;
      destruct (PyStr.startswith p _) eqn:E; intros H; try discriminate.
    + apply startswith_spec in E. destruct E as [b E]. now exists EmptyString, b.
    + apply startswith_spec in E. destruct E as [b E]. now exists EmptyString, b.
    + destruct (IH H) as [a [b E']]. exists (String c a), b. simpl. now rewrite E'.
  - intros [a [b ->]]. induction a as [|c a IH]; rewrite contains_unfold.
    + simpl. now rewrite startswith_append.
    + destruct (PyStr.startswith p _); [reflexivity | exact IH].
Qed.

Lemma contains_false (p s : string) :
  PyStr.contains p s = false <-> ~ occurs p s.
Proof.
  rewrite <- contains_spec. destruct (PyStr.contains p s); split; intros H;
    try reflexivity; try discriminate; try (intros E; discriminate).
  exfalso. now apply H.
Qed.

Lemma lower_append (a b : string) :
  PyStr.lower (a ++ b) = PyStr.lower a ++ PyStr.lower b.
Proof. induction a as [|c a IH]; simpl; [reflexivity | now rewrite IH]. Qed.

Lemma occurs_lower (a v b p : string) :
  PyStr.lower v = p -> occurs p (PyStr.lower (a ++ v ++ b)).
Proof.
  intros <-. exists (PyStr.lower a), (PyStr.lower b).
  now rewrite !lower_append.
Qed.

(** ** Guardrails: [validate_url] *)

Lemma scan_protocols_spec (ps : list string) (u : string) :
  (ContentGuardrails.scan_protocols ps u = (true, "URL is safe")
   /\ forall p, In p ps -> ~ occurs p u)
  \/ (ContentGuardrails.scan_protocols ps u = (false, "Unsafe URL protocol detected")
      /\ exists p, In p ps /\ occurs p u).
Proof.
  induction ps as [|p ps IH]; simpl.
  - left. split; [reflexivity | intros p []].
  - destruct (PyStr.contains p u) eqn:E.
    + right. split; [reflexivity|]. exists p. split; [now left|].
      now apply contains_spec.
    + apply contains_false in E. destruct IH as [[H1 H2]|[H1 [q [H2 H3]]]].
      * left. split; [exact H1|]. intros q [<-|Hq]; [exact E | now apply H2].
      * right. split; [exact H1|]. exists q. split; [now right | exact H3].
Qed.

(** C8. [validate_url] returns ok exactly when the lowercased URL holds
    none of [javascript:], [data:], [vbscript:] anywhere; any URL that
    holds one of them in any letter case, at any place, is rejected;
    ["javascript:alert(1)"] is rejected and ["https://example.com"] is
    accepted. *)
Theorem validate_url_spec :
  (forall url,
      (ContentGuardrails.validate_url url = (true, "URL is safe") <->
       ~ occurs "javascript:" (PyStr.lower url)
       /\ ~ occurs "data:" (PyStr.lower url)
       /\ ~ occurs "vbscript:" (PyStr.lower url))
      /\ (ContentGuardrails.validate_url url = (true, "URL is safe")
          \/ ContentGuardrails.validate_url url
             = (false, "Unsafe URL protocol detected")))
  /\ (forall a v b p,
         In p ContentGuardrails.dangerous_protocols -> PyStr.lower v = p ->
         ContentGuardrails.validate_url (a ++ v ++ b)
         = (false, "Unsafe URL protocol detected"))
  /\ ContentGuardrails.validate_url "javascript:alert(1)"
     = (false, "Unsafe URL protocol detected")
  /\ ContentGuardrails.validate_url "https://example.com" = (true, "URL is safe")
  /\ ContentGuardrails.validate_url "https://example.com/?next=data:1"
     = (false, "Unsafe URL protocol detected").
Proof.
  split; [|split; [|repeat split; reflexivity]].
  - intros url. unfold ContentGuardrails.validate_url.
    destruct (scan_protocols_spec ContentGuardrails.dangerous_protocols
                (PyStr.lower url)) as [[H1 H2]|[H1 [q [H2 H3]]]]; rewrite H1.
    + split; [|now left]. split; [intros _|reflexivity].
      repeat split; apply H2; simpl; auto.
    + split; [|now right]. split; [discriminate|].
      intros [Ha [Hb Hc]]. exfalso.
      simpl in H2. destruct H2 as [<-|[<-|[<-|[]]]]; auto.
  - intros a v b p Hin Hv. unfold ContentGuardrails.validate_url.
    destruct (scan_protocols_spec ContentGuardrails.dangerous_protocols
                (PyStr.lower (a ++ v ++ b))) as [[H1 H2]|[H1 _]]; [|exact H1].
    exfalso. apply (H2 p Hin). now apply occurs_lower.
Qed.

(** ** Guardrails: [validate_summary] *)

Lemma accepts_not_rejects (o : outcome (bool * string)) :
  accepts o -> rejects o -> False.
Proof. intros [m1 H1] [m2 H2]. rewrite H1 in H2. discriminate. Qed.

Lemma scan_patterns_spec (ps : list string) (u : string) :
  (result (ContentGuardrails.scan_patterns ps u)
     = Ret (true, "Summary passed validation")
   /\ forall p, In p ps -> ~ occurs p u)
  \/ (result (ContentGuardrails.scan_patterns ps u)
        = Ret (false, "Content contains inappropriate material")
      /\ exists p, In p ps /\ occurs p u).
Proof.
  induction ps as [|p ps IH]; simpl.
  - left. split; [reflexivity | intros p []].
  - destruct (PyStr.contains p u) eqn:E.
    + right. split; [reflexivity|]. exists p. split; [now left|].
      now apply contains_spec.
    + apply contains_false in E. destruct IH as [[H1 H2]|[H1 [q [H2 H3]]]].
      * left. split; [exact H1|]. intros q [<-|Hq]; [exact E | now apply H2].
      * right. split; [exact H1|]. exists q. split; [now right | exact H3].
Qed.

Lemma len_nonneg (s : string) : (0 <= PyStr.len s)%Z.
Proof. unfold PyStr.len. lia. Qed.

Lemma len_empty (s : string) : PyStr.len s = 0%Z <-> s = EmptyString.
Proof.
  unfold PyStr.len. destruct s; simpl; split; intros H;
    try reflexivity; try discriminate; lia.
Qed.

(** the three outcomes of [validate_summary] before the deny-list *)
Lemma validate_summary_cases (summary : string) :
  (summary = EmptyString
   /\ result (ContentGuardrails.validate_summary summary)
      = Ret (false, "Summary is empty"))
  \/ (summary <> EmptyString
      /\ (PyStr.len summary < config.MIN_SUMMARY_LENGTH)%Z
      /\ rejects (result (ContentGuardrails.validate_summary summary)))
  \/ ((config.MAX_SUMMARY_LENGTH < PyStr.len summary)%Z
      /\ rejects (result (ContentGuardrails.validate_summary summary)))
  \/ ((config.MIN_SUMMARY_LENGTH <= PyStr.len summary <= config.MAX_SUMMARY_LENGTH)%Z
      /\ ContentGuardrails.validate_summary summary
         = ContentGuardrails.scan_patterns ContentGuardrails.forbidden_patterns
             (PyStr.lower summary)).
Proof.
  unfold ContentGuardrails.validate_summary.
  destruct (String.eqb_spec summary EmptyString) as [->|Hne].
  - left. split; reflexivity.
  - right. destruct (Z.ltb_spec (PyStr.len summary) config.MIN_SUMMARY_LENGTH).
    + left. split; [exact Hne|]. split; [assumption|]. eexists. reflexivity.
    + right. rewrite Z.gtb_ltb.
      destruct (Z.ltb_spec config.MAX_SUMMARY_LENGTH (PyStr.len summary)).
      * left. split; [assumption|]. eexists. reflexivity.
      * right. split; [lia | reflexivity].
Qed.

Lemma validate_summary_total (summary : string) :
  accepts (result (ContentGuardrails.validate_summary summary))
  \/ rejects (result (ContentGuardrails.validate_summary summary)).
Proof.
  destruct (validate_summary_cases summary)
    as [[He E]|[[Hne [Hlt R]]|[[Hgt R]|[Hlen E]]]].
  - right. eexists. exact E.
  - now right.
  - now right.
  - rewrite E.
    destruct (scan_patterns_spec ContentGuardrails.forbidden_patterns
                (PyStr.lower summary)) as [[H1 _]|[H1 _]]; rewrite H1;
      [left | right]; eexists; reflexivity.
Qed.

Lemma validate_summary_short (summary : string) :
  (PyStr.len summary < config.MIN_SUMMARY_LENGTH)%Z ->
  rejects (result (ContentGuardrails.validate_summary summary)).
Proof.
  intros Hlt.
  destruct (validate_summary_cases summary)
    as [[He E]|[[Hne [_ R]]|[[Hgt R]|[Hlen E]]]]; try assumption.
  - eexists. exact E.
  - lia.
Qed.

Lemma validate_summary_long (summary : string) :
  (PyStr.len summary > config.MAX_SUMMARY_LENGTH)%Z ->
  rejects (result (ContentGuardrails.validate_summary summary)).
Proof.
  intros Hlong.
  destruct (validate_summary_cases summary)
    as [[-> E]|[[Hne [Hlt R]]|[[Hgt R]|[Hlen E]]]]; try assumption.
  - eexists. exact E.
  - lia.
Qed.

Lemma validate_summary_in_range (summary : string) :
  (config.MIN_SUMMARY_LENGTH <= PyStr.len summary <= config.MAX_SUMMARY_LENGTH)%Z ->
  (clean summary /\
   result (ContentGuardrails.validate_summary summary)
   = Ret (true, "Summary passed validation"))
  \/ (~ clean summary /\
      result (ContentGuardrails.validate_summary summary)
      = Ret (false, "Content contains inappropriate material")).
Proof.
  intros Hlen.
  destruct (validate_summary_cases summary)
    as [[-> _]|[[_ [Hlt _]]|[[Hgt _]|[_ E]]]].
  - unfold config.MIN_SUMMARY_LENGTH, PyStr.len in Hlen. simpl in Hlen. lia.
  - lia.
  - lia.
  - rewrite E.
    destruct (scan_patterns_spec ContentGuardrails.forbidden_patterns
                (PyStr.lower summary)) as [[H1 H2]|[H1 [q [H2 H3]]]].
    + left. split; [exact H2 | exact H1].
    + right. split; [|exact H1]. intros Hc. exact (Hc q H2 H3).
Qed.

Lemma validate_summary_accepts (summary : string) :
  accepts (result (ContentGuardrails.validate_summary summary)) <->
  summary <> EmptyString
  /\ (config.MIN_SUMMARY_LENGTH <= PyStr.len summary
      <= config.MAX_SUMMARY_LENGTH)%Z
  /\ clean summary.
Proof.
  split.
  - intros Ha.
    assert (Hlen : (config.MIN_SUMMARY_LENGTH <= PyStr.len summary
                    <= config.MAX_SUMMARY_LENGTH)%Z).
    { destruct (Z.ltb_spec (PyStr.len summary) config.MIN_SUMMARY_LENGTH) as [H|H].
      - exfalso. exact (accepts_not_rejects _ Ha (validate_summary_short _ H)).
      - destruct (Z.ltb_spec config.MAX_SUMMARY_LENGTH (PyStr.len summary)) as [H'|H'].
        + exfalso. apply (accepts_not_rejects _ Ha).
          apply validate_summary_long. lia.
        + lia. }
    split; [|split; [exact Hlen|]].
    + intros ->. unfold config.MIN_SUMMARY_LENGTH, PyStr.len in Hlen.
      simpl in Hlen. lia.
    + destruct (validate_summary_in_range summary Hlen) as [[Hc _]|[_ E]];
        [exact Hc|].
      exfalso. apply (accepts_not_rejects _ Ha). eexists. exact E.
  - intros [_ [Hlen Hc]].
    destruct (validate_summary_in_range summary Hlen) as [[_ E]|[Hn _]].
    + eexists. exact E.
    + now elim Hn.
Qed.

Lemma validate_summary_violence (a v b : string) :
  PyStr.lower v = "violence" ->
  rejects (result (ContentGuardrails.validate_summary (a ++ v ++ b))).
Proof.
  intros Hv.
  destruct (validate_summary_total (a ++ v ++ b)) as [Ha|Hr]; [|exact Hr].
  exfalso. apply validate_summary_accepts in Ha. destruct Ha as [_ [_ Hc]].
  apply (Hc "violence"); [simpl; auto | now apply occurs_lower].
Qed.

(** C6. [validate_summary] always answers; it accepts exactly the
    summaries that are non-empty, of a length between
    [MIN_SUMMARY_LENGTH] and [MAX_SUMMARY_LENGTH] (both included) and
    whose lowercased text holds no deny-list keyword.  So a length below
    the minimum or above the maximum is rejected, a length strictly
    between them is accepted when no keyword occurs, and a summary that
    holds ["violence"] in any letter case is rejected whatever surrounds
    it. *)
Theorem validate_summary_spec :
  forall summary,
    (accepts (result (ContentGuardrails.validate_summary summary))
     \/ rejects (result (ContentGuardrails.validate_summary summary)))
    /\ (accepts (result (ContentGuardrails.validate_summary summary)) <->
        summary <> EmptyString
        /\ (config.MIN_SUMMARY_LENGTH <= PyStr.len summary
            <= config.MAX_SUMMARY_LENGTH)%Z
        /\ clean summary)
    /\ ((PyStr.len summary < config.MIN_SUMMARY_LENGTH)%Z ->
        rejects (result (ContentGuardrails.validate_summary summary)))
    /\ ((PyStr.len summary > config.MAX_SUMMARY_LENGTH)%Z ->
        rejects (result (ContentGuardrails.validate_summary summary)))
    /\ ((config.MIN_SUMMARY_LENGTH < PyStr.len summary
         < config.MAX_SUMMARY_LENGTH)%Z ->
        clean summary ->
        result (ContentGuardrails.validate_summary summary)
        = Ret (true, "Summary passed validation"))
    /\ (forall a v b,
           summary = a ++ v ++ b -> PyStr.lower v = "violence" ->
           rejects (result (ContentGuardrails.validate_summary summary))).
Proof.
  intros summary.
  split; [apply validate_summary_total|].
  split; [apply validate_summary_accepts|].
  split; [apply validate_summary_short|].
  split; [apply validate_summary_long|].
  split.
  - intros Hlen Hc.
    destruct (validate_summary_in_range summary) as [[_ E]|[Hn _]];
      [lia | exact E | now elim Hn].
  - intros a v b -> Hv. now apply validate_summary_violence.
Qed.

(** ** Guardrails: [validate_quiz] *)

Lemma missing_field_none (fs : list string) (kv : list (string * json)) :
  ContentGuardrails.missing_field fs kv = None <->
  forall f, In f fs -> Py.has_key f kv = true.
Proof.
  induction fs as [|f fs IH]; simpl.
  - split; [intros _ f [] | reflexivity].
  - destruct (Py.has_key f kv) eqn:E; simpl.
    + rewrite IH. split.
      * intros H g [<-|Hg]; [exact E | now apply H].
      * intros H g Hg. apply H. now right.
    + split; [discriminate|]. intros H. specialize (H f (or_introl eq_refl)).
      rewrite E in H. discriminate.
Qed.

Lemma fields_of_known (t : string) :
  In t known_types ->
  PyExc.in_dict (JStr t) ContentGuardrails.required_fields = Ret true
  /\ ContentGuardrails.fields_of t ContentGuardrails.required_fields
     = required_of t.
Proof.
  intros [<-|[<-|[<-|[]]]]; split; reflexivity.
Qed.

Lemma in_dict_unknown (t : string) :
  ~ In t known_types ->
  PyExc.in_dict (JStr t) ContentGuardrails.required_fields = Ret false.
Proof.
  intros H. unfold PyExc.in_dict, ContentGuardrails.required_fields.
  cbn [existsb fst]. f_equal.
  destruct (String.eqb_spec t "multiple_choice") as [->|_];
    [elim H; simpl; auto|].
  destruct (String.eqb_spec t "true_false") as [->|_];
    [elim H; simpl; auto|].
  destruct (String.eqb_spec t "fill_blank") as [->|_];
    [elim H; simpl; auto|].
  reflexivity.
Qed.

Lemma known_types_dec (t : string) : {In t known_types} + {~ In t known_types}.
Proof. apply (in_dec string_dec). Qed.

(** what the loop of [validate_quiz] does with its first question *)
Lemma check_questions_step (q : json) (qs : list json) :
  (well_formed q
   /\ ContentGuardrails.check_questions (q :: qs)
      = ContentGuardrails.check_questions qs)
  \/ (~ well_formed q
      /\ rejects (ContentGuardrails.check_questions (q :: qs)))
  \/ (~ well_formed q /\ ~ plain_question q
      /\ exists e, ContentGuardrails.check_questions (q :: qs) = Raise e).
Proof.
  destruct q as [| b | z | s | l | kv];
    try (right; right; split; [intros []|]; split; [intros []|];
         eexists; reflexivity).
  cbn [ContentGuardrails.check_questions].
  destruct (Py.assoc "type" kv) as [v|] eqn:Et.
  - destruct v as [| b | z | t | l | kv'].
    + right; left. split; [|eexists; reflexivity].
      intros [t [Ht _]]. rewrite Et in Ht. discriminate.
    + right; left. split; [|eexists; reflexivity].
      intros [t [Ht _]]. rewrite Et in Ht. discriminate.
    + right; left. split; [|eexists; reflexivity].
      intros [t [Ht _]]. rewrite Et in Ht. discriminate.
    + destruct (known_types_dec t) as [Hk|Hk].
      * destruct (fields_of_known t Hk) as [H1 H2]. rewrite H1.
        cbn [Py.str]. rewrite H2.
        destruct (ContentGuardrails.missing_field (required_of t) kv)
          as [f|] eqn:Em.
        -- right; left. split; [|eexists; reflexivity].
           intros [t' [Ht [_ Hall]]]. rewrite Et in Ht. inversion Ht; subst t'.
           apply missing_field_none in Hall. rewrite Hall in Em. discriminate.
        -- left. split; [|reflexivity]. exists t. split; [exact Et|].
           split; [exact Hk|]. now apply missing_field_none.
      * rewrite (in_dict_unknown t Hk). right; left.
        split; [|eexists; reflexivity].
        intros [t' [Ht [Hin _]]]. rewrite Et in Ht. inversion Ht; subst t'.
        contradiction.
    + right; right. split; [|split; [|eexists; reflexivity]].
      * intros [t [Ht _]]. rewrite Et in Ht. discriminate.
      * intros H. specialize (H _ Et). discriminate.
    + right; right. split; [|split; [|eexists; reflexivity]].
      * intros [t [Ht _]]. rewrite Et in Ht. discriminate.
      * intros H. specialize (H _ Et). discriminate.
  - right; left. split; [|eexists; reflexivity].
    intros [t [Ht _]]. rewrite Et in Ht. discriminate.
Qed.





Lemma validate_quiz_list (q : json) (qs : list json) :
  ContentGuardrails.validate_quiz (JArr (q :: qs))
  = ContentGuardrails.check_questions (q :: qs).
Proof.
  unfold ContentGuardrails.validate_quiz.
  cbn [Py.truthy negb PyExc.len PyExc.iter List.length].
  destruct (Z.eqb_spec (Z.of_nat (S (List.length qs))) 0) as [H|_]; [lia|].
  reflexivity.
Qed.





(** ** The matcher against the language of a pattern *)

Lemma after_spec (p s rest : string) :
  Re.after p s = Some rest <-> s = p ++ rest.
Proof.
  revert s. induction p as [|a p IH]; intros s; simpl.
  - split; [now intros [= ->] | now intros ->].
  - destruct s as [|b s]; [split; discriminate|].
    destruct (Ascii.eqb_spec a b) as [->|Hab].
    + rewrite IH. split; [now intros -> | now intros [= ->]].
    + split; [discriminate | intros [= -> _]; now elim Hab].
Qed.

Lemma after_append (p rest : string) : Re.after p (p ++ rest) = Some rest.
Proof. now apply after_spec. Qed.

Section MatcherFacts.
Variable A : Type.
Implicit Types (k : string -> Re.captures -> option A) (caps : Re.captures).

Lemma star_sound c s caps k x :
  Re.star c s caps k = Some x ->
  exists w rest, s = w ++ rest /\ all_in c w /\ k rest caps = Some x.
Proof.
  induction s as [|a s IH]; simpl; intros H.
  - exists EmptyString, EmptyString. simpl. auto.
  - destruct (Re.mem c a) eqn:Ea.
    + destruct (Re.star c s caps k) as [y|] eqn:Es.
      * injection H as ->. destruct (IH eq_refl) as [w [rest [-> [Hw Hk]]]].
        exists (String a w), rest. simpl. auto.
      * exists EmptyString, (String a s). simpl. auto.
    + exists EmptyString, (String a s). simpl. auto.
Qed.

Lemma star_complete c w rest caps k :
  all_in c w -> k rest caps <> None -> Re.star c (w ++ rest) caps k <> None.
Proof.
  induction w as [|a w IH]; simpl; intros Hw Hk.
  - destruct rest as [|b rest]; simpl; [exact Hk|].
    destruct (Re.mem c b); [|exact Hk].
    destruct (Re.star c rest caps k); [discriminate | exact Hk].
  - destruct Hw as [Ha Hw]. rewrite Ha.
    specialize (IH Hw Hk).
    destruct (Re.star c (w ++ rest) caps k); [discriminate | now elim IH].
Qed.

(** the longest repetition is tried first: when the continuation takes
    the end of the subject, that is the match *)
Lemma star_greedy c s caps k x :
  all_in c s -> k EmptyString caps = Some x -> Re.star c s caps k = Some x.
Proof.
  induction s as [|a s IH]; simpl; intros Hs Hk; [exact Hk|].
  destruct Hs as [Ha Hs]. rewrite Ha. now rewrite (IH Hs Hk).
Qed.

Lemma run_sound r : forall s caps k x,
  Re.run r s caps k = Some x ->
  exists rest caps', matches r s rest /\ k rest caps' = Some x.
Proof.
  induction r as [p | c | c | r1 IH1 | r1 IH1 r2 IH2 | r1 IH1 r2 IH2 | n r1 IH1];
    intros s caps k x H; simpl in H.
  - destruct (Re.after p s) as [rest|] eqn:E; [|discriminate].
    apply after_spec in E. exists rest, caps. now split.
  - destruct s as [|a s]; [discriminate|].
    destruct (Re.mem c a) eqn:Ea; [|discriminate].
    destruct (star_sound _ _ _ _ _ H) as [w [rest [-> [Hw Hk]]]].
    exists rest, caps. split; [|exact Hk]. exists a, w. auto.
  - destruct (star_sound _ _ _ _ _ H) as [w [rest [-> [Hw Hk]]]].
    exists rest, caps. split; [|exact Hk]. exists w. auto.
  - destruct (Re.run r1 s caps k) as [y|] eqn:E.
    + injection H as ->. destruct (IH1 _ _ _ _ E) as [rest [caps' [Hm Hk]]].
      exists rest, caps'. split; [now left | exact Hk].
    + exists s, caps. split; [now right | exact H].
  - destruct (Re.run r1 s caps k) as [y|] eqn:E.
    + injection H as ->. destruct (IH1 _ _ _ _ E) as [rest [caps' [Hm Hk]]].
      exists rest, caps'. split; [now left | exact Hk].
    + destruct (IH2 _ _ _ _ H) as [rest [caps' [Hm Hk]]].
      exists rest, caps'. split; [now right | exact Hk].
  - destruct (IH1 _ _ _ _ H) as [mid [caps1 [Hm1 Hk1]]].
    destruct (IH2 _ _ _ _ Hk1) as [rest [caps2 [Hm2 Hk2]]].
    exists rest, caps2. split; [now exists mid | exact Hk2].
  - destruct (IH1 _ _ _ _ H) as [rest [caps' [Hm Hk]]].
    exists rest, ((n, Re.taken s rest) :: caps'). now split.
Qed.

(** backtracking loses no match: when [r] can leave a [rest] that the
    continuation takes whatever the groups, the run succeeds *)
Lemma run_complete r : forall s rest caps k,
  matches r s rest -> (forall caps', k rest caps' <> None) ->
  Re.run r s caps k <> None.
Proof.
  induction r as [p | c | c | r1 IH1 | r1 IH1 r2 IH2 | r1 IH1 r2 IH2 | n r1 IH1];
    intros s rest caps k Hm Hk; simpl in Hm; simpl.
  - subst s. rewrite after_append. apply Hk.
  - destruct Hm as [a [w [-> [Ha Hw]]]]. rewrite Ha.
    apply star_complete; [exact Hw | apply Hk].
  - destruct Hm as [w [-> Hw]]. apply star_complete; [exact Hw | apply Hk].
  - destruct (Re.run r1 s caps k) eqn:E; [discriminate|].
    destruct Hm as [Hm | ->]; [|apply Hk].
    elim (IH1 _ _ caps k Hm Hk). exact E.
  - destruct (Re.run r1 s caps k) eqn:E; [discriminate|].
    destruct Hm as [Hm | Hm]; [elim (IH1 _ _ caps k Hm Hk); exact E|].
    now apply (IH2 _ rest).
  - destruct Hm as [mid [Hm1 Hm2]].
    apply (IH1 _ mid); [exact Hm1|].
    intros caps'. now apply (IH2 _ rest).
  - apply (IH1 _ rest); [exact Hm|]. intros caps'. apply Hk.
Qed.

End MatcherFacts.

(** [re.match] finds a match exactly when the pattern has one at the start *)
Lemma rmatch_spec (r : Re.regex) (s : string) :
  Re.rmatch r s <> None <-> exists rest, matches r s rest.
Proof.
  unfold Re.rmatch. split.
  - destruct (Re.run r s [] _) as [x|] eqn:E; [intros _ | intros H; now elim H].
    destruct (run_sound _ _ _ _ _ _ E) as [rest [_ [Hm _]]]. now exists rest.
  - intros [rest Hm]. apply (run_complete _ _ _ rest); [exact Hm | discriminate].
Qed.

Lemma slice_to_exact (s rest : string) (n : Z) :
  n = PyStr.len s -> PyStr.slice_to n (s ++ rest) = s.
Proof.
  revert n. induction s as [|a s IH]; intros n Hn.
  - subst n. destruct rest; reflexivity.
  - cbn [PyStr.slice_to append].
    unfold PyStr.len in Hn. simpl String.length in Hn.
    destruct (Z.leb_spec n 0) as [H|H]; [lia|].
    f_equal. apply IH. unfold PyStr.len. lia.
Qed.

Lemma slice_to_len (s rest : string) :
  PyStr.slice_to (PyStr.len (s ++ rest) - PyStr.len rest) (s ++ rest) = s.
Proof.
  apply slice_to_exact. unfold PyStr.len. rewrite length_append. lia.
Qed.

Lemma taken_all (s : string) : Re.taken s EmptyString = s.
Proof.
  unfold Re.taken. pose proof (slice_to_len s EmptyString) as H.
  now rewrite append_nil_r in H.
Qed.

(** ** Rules of the triples *)

Lemma sat_ret {A} (a : A) Q E T : Q a -> sat (ret a) Q E T.
Proof. intros H. split; [constructor | exact H]. Qed.

Lemma sat_lift {A} (o : outcome A) Q E T :
  match o with Ret a => Q a | Raise e => E e end -> sat (lift o) Q E T.
Proof. intros H. split; [constructor | exact H]. Qed.

Lemma sat_lift_any {A} (o : outcome A) T : sat (lift o) any any T.
Proof. apply sat_lift. destruct o; exact I. Qed.

Lemma sat_emit (ev : event) (Q : unit -> Prop) E (T : event -> Prop) :
  T ev -> Q tt -> sat (emit ev) Q E T.
Proof. intros Ht Hq. split; [repeat constructor; exact Ht | exact Hq]. Qed.

Lemma sat_log l msg (Q : unit -> Prop) E (T : event -> Prop) :
  T (Log l msg) -> Q tt -> sat (log l msg) Q E T.
Proof. apply sat_emit. Qed.

Lemma sat_bind {A B} (m : M A) (f : A -> M B) Q1 Q E T :
  sat m Q1 E T -> (forall a, Q1 a -> sat (f a) Q E T) -> sat (bind m f) Q E T.
Proof.
  destruct m as [[a|e] t1]; unfold sat, bind, trace, result; simpl; intros [Ht Hr] Hf.
  - destruct (Hf a Hr) as [Ht2 Hr2]. unfold trace, result in *.
    destruct (f a) as [r t2]. simpl in *. split; [|exact Hr2].
    apply Forall_app. now split.
  - now split.
Qed.

Lemma sat_try {A} (m : M A) (h : exn -> M A) Q E1 E T :
  sat m Q E1 T -> (forall e, E1 e -> sat (h e) Q E T) ->
  sat (try_except m h) Q E T.
Proof.
  destruct m as [[a|e] t1]; unfold sat, try_except, trace, result; simpl;
    intros [Ht Hr] Hh.
  - now split.
  - destruct (Hh e Hr) as [Ht2 Hr2]. unfold trace, result in *.
    destruct (h e) as [r t2]. simpl in *. split; [|exact Hr2].
    apply Forall_app. now split.
Qed.

Lemma sat_weaken {A} (m : M A) (Q Q' : A -> Prop) (E E' T : _ -> Prop) :
  sat m Q E T -> (forall a, Q a -> Q' a) -> (forall e, E e -> E' e) ->
  sat m Q' E' T.
Proof.
  unfold sat. intros [Ht Hr] HQ HE. split; [exact Ht|].
  destruct (result m); auto.
Qed.

(** one step through straight-line code whose intermediate values do not
    matter to the property *)
Ltac sat_step :=
  lazymatch goal with
  | |- sat (ret _) _ _ _ => apply sat_ret
  | |- sat (log _ _) _ _ _ => apply sat_log
  | |- sat (emit _) _ _ _ => apply sat_emit
  | |- sat (lift _) any any _ => apply sat_lift_any
  | |- sat (bind _ _) _ _ _ => apply sat_bind with (Q1 := any); [|intros ? _]
  | |- sat (if ?c then _ else _) _ _ _ => destruct c
  | |- sat (match ?x with _ => _ end) _ _ _ => destruct x
  | |- sat (let x := _ in _) _ _ _ => cbv zeta
  end.

(** ** The extractor: which URLs are video URLs *)

Lemma youtube_regex_language (url rest : string) :
  matches WebScraper.youtube_regex url rest ->
  exists scheme www name suffix,
    In scheme schemes /\ In www www_prefixes /\ In name host_names
    /\ In suffix host_suffixes
    /\ url = scheme ++ www ++ name ++ "." ++ suffix ++ "/" ++ rest.
Proof.
  cbn [matches WebScraper.youtube_regex].
  intros [m1 [Hs [m2 [Hw [m3 [Hn [m4 [Hd [m5 [Hx Hr]]]]]]]]]].
  assert (Hs' : exists scheme, In scheme schemes /\ url = scheme ++ m1).
  { destruct Hs as [[m [-> [m' [[-> | ->] ->]]]] | ->].
    - exists "https://". split; [simpl; auto | reflexivity].
    - exists "http://". split; [simpl; auto | reflexivity].
    - exists "". split; [simpl; auto | reflexivity]. }
  assert (Hw' : exists www, In www www_prefixes /\ m1 = www ++ m2).
  { destruct Hw as [-> | ->].
    - exists "www.". split; [simpl; auto | reflexivity].
    - exists "". split; [simpl; auto | reflexivity]. }
  assert (Hn' : exists name, In name host_names /\ m2 = name ++ m3).
  { destruct Hn as [-> | [-> | ->]]; eexists; (split; [|reflexivity]);
      simpl; auto. }
  assert (Hx' : exists suffix, In suffix host_suffixes /\ m4 = suffix ++ m5).
  { destruct Hx as [-> | ->]; eexists; (split; [|reflexivity]); simpl; auto. }
  destruct Hs' as [scheme [H1 ->]]. destruct Hw' as [www [H2 ->]].
  destruct Hn' as [name [H3 ->]]. destruct Hx' as [suffix [H4 ->]].
  subst m3 m5. exists scheme, www, name, suffix. auto.
Qed.

(** [is_youtube_url] holds exactly of the URLs that start with an
    optional scheme, an optional [www.], one of the six hosts the pattern
    lets through, and a slash *)
Lemma is_youtube_url_spec (url : string) :
  WebScraper.is_youtube_url url = true <-> video_url matched_hosts url.
Proof.
  unfold WebScraper.is_youtube_url. split.
  - destruct (Re.rmatch WebScraper.youtube_regex url) as [caps|] eqn:E;
      [intros _ | discriminate].
    assert (H : Re.rmatch WebScraper.youtube_regex url <> None)
      by (rewrite E; discriminate).
    apply rmatch_spec in H. destruct H as [rest H].
    apply youtube_regex_language in H.
    destruct H as [scheme [www [name [suffix [H1 [H2 [H3 [H4 ->]]]]]]]].
    exists scheme, www, (name ++ "." ++ suffix), rest.
    split; [exact H1|]. split; [exact H2|]. split.
    + simpl in H3, H4. destruct H3 as [<-|[<-|[<-|[]]]];
        destruct H4 as [<-|[<-|[]]]; simpl; auto 10.
    + now rewrite !append_assoc.
  - intros [scheme [www [host [rest [H1 [H2 [H3 ->]]]]]]].
    simpl in H1, H2, H3.
    destruct H1 as [<-|[<-|[<-|[]]]]; destruct H2 as [<-|[<-|[]]];
      destruct H3 as [<-|[<-|[<-|[<-|[<-|[<-|[]]]]]]]; reflexivity.
Qed.

(** ** The extractor: what it returns and which collaborator it asks *)

Ltac sat_side :=
  first [ exact I
        | match goal with H : forall l msg, _ (Log l msg) |- _ => apply H end
        | match goal with H : forall id, _ (TranscriptPost id) |- _ => apply H end
        | match goal with H : forall u t, _ (ArticleGet u t) |- _ => apply H end
        | left; eexists; reflexivity
        | right; do 3 eexists; reflexivity ].

Lemma select_content_sat (item : json) (T : event -> Prop) :
  (forall l msg, T (Log l msg)) ->
  sat (WebScraper.select_content item) any any T.
Proof.
  intros HT. unfold WebScraper.select_content.
  repeat (sat_step; try sat_side).
Qed.

Lemma transcript_body_sat (w : env) (url video_id : string) (T : event -> Prop) :
  video_event T ->
  sat (WebScraper.transcript_body w url video_id) (path_result url) any T.
Proof.
  intros [Hl Hp]. unfold WebScraper.transcript_body.
  repeat (first [ apply select_content_sat; exact Hl
                | sat_step ]; try sat_side).
Qed.

Lemma transcript_handler_sat (url : string) (e : exn) (T : event -> Prop) :
  (forall l msg, T (Log l msg)) ->
  sat (WebScraper.transcript_handler url e) (path_result url) never T.
Proof.
  intros Hl. unfold WebScraper.transcript_handler.
  repeat (sat_step; try sat_side).
Qed.

(** the video path always returns a result that carries the URL it was
    given; it logs and asks the transcript service, nothing else *)
Lemma get_youtube_transcript_sat (w : env) (url : string) (T : event -> Prop) :
  video_event T ->
  sat (WebScraper.get_youtube_transcript w url) (path_result url) never T.
Proof.
  intros HT. pose proof HT as [Hl Hp].
  unfold WebScraper.get_youtube_transcript.
  apply sat_try with (E1 := never).
  - destruct (WebScraper.extract_youtube_id url) as [[|c id]|].
    + apply sat_ret. sat_side.
    + apply sat_bind with (Q1 := any); [apply sat_log; [apply Hl | exact I]|].
      intros _ _. apply sat_try with (E1 := any).
      * now apply transcript_body_sat.
      * intros e _. now apply transcript_handler_sat.
    + apply sat_ret. sat_side.
  - intros e [].
Qed.

(** the article path always returns a result that carries the URL it was
    given; it logs and fetches the page, nothing else *)
Lemma scrape_article_sat (w : env) (url : string) (timeout : Z)
      (T : event -> Prop) :
  article_event T ->
  sat (WebScraper.scrape_article w url timeout) (path_result url) never T.
Proof.
  intros [Hl Hg]. unfold WebScraper.scrape_article.
  apply sat_try with (E1 := any).
  - repeat (sat_step; try sat_side).
  - intros e _. repeat (sat_step; try sat_side).
Qed.

Lemma not_article_get_video : video_event not_article_get.
Proof. split; intros; exact I. Qed.

Lemma not_transcript_post_article : article_event not_transcript_post.
Proof. split; intros; exact I. Qed.

Lemma scrape_article_trace (w : env) (url : string) (timeout : Z) :
  exists t, trace (WebScraper.scrape_article w url timeout)
            = ArticleGet url timeout :: t.
Proof.
  unfold WebScraper.scrape_article, try_except, bind, emit, lift, trace.
  cbn -[PyStr.len PyStr.join PyStr.words append].
  destruct (fetch_page w url timeout) as [soup|e]; cbn -[PyStr.len PyStr.join PyStr.words append].
  - destruct (PyStr.len _ <? 100)%Z; cbn; eexists; reflexivity.
  - destruct (cls e); cbn; eexists; reflexivity.
Qed.

(** ** The extractor: routing *)

(** C4, as amended.  For a non-empty str [extract_content] takes the
    video path exactly when the URL, stripped, starts with an optional
    [http://] or [https://], an optional [www.], one of the six hosts
    [youtube.com], [youtube.be], [youtu.com], [youtu.be],
    [youtube-nocookie.com], [youtube-nocookie.be], and a slash; then it is
    [get_youtube_transcript] on the stripped URL and no page is fetched.
    Every other URL takes the article path: it is [scrape_article] on the
    stripped URL, which starts by fetching the page. *)
Theorem extract_content_routing :
  forall (w : env) (url : string),
    url <> EmptyString ->
    (video_url matched_hosts (PyStr.strip url) ->
     WebScraper.extract_content w (JStr url)
     = WebScraper.get_youtube_transcript w (PyStr.strip url)
     /\ Forall not_article_get (trace (WebScraper.extract_content w (JStr url))))
    /\ (~ video_url matched_hosts (PyStr.strip url) ->
        WebScraper.extract_content w (JStr url)
        = WebScraper.scrape_article w (PyStr.strip url) 10
        /\ exists t, trace (WebScraper.extract_content w (JStr url))
                     = ArticleGet (PyStr.strip url) 10 :: t).
Proof.
  intros w url Hne.
  assert (E : WebScraper.extract_content w (JStr url)
              = if WebScraper.is_youtube_url (PyStr.strip url)
                then WebScraper.get_youtube_transcript w (PyStr.strip url)
                else WebScraper.scrape_article w (PyStr.strip url) 10).
  { unfold WebScraper.extract_content.
    cbn [Py.truthy WebScraper.is_str Py.str negb orb].
    destruct (String.eqb_spec url EmptyString) as [->|_]; [now elim Hne|].
    reflexivity. }
  rewrite E. split; intros H.
  - apply is_youtube_url_spec in H. rewrite H. split; [reflexivity|].
    apply get_youtube_transcript_sat. exact not_article_get_video.
  - destruct (WebScraper.is_youtube_url (PyStr.strip url)) eqn:Ey.
    + elim H. now apply is_youtube_url_spec.
    + split; [reflexivity | apply scrape_article_trace].
Qed.

Lemma extract_content_routing_witness :
  (video_url matched_hosts (PyStr.strip "https://youtu.be/abc ") ->
   WebScraper.extract_content demo (JStr "https://youtu.be/abc ")
   = WebScraper.get_youtube_transcript demo (PyStr.strip "https://youtu.be/abc ")
   /\ Forall not_article_get
        (trace (WebScraper.extract_content demo (JStr "https://youtu.be/abc "))))
  /\ (~ video_url matched_hosts (PyStr.strip "https://youtu.be/abc ") ->
      WebScraper.extract_content demo (JStr "https://youtu.be/abc ")
      = WebScraper.scrape_article demo (PyStr.strip "https://youtu.be/abc ") 10
      /\ exists t,
          trace (WebScraper.extract_content demo (JStr "https://youtu.be/abc "))
          = ArticleGet (PyStr.strip "https://youtu.be/abc ") 10 :: t).
Proof.
  apply (extract_content_routing demo "https://youtu.be/abc ").
  discriminate.
Defined.

Lemma not_named_host :
  ~ video_url named_hosts "https://youtu.com/abc".
Proof.
  intros [scheme [www [host [rest [H1 [H2 [H3 E]]]]]]].
  simpl in H1, H2, H3.
  destruct H1 as [<-|[<-|[<-|[]]]]; destruct H2 as [<-|[<-|[]]];
    destruct H3 as [<-|[<-|[<-|[]]]]; discriminate E.
Qed.

(** C4, as stated, fails: [https://youtu.com/abc] has none of the three
    named hosts, and it takes the video path: the answer is the video
    path's own error and no page is fetched (the article path starts by
    fetching the page). *)
Lemma extract_content_routing_counterexample :
  ~ video_url named_hosts (PyStr.strip "https://youtu.com/abc")
  /\ WebScraper.is_youtube_url (PyStr.strip "https://youtu.com/abc") = true
  /\ WebScraper.extract_content demo (JStr "https://youtu.com/abc")
     = WebScraper.get_youtube_transcript demo "https://youtu.com/abc"
  /\ WebScraper.extract_content demo (JStr "https://youtu.com/abc")
     = (Ret (WebScraper.error_result
               "❌ Invalid YouTube URL format. Please check the URL."
               "https://youtu.com/abc"),
        []).
Proof.
  split; [exact not_named_host|]. repeat split; reflexivity.
Qed.

(** ** The extractor: video identifiers *)

Lemma search_hit (r : Re.regex) (s : string) (caps : Re.captures) :
  Re.rmatch r s = Some caps -> Re.search r s = Some caps.
Proof. intros H. destruct s; simpl; now rewrite H. Qed.

Lemma search_skip (r : Re.regex) (c : ascii) (s : string) :
  Re.rmatch r (String c s) = None ->
  Re.search r (String c s) = Re.search r s.
Proof. intros H. simpl. now rewrite H. Qed.

(** a greedy [(...+)] at the end of a pattern takes a whole identifier *)
Lemma group_plus_all (n : nat) (c : Re.cset) (id : string) (caps : Re.captures) :
  id <> EmptyString -> all_in c id ->
  Re.run (Re.Group n (Re.Plus c)) id caps (fun _ caps' => Some caps')
  = Some ((n, id) :: caps).
Proof.
  intros Hne Hall. destruct id as [|a id]; [now elim Hne|].
  destruct Hall as [Ha Hall]. cbn [Re.run]. rewrite Ha.
  apply star_greedy; [exact Hall|]. now rewrite taken_all.
Qed.

Lemma first_pattern_watch (id : string) :
  identifier id ->
  Re.rmatch first_pattern ("youtube.com/watch?v=" ++ id) = Some [(1, id)].
Proof.
  intros [Hne Hall]. unfold Re.rmatch, first_pattern.
  pose proof (group_plus_all 1 WebScraper.id_chars id [] Hne Hall) as H.
  cbn [Re.run] in H. cbn [Re.run]. rewrite after_append.
  rewrite H. reflexivity.
Qed.

Lemma first_pattern_short (id : string) :
  identifier id ->
  Re.rmatch first_pattern ("youtu.be/" ++ id) = Some [(1, id)].
Proof.
  intros [Hne Hall]. unfold Re.rmatch, first_pattern.
  pose proof (group_plus_all 1 WebScraper.id_chars id [] Hne Hall) as H.
  cbn [Re.run] in H. cbn [Re.run Re.after append Ascii.eqb Bool.eqb].
  rewrite H. reflexivity.
Qed.

Lemma first_pattern_embed (id : string) :
  identifier id ->
  Re.rmatch first_pattern ("youtube.com/embed/" ++ id) = Some [(1, id)].
Proof.
  intros [Hne Hall]. unfold Re.rmatch, first_pattern.
  pose proof (group_plus_all 1 WebScraper.id_chars id [] Hne Hall) as H.
  cbn [Re.run] in H. cbn [Re.run Re.after append Ascii.eqb Bool.eqb].
  rewrite H. reflexivity.
Qed.

Lemma extract_by_first_pattern (url id : string) :
  Re.search first_pattern url = Some [(1, id)] ->
  WebScraper.extract_youtube_id url = Some id.
Proof.
  intros H. unfold WebScraper.extract_youtube_id, WebScraper.patterns.
  cbn [WebScraper.first_match]. fold first_pattern. rewrite H. reflexivity.
Qed.

Ltac skip_prefix :=
  cbn [append];
  repeat (rewrite search_skip by reflexivity);
  apply search_hit.

Lemma extract_watch (pre id : string) :
  In pre url_prefixes -> identifier id ->
  WebScraper.extract_youtube_id (pre ++ "youtube.com/watch?v=" ++ id) = Some id.
Proof.
  intros Hp Hid. apply extract_by_first_pattern. simpl in Hp.
  destruct Hp as [<-|[<-|[<-|[<-|[<-|[<-|[]]]]]]]; skip_prefix;
    exact (first_pattern_watch id Hid).
Qed.

Lemma extract_short (pre id : string) :
  In pre url_prefixes -> identifier id ->
  WebScraper.extract_youtube_id (pre ++ "youtu.be/" ++ id) = Some id.
Proof.
  intros Hp Hid. apply extract_by_first_pattern. simpl in Hp.
  destruct Hp as [<-|[<-|[<-|[<-|[<-|[<-|[]]]]]]]; skip_prefix;
    exact (first_pattern_short id Hid).
Qed.

Lemma extract_embed (pre id : string) :
  In pre url_prefixes -> identifier id ->
  WebScraper.extract_youtube_id (pre ++ "youtube.com/embed/" ++ id) = Some id.
Proof.
  intros Hp Hid. apply extract_by_first_pattern. simpl in Hp.
  destruct Hp as [<-|[<-|[<-|[<-|[<-|[<-|[]]]]]]]; skip_prefix;
    exact (first_pattern_embed id Hid).
Qed.

Lemma first_match_none (ps : list Re.regex) (url : string) :
  (forall p, In p ps -> Re.search p url = None) ->
  WebScraper.first_match ps url = None.
Proof.
  induction ps as [|p ps IH]; intros H; [reflexivity|].
  cbn [WebScraper.first_match]. rewrite (H p (or_introl eq_refl)).
  apply IH. intros q Hq. apply H. now right.
Qed.

Lemma identifier_example : identifier "dQw4w9WgXcQ".
Proof. split; [discriminate | repeat split]. Qed.

(** C5.  For a video identifier [extract_youtube_id] returns that
    identifier from the watch form, from the shortened form and from the
    embed form of its URL, with or without scheme and [www.]; and when
    none of the four ordered patterns matches a URL it returns no
    identifier, on which [get_youtube_transcript] answers the invalid-URL
    error for that URL without asking the transcript service. *)
Theorem extract_youtube_id_forms :
  (forall id pre,
      identifier id -> In pre url_prefixes ->
      WebScraper.extract_youtube_id (pre ++ "youtube.com/watch?v=" ++ id) = Some id
      /\ WebScraper.extract_youtube_id (pre ++ "youtu.be/" ++ id) = Some id
      /\ WebScraper.extract_youtube_id (pre ++ "youtube.com/embed/" ++ id) = Some id)
  /\ (forall w url,
         (forall p, In p WebScraper.patterns -> Re.search p url = None) ->
         WebScraper.extract_youtube_id url = None
         /\ WebScraper.get_youtube_transcript w url
            = (Ret (WebScraper.error_result
                      "❌ Invalid YouTube URL format. Please check the URL." url),
               [])).
Proof.
  split.
  - intros id pre Hid Hp. split; [|split].
    + now apply extract_watch.
    + now apply extract_short.
    + now apply extract_embed.
  - intros w url H.
    assert (E : WebScraper.extract_youtube_id url = None)
      by now apply first_match_none.
    split; [exact E|].
    unfold WebScraper.get_youtube_transcript. rewrite E. reflexivity.
Qed.

Lemma extract_youtube_id_forms_witness :
  WebScraper.extract_youtube_id "https://www.youtube.com/watch?v=dQw4w9WgXcQ"
  = Some "dQw4w9WgXcQ"
  /\ WebScraper.extract_youtube_id "https://www.youtu.be/dQw4w9WgXcQ"
     = Some "dQw4w9WgXcQ"
  /\ WebScraper.extract_youtube_id "https://www.youtube.com/embed/dQw4w9WgXcQ"
     = Some "dQw4w9WgXcQ".
Proof.
  apply (proj1 extract_youtube_id_forms "dQw4w9WgXcQ" "https://www.").
  - exact identifier_example.
  - simpl. auto 10.
Defined.

(** ** Equations of the monad *)

Lemma result_ret {A} (a : A) : result (ret a) = Ret a.
Proof. reflexivity. Qed.

Lemma result_lift {A} (o : outcome A) : result (lift o) = o.
Proof. reflexivity. Qed.

Lemma result_emit (ev : event) : result (emit ev) = Ret tt.
Proof. reflexivity. Qed.

Lemma result_log l msg : result (log l msg) = Ret tt.
Proof. reflexivity. Qed.

Lemma result_bind {A B} (m : M A) (f : A -> M B) :
  result (bind m f) =
  match result m with
  | Ret a => result (f a)
  | Raise e => Raise e
  end.
Proof.
  destruct m as [[a|e] t]; unfold bind, result; simpl; [|reflexivity].
  now destruct (f a).
Qed.

Lemma result_try {A} (m : M A) (h : exn -> M A) :
  result (try_except m h) =
  match result m with
  | Ret a => Ret a
  | Raise e => result (h e)
  end.
Proof.
  destruct m as [[a|e] t]; unfold try_except, result; simpl; [reflexivity|].
  now destruct (h e).
Qed.

Lemma trace_ret {A} (a : A) : trace (ret a) = [].
Proof. reflexivity. Qed.

Lemma trace_lift {A} (o : outcome A) : trace (lift o) = [].
Proof. reflexivity. Qed.

Lemma trace_emit (ev : event) : trace (emit ev) = [ev].
Proof. reflexivity. Qed.

Lemma trace_log l msg : trace (log l msg) = [Log l msg].
Proof. reflexivity. Qed.

Lemma trace_bind {A B} (m : M A) (f : A -> M B) :
  trace (bind m f) =
  (trace m ++ match result m with
              | Ret a => trace (f a)
              | Raise _ => []
              end)%list.
Proof.
  destruct m as [[a|e] t]; unfold bind, trace, result; simpl.
  - now destruct (f a).
  - now rewrite app_nil_r.
Qed.

Lemma trace_try {A} (m : M A) (h : exn -> M A) :
  trace (try_except m h) =
  (trace m ++ match result m with
              | Ret _ => []
              | Raise e => trace (h e)
              end)%list.
Proof.
  destruct m as [[a|e] t]; unfold try_except, trace, result; simpl.
  - now rewrite app_nil_r.
  - now destruct (h e).
Qed.

Lemma M_eta {A} (m : M A) : m = (result m, trace m).
Proof. now destruct m. Qed.

Create Rewrite HintDb run.
#[export] Hint Rewrite @result_ret @result_lift result_emit result_log
  @result_bind @result_try @trace_ret @trace_lift trace_emit trace_log
  @trace_bind @trace_try : run.

(** ** The extractor: the shapes of a transcript response *)



Section TranscriptResponse.
Variable w : env.
Variables url video_id key txt : string.
Variable item : json.
Variable more : list json.
Hypothesis Hid : WebScraper.extract_youtube_id url = Some video_id.
Hypothesis Hid_ne : video_id <> EmptyString.
Hypothesis Hkey : YOUTUBE_TRANSCRIPT_IO_API_KEY w = Some key.
Hypothesis Hkey_ne : key <> EmptyString.
Hypothesis Hservice :
  transcript_service w video_id
  = Ret {| status_code := 200; text := txt;
           json_body := Ret (JArr (item :: more)) |}.

(** the answer for a 200 response that decodes to a non-empty list *)
Lemma transcript_of_item :
  result (WebScraper.get_youtube_transcript w url) =
  match WebScraper.keys item with
  | Raise e => result (WebScraper.transcript_handler url e)
  | Ret _ =>
      match result (WebScraper.select_content item) with
      | Ret content => Ret (transcript_result url video_id content)
      | Raise e => result (WebScraper.transcript_handler url e)
      end
  end.
Proof.
  assert (Hh : forall e, exists v,
               result (WebScraper.transcript_handler url e) = Ret v).
  { intros e.
    destruct (transcript_handler_sat url e any (fun _ _ => I)) as [_ H].
    destruct (result (WebScraper.transcript_handler url e)) as [v|x];
      [now exists v | elim H]. }
  unfold WebScraper.get_youtube_transcript. rewrite Hid.
  destruct video_id as [|c v] eqn:Ev; [now elim Hid_ne|]. rewrite <- Ev in *.
  autorewrite with run. unfold WebScraper.transcript_body. rewrite Hkey.
  destruct key as [|k0 k1]; [now elim Hkey_ne|].
  autorewrite with run. rewrite Hservice.
  cbn [status_code json_body text Z.eqb Pos.eqb negb].
  autorewrite with run.
  cbn [WebScraper.is_nonempty_list negb WebScraper.first_item].
  autorewrite with run.
  destruct (WebScraper.keys item) as [ks|e].
  - autorewrite with run.
    destruct (result (WebScraper.select_content item)) as [content|e].
    + unfold transcript_result, parse_error.
      destruct (negb (Py.truthy content)); autorewrite with run; [reflexivity|].
      cbv zeta. destruct (_ || _); autorewrite with run; reflexivity.
    + destruct (Hh e) as [v' ->]. reflexivity.
  - destruct (Hh e) as [v' ->]. reflexivity.
Qed.

End TranscriptResponse.

Lemma select_text (kv : list (string * json)) (v : json) :
  Py.assoc "text" kv = Some v ->
  WebScraper.select_content (JObj kv)
  = (Ret v, [Log INFO "Found text in transcript_item['text']"]).
Proof.
  intros H. unfold WebScraper.select_content, WebScraper.dict_has, Py.has_key,
              WebScraper.subscript, PyExc.getitem.
  rewrite H. reflexivity.
Qed.








(** a bare string as the item: the log line that prints the keys of the
    item raises before any shape is tried, so Method 3 is never reached
    and the generic exception clause answers *)
Lemma bare_string_item :
  result (WebScraper.get_youtube_transcript
            (transcripts (JArr [JStr sample_text])) "https://youtu.be/abc")
  = Ret (WebScraper.error_result
           "Failed: 'str' object has no attribute 'keys'"
           "https://youtu.be/abc").
Proof. vm_compute. reflexivity. Qed.

(** ** The extractor: which results carry the URL *)

Lemma path_result_fields (url : string) (v : json) :
  path_result url v ->
  field "url" v = Some (JStr url)
  /\ (field "status" v = Some (JStr "error")
      \/ field "status" v = Some (JStr "success")).
Proof.
  intros [[msg ->] | [title [content [type ->]]]]; split; try reflexivity.
  - now left.
  - now right.
Qed.

Lemma sat_result {A} (m : M A) (Q : A -> Prop) (T : event -> Prop) :
  sat m Q never T -> exists a, result m = Ret a /\ Q a.
Proof.
  intros [_ H]. destruct (result m) as [a|e]; [now exists a | elim H].
Qed.

(** C10, as amended.  For an input that is [None] or any other falsy
    value, or that is no str, [extract_content] returns the error result
    with [status] and [message] only, no [url] field, and asks no
    collaborator.  For every other input, a non-empty str (one of
    whitespace only included), it returns what the video or the article
    path returns for the stripped URL, and every such result, error or
    success, holds the stripped URL under [url]; so do the results of
    [get_youtube_transcript] and of [scrape_article] called on a URL. *)
Theorem extract_content_url_field :
  forall (w : env),
    (forall url : json,
        Py.truthy url = false \/ WebScraper.is_str url = false ->
        WebScraper.extract_content w url = (Ret invalid_url_result, [])
        /\ field "url" invalid_url_result = None)
    /\ (forall s,
           s <> EmptyString ->
           exists v,
             result (WebScraper.extract_content w (JStr s)) = Ret v
             /\ field "url" v = Some (JStr (PyStr.strip s))
             /\ (field "status" v = Some (JStr "error")
                 \/ field "status" v = Some (JStr "success")))
    /\ (forall url,
           exists v,
             result (WebScraper.get_youtube_transcript w url) = Ret v
             /\ field "url" v = Some (JStr url))
    /\ (forall url timeout,
           exists v,
             result (WebScraper.scrape_article w url timeout) = Ret v
             /\ field "url" v = Some (JStr url)).
Proof.
  intros w.
  assert (Hv : forall url, exists v,
               result (WebScraper.get_youtube_transcript w url) = Ret v
               /\ path_result url v).
  { intros url. apply sat_result with (T := not_article_get).
    apply get_youtube_transcript_sat. exact not_article_get_video. }
  assert (Ha : forall url timeout, exists v,
               result (WebScraper.scrape_article w url timeout) = Ret v
               /\ path_result url v).
  { intros url timeout. apply sat_result with (T := not_transcript_post).
    apply scrape_article_sat. exact not_transcript_post_article. }
  split; [|split; [|split]].
  - intros url H. split; [|reflexivity].
    unfold WebScraper.extract_content.
    destruct H as [H|H]; rewrite H; cbn [negb orb]; [reflexivity|].
    now rewrite orb_true_r.
  - intros s Hne. unfold WebScraper.extract_content.
    cbn [Py.truthy WebScraper.is_str Py.str negb orb].
    destruct (String.eqb_spec s EmptyString) as [->|_]; [now elim Hne|].
    cbn [negb].
    destruct (WebScraper.is_youtube_url (PyStr.strip s)).
    + destruct (Hv (PyStr.strip s)) as [v [E P]]. exists v.
      split; [exact E|]. now apply path_result_fields.
    + destruct (Ha (PyStr.strip s) 10%Z) as [v [E P]]. exists v.
      split; [exact E|]. now apply path_result_fields.
  - intros url. destruct (Hv url) as [v [E P]]. exists v.
    split; [exact E|]. now apply path_result_fields.
  - intros url timeout. destruct (Ha url timeout) as [v [E P]]. exists v.
    split; [exact E|]. now apply path_result_fields.
Qed.

(** C10, as stated, fails on a str of whitespace only: it is truthy, so
    it passes the first test, is stripped to the empty str and goes down
    the article path, whose error result has a [url] field (the empty
    str).  And the URL an error result carries is the stripped one, not
    the one passed in. *)
Lemma extract_content_url_field_counterexample :
  WebScraper.extract_content demo (JStr "   ")
  = (Ret (WebScraper.error_result
            "Failed to scrape article: Invalid URL '': No scheme supplied. Perhaps you meant https://?"
            ""),
     [ArticleGet "" 10;
      Log ERROR "Error scraping article: Invalid URL '': No scheme supplied. Perhaps you meant https://?"])
  /\ field "url" (WebScraper.error_result
                    "Failed to scrape article: Invalid URL '': No scheme supplied. Perhaps you meant https://?"
                    "")
     = Some (JStr "")
  /\ result (WebScraper.extract_content demo (JStr " https://example.com/a "))
     = Ret (WebScraper.error_result
              "Connection error. Unable to reach the website."
              "https://example.com/a").
Proof. repeat split; vm_compute; reflexivity. Qed.

(** ** The quiz generator *)

Lemma rev_acc_append (acc s : string) :
  PyStr.rev_acc acc s = PyStr.rev_acc EmptyString s ++ acc.
Proof.
  revert acc. induction s as [|c s IH]; intros acc; simpl; [reflexivity|].
  rewrite IH. rewrite (IH (String c EmptyString)).
  now rewrite append_assoc.
Qed.

Lemma rev_acc_pushed (cur s : string) :
  PyStr.rev_acc EmptyString (PyStr.rev_acc cur s)
  = PyStr.rev_acc EmptyString cur ++ s.
Proof.
  revert cur. induction s as [|c s IH]; intros cur; simpl.
  - now rewrite append_nil_r.
  - rewrite IH. simpl. rewrite (rev_acc_append (String c EmptyString) cur).
    now rewrite append_assoc.
Qed.

Lemma split_aux_nonempty (sep : string) (skip : nat) (cur s : string) :
  PyStr.split_aux sep skip cur s <> [].
Proof.
  revert skip cur. induction s as [|c s IH]; intros skip cur; simpl.
  - discriminate.
  - destruct skip as [|k]; [|apply IH].
    destruct (PyStr.startswith sep (String c s)); [discriminate | apply IH].
Qed.


(** the same for a response whose fence is never closed *)
Lemma split_aux_open (cur inner : string) :
  plain inner ->
  PyStr.split_aux QuizGenerator.fence 0 cur inner
  = [PyStr.rev_acc EmptyString cur ++ inner].
Proof.
  revert cur. induction inner as [|c inner IH]; intros cur Hp.
  - cbn [PyStr.split_aux]. now rewrite append_nil_r.
  - destruct Hp as [Hc Hp]. cbn [PyStr.split_aux].
    assert (E : PyStr.startswith QuizGenerator.fence (String c inner) = false).
    { unfold QuizGenerator.fence. cbn [PyStr.startswith].
      destruct (Ascii.eqb_spec "`"%char c) as [<-|_]; [now elim Hc | reflexivity]. }
    rewrite E. rewrite (IH (String c cur) Hp). cbn [PyStr.rev_acc].
    rewrite (rev_acc_append (String c EmptyString) cur).
    now rewrite append_assoc.
Qed.

Lemma split_at_fence (cur s : string) :
  PyStr.split_aux QuizGenerator.fence 0 cur (QuizGenerator.fence ++ s)
  = PyStr.rev_acc EmptyString cur :: PyStr.split_aux QuizGenerator.fence 0 EmptyString s.
Proof. reflexivity. Qed.


Lemma clean_markdown_open (inner : string) :
  plain inner ->
  QuizGenerator.clean_markdown (QuizGenerator.fence ++ inner)
  = Ret (PyStr.strip (untag inner)).
Proof.
  intros Hp. unfold QuizGenerator.clean_markdown.
  rewrite startswith_append. unfold PyStr.split. rewrite split_at_fence.
  rewrite (split_aux_open EmptyString inner Hp).
  reflexivity.
Qed.

Lemma clean_markdown_total (t : string) :
  exists t', QuizGenerator.clean_markdown t = Ret t'.
Proof.
  unfold QuizGenerator.clean_markdown.
  destruct (PyStr.startswith QuizGenerator.fence t) eqn:E;
    [|eexists; reflexivity].
  unfold PyStr.split. destruct t as [|c t]; [discriminate E|].
  cbn [PyStr.split_aux]. rewrite E.
  destruct (PyStr.split_aux QuizGenerator.fence
              (String.length QuizGenerator.fence - 1) EmptyString t)
    as [|p ps] eqn:Es.
  - now elim (split_aux_nonempty _ _ _ _ Es).
  - cbn [nth_error]. eexists. reflexivity.
Qed.


Lemma google_handler_trace (e : exn) :
  exists msg, trace (QuizGenerator.google_handler e) = [Log ERROR msg].
Proof.
  unfold QuizGenerator.google_handler. destruct (cls e); eexists; reflexivity.
Qed.

Ltac all_logs := repeat (apply Forall_cons; [exact I|]); apply Forall_nil.

Lemma generate_with_google_trace (w : env) (n : Z) (summary content : string) :
  exists logs,
    trace (QuizGenerator.generate_with_google w n summary content)
    = quiz_call n summary content :: logs
    /\ Forall is_log logs.
Proof.
  unfold QuizGenerator.generate_with_google, quiz_call.
  cbv zeta.
  destruct (quiz_backend w _ _ _ _) as [text|e];
    cbn [lift bind emit app try_except].
  - destruct (clean_markdown_total (PyStr.strip text)) as [t ->].
    cbn [lift bind app].
    destruct (json_loads w t) as [quiz_data|e]; cbn [lift bind log emit app try_except].
    + destruct (QuizGenerator.get_questions quiz_data) as [q|e];
        cbn [lift bind ret app try_except].
      * eexists. split; [reflexivity|]. all_logs.
      * destruct (google_handler_trace e) as [msg E].
        rewrite (M_eta (QuizGenerator.google_handler e)), E.
        eexists. split; [reflexivity|]. all_logs.
    + destruct (google_handler_trace e) as [msg E].
      rewrite (M_eta (QuizGenerator.google_handler e)), E.
      eexists. split; [reflexivity|]. all_logs.
  - destruct (google_handler_trace e) as [msg E].
    rewrite (M_eta (QuizGenerator.google_handler e)), E.
    eexists. split; [reflexivity|]. all_logs.
Qed.



(** ** The request handler: the stages it runs *)

Lemma rstrip_idem (s : string) : PyStr.rstrip (PyStr.rstrip s) = PyStr.rstrip s.
Proof.
  induction s as [|c s IH]; [reflexivity|]. cbn [PyStr.rstrip].
  destruct (PyStr.rstrip s) as [|d r] eqn:E.
  - destruct (PyStr.isspace c) eqn:Ec; [reflexivity|].
    cbn [PyStr.rstrip]. now rewrite Ec.
  - cbn [PyStr.rstrip] in *. now rewrite IH.
Qed.

Lemma lstrip_head (s : string) :
  PyStr.lstrip s = EmptyString
  \/ exists c r, PyStr.lstrip s = String c r /\ PyStr.isspace c = false.
Proof.
  induction s as [|c s IH]; [now left|]. cbn [PyStr.lstrip].
  destruct (PyStr.isspace c) eqn:Ec; [exact IH|]. right. now exists c, s.
Qed.

Lemma rstrip_head (c : ascii) (r : string) :
  PyStr.isspace c = false ->
  exists r', PyStr.rstrip (String c r) = String c r'.
Proof.
  intros Hc. cbn [PyStr.rstrip]. destruct (PyStr.rstrip r).
  - rewrite Hc. now eexists.
  - now eexists.
Qed.

Lemma strip_idem (s : string) : PyStr.strip (PyStr.strip s) = PyStr.strip s.
Proof.
  unfold PyStr.strip.
  destruct (lstrip_head s) as [E | [c [r [E Hc]]]]; rewrite E.
  - reflexivity.
  - destruct (rstrip_head c r Hc) as [r' E']. rewrite E'.
    cbn [PyStr.lstrip]. rewrite Hc. rewrite <- E'. apply rstrip_idem.
Qed.

Lemma request_url_stripped (data : json) (url : string) :
  request_url data = Ret url -> PyStr.strip url = url.
Proof.
  unfold request_url. destruct (main.get_url data) as [v|e]; [|discriminate].
  destruct v; try discriminate. cbn [main.strip]. intros [= <-].
  apply strip_idem.
Qed.

(** extraction always answers: with a failure, or with the five fields
    of a success; it asks no backend *)
Lemma extract_content_stage (w : env) (url : string) :
  url <> EmptyString ->
  sat (main.extract_content w (JStr url))
      (fun v => (exists msg, v = WebScraper.error_result msg (PyStr.strip url))
                \/ (exists title content type,
                       v = extraction_success title content (PyStr.strip url)
                             (JStr type)))
      never not_backend.
Proof.
  intros Hne. unfold main.extract_content, WebScraper.extract_content.
  cbn [Py.truthy WebScraper.is_str Py.str negb orb].
  destruct (String.eqb_spec url EmptyString) as [->|_]; [now elim Hne|].
  cbn [negb].
  assert (Hq : forall v, path_result (PyStr.strip url) v ->
               (exists msg, v = WebScraper.error_result msg (PyStr.strip url))
               \/ (exists title content type,
                      v = extraction_success title content (PyStr.strip url)
                            (JStr type))).
  { intros v [[msg ->] | [title [content [type ->]]]].
    - left. now exists msg.
    - right. now exists title, content, type. }
  destruct (WebScraper.is_youtube_url (PyStr.strip url)).
  - eapply sat_weaken; [apply get_youtube_transcript_sat | exact Hq | auto].
    split; intros; exact I.
  - eapply sat_weaken; [apply scrape_article_sat | exact Hq | auto].
    split; intros; exact I.
Qed.

(** summarization always answers: with a failure, or with a summary; it
    never asks the quiz backend *)
Lemma summarize_stage (w : env) (content : string) :
  sat (main.summarize w content)
      (fun v => (exists msg, v = stage_error msg)
                \/ (exists summary model, v = summary_success summary model))
      never not_quiz_backend.
Proof.
  unfold main.summarize, LLMSummarizer.summarize.
  destruct (_ || _).
  { apply sat_ret. left. eexists. reflexivity. }
  destruct (String.eqb config.SUMMARIZATION_MODEL "google").
  { unfold LLMSummarizer.summarize_with_google. cbv zeta.
    apply sat_try with (E1 := any).
    - repeat (sat_step; try exact I). right. do 2 eexists. reflexivity.
    - intros e _. repeat (sat_step; try exact I). left. eexists. reflexivity. }
  destruct (String.eqb config.SUMMARIZATION_MODEL "openai").
  { unfold LLMSummarizer.summarize_with_openai. cbv zeta.
    apply sat_try with (E1 := any).
    - repeat (sat_step; try exact I). right. do 2 eexists. reflexivity.
    - intros e _. repeat (sat_step; try exact I). left. eexists. reflexivity. }
  apply sat_ret. left. eexists. reflexivity.
Qed.

(** quiz generation always answers: with a failure, or with a quiz *)
Lemma generate_stage (w : env) (summary content : string) :
  sat (main.generate w summary content)
      (fun v => (exists msg, v = stage_error msg)
                \/ (exists quiz model, v = generation_success quiz model))
      never any.
Proof.
  unfold main.generate, QuizGenerator.generate.
  destruct (String.eqb config.SUMMARIZATION_MODEL "google").
  { unfold QuizGenerator.generate_with_google. cbv zeta.
    apply sat_try with (E1 := any).
    - repeat (sat_step; try exact I). right. do 2 eexists. reflexivity.
    - intros e _. unfold QuizGenerator.google_handler.
      repeat (sat_step; try exact I); left; eexists; reflexivity. }
  destruct (String.eqb config.SUMMARIZATION_MODEL "openai").
  { unfold QuizGenerator.generate_with_openai. cbv zeta.
    apply sat_try with (E1 := any).
    - repeat (sat_step; try exact I). right. do 2 eexists. reflexivity.
    - intros e _. unfold QuizGenerator.openai_handler.
      repeat (sat_step; try exact I); left; eexists; reflexivity. }
  apply sat_ret. left. eexists. reflexivity.
Qed.

Lemma validate_summary_logs (summary : string) :
  Forall is_log (trace (ContentGuardrails.validate_summary summary)).
Proof.
  unfold ContentGuardrails.validate_summary.
  destruct (String.eqb summary EmptyString); [constructor|].
  destruct (_ <? _)%Z; [constructor|].
  destruct (_ >? _)%Z; [constructor|].
  generalize ContentGuardrails.forbidden_patterns.
  intros ps. induction ps as [|p ps IH]; [constructor|].
  cbn [ContentGuardrails.scan_patterns].
  destruct (PyStr.contains p (PyStr.lower summary)); [|exact IH].
  repeat constructor.
Qed.

(** ** The request handler: where it stops *)

Ltac pipe :=
  repeat (progress (autorewrite with run; cbv beta iota;
                    cbn [WebScraper.subscript PyExc.getitem Py.assoc String.eqb
                         Ascii.eqb Bool.eqb main.not_success negb PyExc.len
                         main.as_str app])).

(** both sides are the same events, bracketed differently *)
Ltac flat :=
  rewrite ?app_nil_r;
  repeat (progress (rewrite <- ?app_assoc; cbn [app]));
  reflexivity.

Lemma failed_status (v : json) :
  failed v ->
  exists kv st, v = JObj kv /\ Py.assoc "status" kv = Some st
                /\ main.not_success st = true.
Proof.
  intros [st [H1 H2]]. destruct v; try discriminate. now exists kv, st.
Qed.

Section Pipeline.
Variable w : env.
Variable data : json.
Variable url : string.
Hypothesis Hreq : request_url data = Ret url.

Lemma process_url_empty :
  url = EmptyString ->
  main.process_url w data = (Ret (main.error_body "URL is required", 400%Z), []).
Proof.
  intros ->. rewrite (M_eta (main.process_url w data)).
  unfold main.process_url. unfold request_url in Hreq.
  destruct (main.get_url data) as [v|e]; [|discriminate].
  pipe. rewrite Hreq. pipe. reflexivity.
Qed.

Hypothesis Hne : url <> EmptyString.

Lemma process_url_unsafe (msg : string) :
  ContentGuardrails.validate_url url = (false, msg) ->
  main.process_url w data = (Ret (main.error_body msg, 400%Z), []).
Proof.
  intros Hu. rewrite (M_eta (main.process_url w data)).
  unfold main.process_url. unfold request_url in Hreq.
  destruct (main.get_url data) as [v|e]; [|discriminate].
  pipe. rewrite Hreq. pipe.
  destruct (String.eqb_spec url EmptyString) as [->|_]; [now elim Hne|].
  rewrite Hu. pipe. reflexivity.
Qed.

Hypothesis Hsafe : fst (ContentGuardrails.validate_url url) = true.

Ltac enter :=
  rewrite (M_eta (main.process_url w data));
  unfold main.process_url; unfold request_url in Hreq;
  destruct (main.get_url data) as [?v|?e]; [|discriminate];
  pipe; rewrite Hreq; pipe;
  destruct (String.eqb_spec url EmptyString) as [->|_]; [now elim Hne|];
  destruct (ContentGuardrails.validate_url url) as [?safe ?m];
  cbn [fst] in Hsafe; subst; pipe.

Lemma process_url_extraction_failed (er : json) :
  result (main.extract_content w (JStr url)) = Ret er ->
  failed er ->
  main.process_url w data
  = (Ret (er, 400%Z),
     Log INFO ("Processing URL: " ++ url)
       :: trace (main.extract_content w (JStr url))).
Proof.
  intros HE Hf. apply failed_status in Hf.
  destruct Hf as [kv [st [-> [Hst Hns]]]].
  enter. rewrite HE. pipe. unfold PyExc.getitem. rewrite Hst. pipe.
  rewrite Hns. pipe.
  flat.
Qed.

Variables title content_type : json.
Variables content extracted_url : string.
Hypothesis Hextracted :
  result (main.extract_content w (JStr url))
  = Ret (extraction_success title content extracted_url content_type).

Lemma process_url_summarization_failed (sr : json) :
  result (main.summarize w content) = Ret sr ->
  failed sr ->
  main.process_url w data = (Ret (sr, 500%Z), until_summary w url content_type content).
Proof.
  intros HS Hf. apply failed_status in Hf.
  destruct Hf as [kv [st [-> [Hst Hns]]]].
  enter. rewrite Hextracted. unfold extraction_success. pipe.
  rewrite HS. pipe. unfold PyExc.getitem. rewrite Hst. pipe.
  rewrite Hns. pipe.
  unfold until_summary. flat.
Qed.

Variables summary summary_model : string.
Hypothesis Hsummarized :
  result (main.summarize w content) = Ret (summary_success summary summary_model).

Lemma process_url_summary_rejected (msg : string) :
  result (ContentGuardrails.validate_summary summary) = Ret (false, msg) ->
  main.process_url w data
  = (Ret (main.error_body msg, 400%Z),
     (until_summary w url content_type content
        ++ trace (ContentGuardrails.validate_summary summary)
        ++ [Log WARNING ("Summary validation failed: " ++ msg)])%list).
Proof.
  intros HV.
  enter. rewrite Hextracted. unfold extraction_success. pipe.
  rewrite Hsummarized. unfold summary_success. pipe.
  rewrite HV. pipe.
  unfold until_summary. flat.
Qed.

Variable summary_msg : string.
Hypothesis Hvalid :
  result (ContentGuardrails.validate_summary summary) = Ret (true, summary_msg).

Lemma process_url_generation_failed (qr : json) :
  result (main.generate w summary content) = Ret qr ->
  failed qr ->
  main.process_url w data = (Ret (qr, 500%Z), until_quiz w url content_type content summary).
Proof.
  intros HG Hf. apply failed_status in Hf.
  destruct Hf as [kv [st [-> [Hst Hns]]]].
  enter. rewrite Hextracted. unfold extraction_success. pipe.
  rewrite Hsummarized. unfold summary_success. pipe.
  rewrite Hvalid. pipe. rewrite HG. pipe. unfold PyExc.getitem. rewrite Hst. pipe.
  rewrite Hns. pipe.
  unfold until_quiz, until_summary. flat.
Qed.

Variable quiz : json.
Variable quiz_model : string.
Hypothesis Hgenerated :
  result (main.generate w summary content)
  = Ret (generation_success quiz quiz_model).

(** the quiz guardrail has answered, and the quiz has a length *)
Lemma process_url_done (ok : bool) (msg : string) (n : Z) :
  ContentGuardrails.validate_quiz quiz = Ret (ok, msg) ->
  PyExc.len quiz = Ret n ->
  main.process_url w data
  = (Ret (envelope title content_type summary quiz url, 200%Z),
     (until_quiz w url content_type content summary
        ++ (if ok then [] else [Log WARNING ("Quiz validation failed: " ++ msg)])
        ++ [Log INFO ("Quiz generated with " ++ PyStr.of_Z n ++ " questions")])%list).
Proof.
  intros HQ Hn.
  enter. rewrite Hextracted. unfold extraction_success. pipe.
  rewrite Hsummarized. unfold summary_success. pipe.
  rewrite Hvalid. pipe. rewrite Hgenerated. unfold generation_success. pipe.
  rewrite HQ. pipe. destruct ok; pipe; rewrite Hn; pipe;
    unfold until_quiz, until_summary, envelope; flat.
Qed.

(** the quiz guardrail has answered, and the quiz has no length *)
Lemma process_url_unsized (ok : bool) (msg : string) (e : exn) :
  ContentGuardrails.validate_quiz quiz = Ret (ok, msg) ->
  PyExc.len quiz = Raise e ->
  main.process_url w data
  = (Ret (internal_error, 500%Z),
     (until_quiz w url content_type content summary
        ++ (if ok then [] else [Log WARNING ("Quiz validation failed: " ++ msg)])
        ++ [Log ERROR ("Unexpected error in process_url: " ++ message e)])%list).
Proof.
  intros HQ Hn.
  enter. rewrite Hextracted. unfold extraction_success. pipe.
  rewrite Hsummarized. unfold summary_success. pipe.
  rewrite Hvalid. pipe. rewrite Hgenerated. unfold generation_success. pipe.
  rewrite HQ. pipe. destruct ok; pipe; rewrite Hn; pipe;
    unfold until_quiz, until_summary, internal_error; flat.
Qed.

End Pipeline.

Lemma Forall_weaken {A} (P Q : A -> Prop) (l : list A) :
  (forall x, P x -> Q x) -> Forall P l -> Forall Q l.
Proof. intros H. apply Forall_impl. exact H. Qed.

Lemma is_log_not_quiz_backend (ev : event) : is_log ev -> not_quiz_backend ev.
Proof. destruct ev; simpl; auto. Qed.

Lemma not_backend_not_quiz_backend (ev : event) :
  not_backend ev -> not_quiz_backend ev.
Proof. destruct ev; simpl; auto. Qed.

Lemma extract_content_quiet (w : env) (url : string) :
  url <> EmptyString ->
  Forall not_backend (trace (main.extract_content w (JStr url))).
Proof. intros H. now destruct (extract_content_stage w url H). Qed.

Lemma summarize_quiet (w : env) (content : string) :
  Forall not_quiz_backend (trace (main.summarize w content)).
Proof. now destruct (summarize_stage w content). Qed.

(** a transcript service that does not answer 200 *)
Lemma transcript_not_ok (w : env) (url video_id key : string) (resp : response) :
  WebScraper.extract_youtube_id url = Some video_id ->
  video_id <> EmptyString ->
  YOUTUBE_TRANSCRIPT_IO_API_KEY w = Some key ->
  key <> EmptyString ->
  transcript_service w video_id = Ret resp ->
  status_code resp <> 200%Z ->
  result (WebScraper.get_youtube_transcript w url)
  = Ret (WebScraper.error_result
           ("API Error: " ++ PyStr.of_Z (status_code resp)
              ++ ". Video may not have captions.") url).
Proof.
  intros Hid Hne Hkey Hkne Hsvc Hcode.
  unfold WebScraper.get_youtube_transcript. rewrite Hid.
  destruct video_id as [|c v] eqn:Ev; [now elim Hne|]. rewrite <- Ev in *.
  autorewrite with run. unfold WebScraper.transcript_body. rewrite Hkey.
  destruct key as [|k0 k1]; [now elim Hkne|].
  autorewrite with run. rewrite Hsvc.
  destruct (Z.eqb_spec (status_code resp) 200) as [E|_]; [now elim Hcode|].
  cbn [negb]. autorewrite with run. reflexivity.
Qed.

Lemma error_result_failed (msg url : string) :
  failed (WebScraper.error_result msg url).
Proof. exists (JStr "error"). split; reflexivity. Qed.

Lemma stage_error_failed (msg : string) : failed (stage_error msg).
Proof. exists (JStr "error"). split; reflexivity. Qed.

Lemma until_summary_quiet (w : env) (url : string) (type : json)
      (content : string) :
  url <> EmptyString ->
  Forall not_quiz_backend (until_summary w url type content).
Proof.
  intros Hne. unfold until_summary. constructor; [exact I|].
  apply Forall_app. split.
  - apply Forall_weaken with (P := not_backend);
      [apply not_backend_not_quiz_backend | now apply extract_content_quiet].
  - constructor; [exact I | apply summarize_quiet].
Qed.

(** a rejected summary: the answer, and no call of the quiz backend *)
Lemma summary_rejected_stops (w : env) (data : json) (url : string)
      (title type : json) (content extracted_url summary model msg : string) :
  request_url data = Ret url ->
  url <> EmptyString ->
  fst (ContentGuardrails.validate_url url) = true ->
  result (main.extract_content w (JStr url))
  = Ret (extraction_success title content extracted_url type) ->
  result (main.summarize w content) = Ret (summary_success summary model) ->
  result (ContentGuardrails.validate_summary summary) = Ret (false, msg) ->
  result (main.process_url w data) = Ret (main.error_body msg, 400%Z)
  /\ Forall not_quiz_backend (trace (main.process_url w data)).
Proof.
  intros Hreq Hne Hsafe HE HS HV.
  rewrite (process_url_summary_rejected w data url Hreq Hne Hsafe
             title type content extracted_url HE summary model HS msg HV).
  split; [reflexivity|]. cbn [trace snd].
  apply Forall_app. split; [now apply until_summary_quiet|].
  apply Forall_app. split; [|repeat constructor].
  apply Forall_weaken with (P := is_log);
    [apply is_log_not_quiz_backend | apply validate_summary_logs].
Qed.

(** C2.  For a request whose body holds a str under [url] (or no [url]),
    the handler stops at the first stage that does not succeed: an empty
    URL and an unsafe URL answer 400 before anything is called; a failed
    extraction answers 400 with the extraction result and no backend is
    asked; a failed summarization answers 500 and a rejected summary 400,
    both before the quiz backend is asked; a failed quiz generation
    answers 500.  Extraction always answers, with a failure or a success,
    so its failures are never a 500; in particular a transcript service
    that answers another status than 200 for a video URL gives the 400
    response with the [API Error] message. *)
Theorem process_url_short_circuit :
  forall (w : env) (data : json) (url : string),
    request_url data = Ret url ->
    (url = EmptyString ->
     main.process_url w data
     = (Ret (main.error_body "URL is required", 400%Z), []))
    /\ (url <> EmptyString ->
        forall msg,
          ContentGuardrails.validate_url url = (false, msg) ->
          main.process_url w data = (Ret (main.error_body msg, 400%Z), []))
    /\ (url <> EmptyString ->
        fst (ContentGuardrails.validate_url url) = true ->
        (exists er,
            result (main.extract_content w (JStr url)) = Ret er
            /\ (failed er
                \/ exists title content type,
                    er = extraction_success title content url (JStr type)))
        /\ (forall er,
               result (main.extract_content w (JStr url)) = Ret er ->
               failed er ->
               result (main.process_url w data) = Ret (er, 400%Z)
               /\ Forall not_backend (trace (main.process_url w data)))
        /\ (forall title content extracted_url type,
               result (main.extract_content w (JStr url))
               = Ret (extraction_success title content extracted_url type) ->
               (forall sr,
                   result (main.summarize w content) = Ret sr ->
                   failed sr ->
                   result (main.process_url w data) = Ret (sr, 500%Z)
                   /\ Forall not_quiz_backend (trace (main.process_url w data)))
               /\ (forall summary model,
                      result (main.summarize w content)
                      = Ret (summary_success summary model) ->
                      (forall msg,
                          result (ContentGuardrails.validate_summary summary)
                          = Ret (false, msg) ->
                          result (main.process_url w data)
                          = Ret (main.error_body msg, 400%Z)
                          /\ Forall not_quiz_backend
                               (trace (main.process_url w data)))
                      /\ (forall msg qr,
                             result (ContentGuardrails.validate_summary summary)
                             = Ret (true, msg) ->
                             result (main.generate w summary content) = Ret qr ->
                             failed qr ->
                             result (main.process_url w data) = Ret (qr, 500%Z))))
        /\ (forall video_id key resp,
               WebScraper.is_youtube_url url = true ->
               WebScraper.extract_youtube_id url = Some video_id ->
               video_id <> EmptyString ->
               YOUTUBE_TRANSCRIPT_IO_API_KEY w = Some key ->
               key <> EmptyString ->
               transcript_service w video_id = Ret resp ->
               status_code resp <> 200%Z ->
               result (main.process_url w data)
               = Ret (WebScraper.error_result
                        ("API Error: " ++ PyStr.of_Z (status_code resp)
                           ++ ". Video may not have captions.") url,
                      400%Z))).
Proof.
  intros w data url Hreq.
  pose proof (request_url_stripped data url Hreq) as Hstrip.
  split; [intros E; exact (process_url_empty w data url Hreq E)|].
  split; [intros Hne msg Hu; exact (process_url_unsafe w data url Hreq Hne msg Hu)|].
  intros Hne Hsafe.
  assert (Hfail : forall er,
             result (main.extract_content w (JStr url)) = Ret er ->
             failed er ->
             result (main.process_url w data) = Ret (er, 400%Z)
             /\ Forall not_backend (trace (main.process_url w data))).
  { intros er HE Hf.
    rewrite (process_url_extraction_failed w data url Hreq Hne Hsafe er HE Hf).
    split; [reflexivity|]. cbn [trace snd].
    constructor; [exact I | now apply extract_content_quiet]. }
  split; [|split; [exact Hfail|split]].
  - destruct (extract_content_stage w url Hne) as [_ H].
    destruct (result (main.extract_content w (JStr url))) as [er|e]; [|elim H].
    exists er. split; [reflexivity|]. rewrite Hstrip in H.
    destruct H as [[msg ->] | [title [content [type ->]]]].
    + left. apply error_result_failed.
    + right. now exists title, content, type.
  - intros title content extracted_url type HE.
    pose proof (until_summary_quiet w url type content Hne) as Hq1.
    split.
    + intros sr HS Hf.
      rewrite (process_url_summarization_failed w data url Hreq Hne Hsafe
                 title type content extracted_url HE sr HS Hf).
      split; [reflexivity | exact Hq1].
    + intros summary model HS. split.
      * intros msg HV.
        now apply (summary_rejected_stops w data url title type content
                     extracted_url summary model msg).
      * intros msg qr HV HG Hf.
        now rewrite (process_url_generation_failed w data url Hreq Hne Hsafe
                       title type content extracted_url HE summary model HS
                       msg HV qr HG Hf).
  - intros video_id key resp Hy Hid Hidne Hkey Hkne Hsvc Hcode.
    apply Hfail; [|apply error_result_failed].
    unfold main.extract_content, WebScraper.extract_content.
    cbn [Py.truthy WebScraper.is_str Py.str negb orb].
    destruct (String.eqb_spec url EmptyString) as [->|_]; [now elim Hne|].
    cbn [negb]. rewrite Hstrip, Hy.
    now apply (transcript_not_ok w url video_id key resp).
Qed.

Lemma process_url_short_circuit_witness :
  result (main.process_url demo (JObj [("url", JStr " https://youtu.be/abc ")]))
  = Ret (WebScraper.error_result
           "API Error: 404. Video may not have captions." "https://youtu.be/abc",
         400%Z).
Proof.
  refine (proj2 (proj2 (proj2 (proj2 (proj2
           (process_url_short_circuit demo
              (JObj [("url", JStr " https://youtu.be/abc ")])
              "https://youtu.be/abc" eq_refl))
           _ eq_refl)))
           "abc" "key"
           {| status_code := 404; text := "Not Found";
              json_body := Raise (Exn JSONDecodeError "Expecting value") |}
           eq_refl eq_refl _ eq_refl _ eq_refl _);
    discriminate.
Defined.

(** ** The request handler: a quiz that fails validation *)

(** The asymmetry of the two guardrails, for a request that came through
    extraction and summarization: a rejected summary answers 400 before
    the quiz backend is asked; a rejected quiz is logged, and when the
    quiz has a length (a list, a str, a dict) the answer is the 200
    envelope with that quiz in it; when it has none (the log line after
    the warning takes its [len]) the answer is the internal-error 500. *)
Theorem quiz_validation_only_logged :
  forall (w : env) (data : json) (url : string)
         (title type : json) (content extracted_url summary model : string),
    request_url data = Ret url ->
    url <> EmptyString ->
    fst (ContentGuardrails.validate_url url) = true ->
    result (main.extract_content w (JStr url))
    = Ret (extraction_success title content extracted_url type) ->
    result (main.summarize w content) = Ret (summary_success summary model) ->
    (forall msg,
        result (ContentGuardrails.validate_summary summary) = Ret (false, msg) ->
        result (main.process_url w data) = Ret (main.error_body msg, 400%Z)
        /\ Forall not_quiz_backend (trace (main.process_url w data)))
    /\ (forall ok quiz quiz_model msg,
           result (ContentGuardrails.validate_summary summary) = Ret (true, ok) ->
           result (main.generate w summary content)
           = Ret (generation_success quiz quiz_model) ->
           ContentGuardrails.validate_quiz quiz = Ret (false, msg) ->
           (forall n,
               PyExc.len quiz = Ret n ->
               result (main.process_url w data)
               = Ret (envelope title type summary quiz url, 200%Z)
               /\ In (Log WARNING ("Quiz validation failed: " ++ msg))
                     (trace (main.process_url w data)))
           /\ (forall e,
                  PyExc.len quiz = Raise e ->
                  result (main.process_url w data) = Ret (internal_error, 500%Z)
                  /\ In (Log WARNING ("Quiz validation failed: " ++ msg))
                        (trace (main.process_url w data)))).
Proof.
  intros w data url title type content extracted_url summary model
         Hreq Hne Hsafe HE HS.
  split.
  - intros msg HV.
    now apply (summary_rejected_stops w data url title type content
                 extracted_url summary model msg).
  - intros ok quiz quiz_model msg HV HG HQ. split.
    + intros n Hn.
      rewrite (process_url_done w data url Hreq Hne Hsafe title type content
                 extracted_url HE summary model HS ok HV quiz quiz_model HG
                 false msg n HQ Hn).
      split; [reflexivity|]. cbn [trace snd].
      apply in_or_app. right. now left.
    + intros e Hn.
      rewrite (process_url_unsized w data url Hreq Hne Hsafe title type content
                 extracted_url HE summary model HS ok HV quiz quiz_model HG
                 false msg e HQ Hn).
      split; [reflexivity|]. cbn [trace snd].
      apply in_or_app. right. now left.
Qed.

Lemma quiz_validation_only_logged_witness :
  result (main.process_url empty_env article_request)
  = Ret (envelope (JStr "Rivers") (JStr "article") summary_text (JArr [])
           "https://example.com/article", 200%Z)
  /\ In (Log WARNING "Quiz validation failed: No quiz questions generated")
        (trace (main.process_url empty_env article_request)).
Proof.
  refine (proj1 (proj2 (quiz_validation_only_logged empty_env
            article_request "https://example.com/article"
            (JStr "Rivers") (JStr "article") article_text
            "https://example.com/article" summary_text "google-gemini-2.5-flash"
            eq_refl _ eq_refl eq_refl eq_refl)
           "Summary passed validation" (JArr []) "google-gemini-2.5-flash"
           "No quiz questions generated" eq_refl eq_refl eq_refl)
           0%Z eq_refl).
  discriminate.
Defined.

(** C1 at the quiz backend answer [{"questions": null}], with extraction,
    summarization and quiz generation all successful: the generator hands
    on [None] as the quiz, [validate_quiz] rejects it and the rejection is
    logged, then the log line that prints the number of questions takes
    [len(None)], and the handler answers the internal-error 500 instead
    of the 200 envelope. *)
Lemma quiz_none_internal_error :
  result (main.generate null_env summary_text article_text)
  = Ret (generation_success JNull "google-gemini-2.5-flash")
  /\ ContentGuardrails.validate_quiz JNull
     = Ret (false, "No quiz questions generated")
  /\ result (main.process_url null_env article_request)
     = Ret (main.error_body "Internal server error", 500%Z)
  /\ In (Log WARNING "Quiz validation failed: No quiz questions generated")
        (trace (main.process_url null_env article_request))
  /\ In (Log ERROR
           "Unexpected error in process_url: object of type 'NoneType' has no len()")
        (trace (main.process_url null_env article_request)).
Proof.
  split; [vm_compute; reflexivity|].
  split; [reflexivity|].
  split; [vm_compute; reflexivity|].
  split; vm_compute; tauto.
Qed.

(** a quiz that is a list of strings: [validate_quiz] raises on the first
    question, which has no [get], and the handler answers the
    internal-error 500 *)
Lemma quiz_of_strings_internal_error :
  ContentGuardrails.validate_quiz (JArr [JStr "What is a river?"])
  = Raise (Exn AttributeError "'str' object has no attribute 'get'")
  /\ result (main.process_url
               (answering string_questions
                  (JObj [("questions", JArr [JStr "What is a river?"])]))
               article_request)
     = Ret (main.error_body "Internal server error", 500%Z).
Proof. split; vm_compute; reflexivity. Qed.

(** a request body that is no object, or whose [url] is no str: the
    handler answers the internal-error 500 *)
Lemma process_url_bad_request (w : env) (data : json) (e : exn) :
  request_url data = Raise e ->
  main.process_url w data
  = (Ret (internal_error, 500%Z),
     [Log ERROR ("Unexpected error in process_url: " ++ message e)]).
Proof.
  intros Hreq. rewrite (M_eta (main.process_url w data)).
  unfold main.process_url. unfold request_url in Hreq.
  destruct (main.get_url data) as [v|e'].
  - pipe. rewrite Hreq. pipe. reflexivity.
  - injection Hreq as ->. pipe. reflexivity.
Qed.

Lemma process_url_bad_request_witness :
  main.process_url demo (JObj [("url", JNull)])
  = (Ret (internal_error, 500%Z),
     [Log ERROR
        "Unexpected error in process_url: 'NoneType' object has no attribute 'strip'"]).
Proof.
  exact (process_url_bad_request demo (JObj [("url", JNull)])
           (Exn AttributeError "'NoneType' object has no attribute 'strip'")
           eq_refl).
Defined.

(** ** More on video identifiers *)

Lemma matches_suffix (r : Re.regex) : forall s rest,
  matches r s rest -> exists m, s = m ++ rest.
Proof.
  induction r as [p | c | c | r1 IH1 | r1 IH1 r2 IH2 | r1 IH1 r2 IH2 | n r1 IH1];
    intros s rest H; simpl in H.
  - now exists p.
  - destruct H as [a [w [-> _]]]. now exists (String a w).
  - destruct H as [w [-> _]]. now exists w.
  - destruct H as [H | ->]; [now apply IH1 | now exists EmptyString].
  - destruct H as [H | H]; [now apply IH1 | now apply IH2].
  - destruct H as [mid [H1 H2]].
    destruct (IH1 _ _ H1) as [m1 ->]. destruct (IH2 _ _ H2) as [m2 ->].
    exists (m1 ++ m2). now rewrite append_assoc.
  - now apply IH1.
Qed.

(** what a final [(...+)] group captures *)
Lemma group_plus_sound (n : nat) (c : Re.cset) (s : string)
      (caps x : Re.captures) :
  Re.run (Re.Group n (Re.Plus c)) s caps (fun _ caps' => Some caps') = Some x ->
  exists id rest,
    s = id ++ rest /\ id <> EmptyString /\ all_in c id /\ x = (n, id) :: caps.
Proof.
  cbn [Re.run]. destruct s as [|a s]; [discriminate|].
  destruct (Re.mem c a) eqn:Ea; [|discriminate]. intros H.
  apply star_sound in H. destruct H as [w [rest [-> [Hw H]]]].
  injection H as <-. exists (String a w), rest.
  split; [reflexivity|]. split; [discriminate|]. split; [now split|].
  f_equal. f_equal. unfold Re.taken.
  exact (slice_to_len (String a w) rest).
Qed.

(** the greedy group stops in front of a character outside its set *)
Lemma group_plus_upto (n : nat) (c : Re.cset) (id : string) (d : ascii)
      (rest : string) (caps : Re.captures) :
  id <> EmptyString -> all_in c id -> Re.mem c d = false ->
  Re.run (Re.Group n (Re.Plus c)) (id ++ String d rest) caps
         (fun _ caps' => Some caps')
  = Some ((n, id) :: caps).
Proof.
  intros Hne Hall Hd. destruct id as [|a id]; [now elim Hne|].
  destruct Hall as [Ha Hall]. cbn [Re.run append]. rewrite Ha.
  assert (Hs : forall w, all_in c w ->
             forall (k : string -> Re.captures -> option Re.captures) x,
               k (String d rest) caps = Some x ->
               Re.star c (w ++ String d rest) caps k = Some x).
  { induction w as [|b w IH]; intros Hw k x Hk.
    - cbn [append Re.star]. now rewrite Hd.
    - destruct Hw as [Hb Hw]. cbn [append Re.star]. rewrite Hb.
      now rewrite (IH Hw k x Hk). }
  apply Hs; [exact Hall|]. f_equal. f_equal. f_equal. unfold Re.taken.
  exact (slice_to_len (String a id) (String d rest)).
Qed.

Lemma search_sound (r : Re.regex) (s : string) (caps : Re.captures) :
  Re.search r s = Some caps ->
  exists pre suffix, s = pre ++ suffix /\ Re.rmatch r suffix = Some caps.
Proof.
  induction s as [|c s IH]; cbn [Re.search].
  - destruct (Re.rmatch r EmptyString) as [x|] eqn:E; [|discriminate].
    intros [= <-]. now exists EmptyString, EmptyString.
  - destruct (Re.rmatch r (String c s)) as [x|] eqn:E.
    + intros [= <-]. now exists EmptyString, (String c s).
    + intros H. destruct (IH H) as [pre [suffix [-> Hm]]].
      now exists (String c pre), suffix.
Qed.

(** a pattern that ends in its only group *)
Lemma tail_group_sound (r : Re.regex) (c : Re.cset) (url : string)
      (caps : Re.captures) :
  Re.search (Re.Seq r (Re.Group 1 (Re.Plus c))) url = Some caps ->
  exists id, Re.group 1 caps = Some id /\ id <> EmptyString /\ all_in c id
             /\ occurs id url.
Proof.
  intros H. apply search_sound in H. destruct H as [pre [suffix [-> H]]].
  unfold Re.rmatch in H. cbn [Re.run] in H.
  destruct (run_sound _ r suffix []
              (fun rest caps' =>
                 Re.run (Re.Plus c) rest caps'
                   (fun rest0 caps'0 =>
                      Some ((1, Re.taken rest rest0) :: caps'0)))
              caps H) as [mid [caps' [Hm Hg]]].
  pose proof (group_plus_sound 1 c mid caps' caps) as Hs.
  cbn [Re.run] in Hs. destruct (Hs Hg) as [id [rest [-> [Hne [Hall ->]]]]].
  exists id. split; [reflexivity|]. split; [exact Hne|]. split; [exact Hall|].
  destruct (matches_suffix _ _ _ Hm) as [m ->].
  exists (pre ++ m), rest. now rewrite !append_assoc.
Qed.

Lemma all_in_weaken (c c' : Re.cset) (w : string) :
  (forall a, Re.mem c a = true -> Re.mem c' a = true) ->
  all_in c w -> all_in c' w.
Proof.
  intros H. induction w as [|a w IH]; [trivial|].
  intros [Ha Hw]. split; [now apply H | now apply IH].
Qed.

Lemma id_chars_weaker (a : ascii) :
  Re.mem WebScraper.id_chars a = true -> Re.mem WebScraper.id_chars' a = true.
Proof.
  unfold WebScraper.id_chars, WebScraper.id_chars', Re.mem.
  cbn [existsb]. destruct (Ascii.eqb a WebScraper.amp);
    destruct (Ascii.eqb a WebScraper.qmark);
    destruct (Ascii.eqb a Re.newline); destruct (Ascii.eqb a WebScraper.hash);
    simpl; auto.
Qed.

Lemma first_match_sound :
  forall url id,
    WebScraper.extract_youtube_id url = Some id ->
    id <> EmptyString /\ occurs id url /\ all_in WebScraper.id_chars' id.
Proof.
  intros url id. unfold WebScraper.extract_youtube_id, WebScraper.patterns.
  cbn [WebScraper.first_match].
  repeat match goal with
         | |- context [Re.search ?p url] =>
             let E := fresh "E" in
             destruct (Re.search p url) as [caps|] eqn:E;
               [ apply tail_group_sound in E;
                 destruct E as [id' [Hg [Hne [Hall Ho]]]];
                 rewrite Hg; intros [= <-];
                 split; [exact Hne|]; split; [exact Ho|];
                 first [ exact Hall
                       | exact (all_in_weaken _ _ _ id_chars_weaker Hall) ]
               | ]
         end.
  discriminate.
Qed.

(** X5.  An identifier [extract_youtube_id] returns is never empty, is a
    piece of the URL, and holds neither [?] nor [&]; so the test
    [if not video_id] of [get_youtube_transcript] fires on [None] only. *)
Theorem extract_youtube_id_sound :
  forall url id,
    WebScraper.extract_youtube_id url = Some id ->
    id <> EmptyString /\ occurs id url /\ all_in WebScraper.id_chars' id.
Proof. exact first_match_sound. Qed.

Lemma extract_youtube_id_sound_witness :
  "abc" <> EmptyString /\ occurs "abc" "https://youtu.be/abc?t=5"
  /\ all_in WebScraper.id_chars' "abc".
Proof.
  apply (extract_youtube_id_sound "https://youtu.be/abc?t=5" "abc").
  reflexivity.
Defined.

Lemma first_pattern_upto (form id : string) (d : ascii) (rest : string) :
  In form ["youtube.com/watch?v="; "youtu.be/"; "youtube.com/embed/"] ->
  identifier id -> Re.mem WebScraper.id_chars d = false ->
  Re.rmatch first_pattern (form ++ id ++ String d rest) = Some [(1, id)].
Proof.
  intros Hf [Hne Hall] Hd. unfold Re.rmatch, first_pattern.
  pose proof (group_plus_upto 1 WebScraper.id_chars id d rest [] Hne Hall Hd) as H.
  cbn [Re.run] in H. simpl in Hf.
  destruct Hf as [<-|[<-|[<-|[]]]];
    cbn [Re.run Re.after append Ascii.eqb Bool.eqb]; rewrite H; reflexivity.
Qed.

(** X6.  Whatever follows the identifier after a [&], [?], [#] or
    newline (a timestamp, a playlist, a fragment) is left out: the watch,
    short and embed forms still give the identifier alone. *)
Theorem extract_youtube_id_stops :
  forall pre form id d rest,
    In pre url_prefixes ->
    In form ["youtube.com/watch?v="; "youtu.be/"; "youtube.com/embed/"] ->
    identifier id ->
    In d [WebScraper.amp; WebScraper.qmark; WebScraper.hash; Re.newline] ->
    WebScraper.extract_youtube_id (pre ++ form ++ id ++ String d rest) = Some id.
Proof.
  intros pre form id d rest Hp Hf Hid Hd.
  assert (Hm : Re.mem WebScraper.id_chars d = false).
  { simpl in Hd. destruct Hd as [<-|[<-|[<-|[<-|[]]]]]; reflexivity. }
  apply extract_by_first_pattern.
  pose proof (fun f Hf => first_pattern_upto f id d rest Hf Hid Hm) as H.
  simpl in Hp, Hf.
  destruct Hf as [<-|[<-|[<-|[]]]];
    destruct Hp as [<-|[<-|[<-|[<-|[<-|[<-|[]]]]]]]; skip_prefix;
      first [ exact (H "youtube.com/watch?v=" ltac:(simpl; auto))
            | exact (H "youtu.be/" ltac:(simpl; auto))
            | exact (H "youtube.com/embed/" ltac:(simpl; auto)) ].
Qed.

Lemma extract_youtube_id_stops_witness :
  WebScraper.extract_youtube_id "https://www.youtube.com/watch?v=dQw4w9WgXcQ&t=42s"
  = Some "dQw4w9WgXcQ".
Proof.
  apply (extract_youtube_id_stops "https://www." "youtube.com/watch?v="
           "dQw4w9WgXcQ" WebScraper.amp "t=42s");
    [simpl; auto 10 | simpl; auto | exact identifier_example | simpl; auto].
Defined.
(** ** The summarizer *)

Lemma slice_to_prefix (n : Z) (s : string) :
  (0 <= n)%Z -> prefix_upto n (PyStr.slice_to n s) s.
Proof.
  revert n. induction s as [|c s IH]; intros n Hn.
  - split; [now exists EmptyString | exact Hn].
  - cbn [PyStr.slice_to]. destruct (Z.leb_spec n 0) as [H|H].
    + split; [now exists (String c s) | exact Hn].
    + destruct (IH (n - 1)%Z ltac:(lia)) as [[rest E] Hl]. split.
      * exists rest. cbn [append]. now rewrite <- E.
      * unfold PyStr.len in *. cbn [String.length]. lia.
Qed.

Lemma calls_app (t1 t2 : list event) :
  calls (t1 ++ t2)%list = (calls t1 ++ calls t2)%list.
Proof. apply filter_app. Qed.

Lemma calls_logs (t : list event) : Forall is_log t -> calls t = [].
Proof.
  induction 1 as [|ev t Hev _ IH]; [reflexivity|].
  destruct ev; try elim Hev. exact IH.
Qed.

(** X7.  [summarize] never raises.  Content that is empty or shorter than
    100 characters, and an unknown model type, give an error result with
    no backend call.  Otherwise the backend is asked exactly once, with a
    prefix of the content of at most 300000 characters (google) or 2000
    (openai); the text it returns is the summary as it is, and an
    exception it raises becomes the error result
    [Summarization failed: <message>]. *)
Theorem summarize_spec :
  forall (w : env) (model_type content : string),
    ((content = EmptyString \/ (PyStr.len content < 100)%Z) ->
     LLMSummarizer.summarize w model_type content
     = (Ret (stage_error "Content too short for summarization"), []))
    /\ ((100 <= PyStr.len content)%Z ->
        (model_type <> "google" -> model_type <> "openai" ->
         LLMSummarizer.summarize w model_type content
         = (Ret (stage_error "Unknown model type"), []))
        /\ (forall model limit name,
               (model_type = "google" /\ model = "gemini-2.5-flash"
                /\ limit = 300000%Z /\ name = "google-gemini-2.5-flash")
               \/ (model_type = "openai" /\ model = "gpt-3.5-turbo"
                   /\ limit = 2000%Z /\ name = "openai-gpt3.5") ->
               prefix_upto limit (PyStr.slice_to limit content) content
               /\ calls (trace (LLMSummarizer.summarize w model_type content))
                  = [SummaryBackend model (PyStr.slice_to limit content)]
               /\ (forall text,
                      summary_backend w model (PyStr.slice_to limit content)
                      = Ret text ->
                      result (LLMSummarizer.summarize w model_type content)
                      = Ret (summary_success text name))
               /\ (forall e,
                      summary_backend w model (PyStr.slice_to limit content)
                      = Raise e ->
                      result (LLMSummarizer.summarize w model_type content)
                      = Ret (summary_failed e)))).
Proof.
  intros w model_type content. split.
  - intros H. unfold LLMSummarizer.summarize.
    assert (E : String.eqb content EmptyString || (PyStr.len content <? 100)%Z
                = true).
    { destruct H as [-> | H]; [reflexivity|].
      apply orb_true_iff. right. now apply Z.ltb_lt. }
    now rewrite E.
  - intros Hlen.
    assert (E : String.eqb content EmptyString || (PyStr.len content <? 100)%Z
                = false).
    { apply orb_false_iff. split.
      - destruct (String.eqb_spec content EmptyString) as [->|_];
          [cbn in Hlen; lia | reflexivity].
      - now apply Z.ltb_ge. }
    unfold LLMSummarizer.summarize. rewrite E. split.
    + intros Hg Ho.
      destruct (String.eqb_spec model_type "google") as [->|_]; [now elim Hg|].
      destruct (String.eqb_spec model_type "openai") as [->|_]; [now elim Ho|].
      reflexivity.
    + intros model limit name
             [[-> [-> [-> ->]]] | [-> [-> [-> ->]]]];
        (split; [apply slice_to_prefix; lia|]);
        cbn [String.eqb Ascii.eqb Bool.eqb];
        [ unfold LLMSummarizer.summarize_with_google
        | unfold LLMSummarizer.summarize_with_openai ];
        cbv zeta;
        destruct (summary_backend w _ _) as [text|e];
        (split; [reflexivity|]); split; intros x [= <-]; reflexivity.
Qed.

Lemma summarize_spec_witness :
  LLMSummarizer.summarize demo "google" "short"
  = (Ret (stage_error "Content too short for summarization"), []).
Proof.
  apply (proj1 (summarize_spec demo "google" "short")).
  right. reflexivity.
Defined.
(** ** The quiz generator: both backends *)

Lemma google_handler_result (e : exn) :
  result (QuizGenerator.google_handler e) = Ret (quiz_failure e).
Proof. unfold QuizGenerator.google_handler, quiz_failure. now destruct (cls e). Qed.

Lemma openai_handler_result (e : exn) :
  result (QuizGenerator.openai_handler e) = Ret (quiz_failure e).
Proof. unfold QuizGenerator.openai_handler, quiz_failure. now destruct (cls e). Qed.

Lemma openai_handler_trace (e : exn) :
  exists msg, trace (QuizGenerator.openai_handler e) = [Log ERROR msg].
Proof.
  unfold QuizGenerator.openai_handler. destruct (cls e); eexists; reflexivity.
Qed.

Ltac quiz_cases w :=
  cbv zeta;
  destruct (quiz_backend w _ _ _ _);
    cbn [lift bind emit app try_except quiz_of_answer];
    [ match goal with
      | |- context [QuizGenerator.clean_markdown ?x] =>
          destruct (QuizGenerator.clean_markdown x)
      end;
        cbn [lift bind app try_except];
        [ match goal with
          | |- context [json_loads w ?x] => destruct (json_loads w x) as [[]|]
          end;
            cbn [lift bind log emit app try_except quiz_of_decoded
                 QuizGenerator.get_questions PyExc.attribute_error ret];
            try match goal with
                | |- context [Py.assoc "questions" ?kv] =>
                    destruct (Py.assoc "questions" kv);
                    cbn [lift bind ret app try_except]
                end
        | ]
    | ].

(** X8.  [generate] never raises and asks the backend at most once: not
    at all for an unknown model type, exactly once otherwise, with
    prefixes of the summary and of the content of at most 1000 and 2000
    characters.  Both backend methods make the same of the answer: a
    decoded JSON object gives a success whose quiz is the value of
    [questions] as it is (the empty list without that key); a decoded
    value that is no object gives the quiz-generation-failed error; a
    [JSONDecodeError], from the decoder or from the backend itself, gives
    the quiz-parse error; any other exception gives the
    quiz-generation-failed error with its message. *)
Theorem generate_spec :
  forall (w : env) (model_type : string) (n : Z) (summary content : string),
    (model_type <> "google" -> model_type <> "openai" ->
     QuizGenerator.generate w model_type n summary content
     = (Ret (stage_error "Unknown model type"), []))
    /\ (forall model name,
           (model_type = "google" /\ model = "gemini-2.5-flash"
            /\ name = "google-gemini-2.5-flash")
           \/ (model_type = "openai" /\ model = "gpt-3.5-turbo"
               /\ name = "openai-gpt3.5") ->
           prefix_upto 1000 (PyStr.slice_to 1000 summary) summary
           /\ prefix_upto 2000 (PyStr.slice_to 2000 content) content
           /\ calls (trace (QuizGenerator.generate w model_type n summary content))
              = [QuizBackend model n (PyStr.slice_to 1000 summary)
                             (PyStr.slice_to 2000 content)]
           /\ result (QuizGenerator.generate w model_type n summary content)
              = Ret (quiz_of_answer w name
                       (quiz_backend w model n (PyStr.slice_to 1000 summary)
                                     (PyStr.slice_to 2000 content)))).
Proof.
  intros w model_type n summary content. unfold QuizGenerator.generate. split.
  - intros Hg Ho.
    destruct (String.eqb_spec model_type "google") as [->|_]; [now elim Hg|].
    destruct (String.eqb_spec model_type "openai") as [->|_]; [now elim Ho|].
    reflexivity.
  - intros model name [[-> [-> ->]] | [-> [-> ->]]];
      (split; [apply slice_to_prefix; lia|]);
      (split; [apply slice_to_prefix; lia|]);
      cbn [String.eqb Ascii.eqb Bool.eqb].
    + unfold QuizGenerator.generate_with_google. quiz_cases w;
        try (split; reflexivity);
        match goal with
        | |- context [QuizGenerator.google_handler ?e] =>
            destruct (google_handler_trace e) as [msg Et];
            pose proof (google_handler_result e) as Er;
            rewrite (M_eta (QuizGenerator.google_handler e)), Et, Er
        end; split; reflexivity.
    + unfold QuizGenerator.generate_with_openai. quiz_cases w;
        try (split; reflexivity);
        match goal with
        | |- context [QuizGenerator.openai_handler ?e] =>
            destruct (openai_handler_trace e) as [msg Et];
            pose proof (openai_handler_result e) as Er;
            rewrite (M_eta (QuizGenerator.openai_handler e)), Et, Er
        end; split; reflexivity.
Qed.
(** ** The article path *)

Lemma rev_acc_nospace (acc s : string) :
  nospace acc -> nospace s -> nospace (PyStr.rev_acc acc s).
Proof.
  revert acc. induction s as [|c s IH]; intros acc Ha Hs; [exact Ha|].
  destruct Hs as [Hc Hs]. cbn [PyStr.rev_acc]. apply IH; [now split | exact Hs].
Qed.

Lemma rev_acc_nonempty (acc s : string) :
  acc <> EmptyString \/ s <> EmptyString ->
  PyStr.rev_acc acc s <> EmptyString.
Proof.
  revert acc. induction s as [|c s IH]; intros acc H; cbn [PyStr.rev_acc].
  - destruct H as [H|H]; [exact H | now elim H].
  - apply IH. left. discriminate.
Qed.

Lemma words_aux_words (cur s : string) :
  nospace cur -> Forall word (PyStr.words_aux cur s).
Proof.
  revert cur. induction s as [|c s IH]; intros cur Hc; cbn [PyStr.words_aux].
  - destruct cur as [|a cur]; [constructor|].
    constructor; [|constructor]. split.
    + apply rev_acc_nonempty. right. discriminate.
    + now apply rev_acc_nospace.
  - destruct (PyStr.isspace c) eqn:Ec.
    + destruct cur as [|a cur]; [now apply IH|].
      constructor; [|now apply IH]. split.
      * apply rev_acc_nonempty. right. discriminate.
      * now apply rev_acc_nospace.
    + apply IH. now split.
Qed.

Lemma words_aux_push (w cur s : string) :
  nospace w ->
  PyStr.words_aux cur (w ++ s) = PyStr.words_aux (PyStr.rev_acc cur w) s.
Proof.
  revert cur. induction w as [|c w IH]; intros cur Hw; [reflexivity|].
  destruct Hw as [Hc Hw]. cbn [append PyStr.words_aux PyStr.rev_acc].
  rewrite Hc. now apply IH.
Qed.

Lemma rev_acc_involutive (s : string) :
  PyStr.rev_acc EmptyString (PyStr.rev_acc EmptyString s) = s.
Proof. now rewrite rev_acc_pushed. Qed.

(** splitting what was joined gives the words back *)
Lemma words_join (ws : list string) :
  Forall word ws -> PyStr.words (PyStr.join " " ws) = ws.
Proof.
  unfold PyStr.words. induction 1 as [|w ws [Hne Hw] Hws IH]; [reflexivity|].
  assert (Hr : PyStr.rev_acc EmptyString w <> EmptyString)
    by (apply rev_acc_nonempty; now right).
  destruct ws as [|w' ws].
  - cbn [PyStr.join]. rewrite <- (append_nil_r w) at 1.
    rewrite words_aux_push by exact Hw. cbn [PyStr.words_aux].
    destruct (PyStr.rev_acc EmptyString w) as [|a r] eqn:E; [now elim Hr|].
    rewrite <- E. now rewrite rev_acc_involutive.
  - change (PyStr.join " " (w :: w' :: ws))
      with (w ++ " " ++ PyStr.join " " (w' :: ws)).
    rewrite words_aux_push by exact Hw.
    change (" " ++ PyStr.join " " (w' :: ws))
      with (String " " (PyStr.join " " (w' :: ws))).
    cbn [PyStr.words_aux].
    change (PyStr.isspace " ") with true. cbv iota.
    destruct (PyStr.rev_acc EmptyString w) as [|a r] eqn:E; [now elim Hr|].
    rewrite <- E. rewrite rev_acc_involutive. now rewrite IH.
Qed.

Lemma collapse_words (text : string) :
  Forall word (PyStr.words text)
  /\ PyStr.words (collapse text) = PyStr.words text.
Proof.
  assert (H : Forall word (PyStr.words text))
    by (apply words_aux_words; exact I).
  split; [exact H | now apply words_join].
Qed.

Lemma scrape_article_eq (w : env) (url : string) (timeout : Z) :
  result (WebScraper.scrape_article w url timeout)
  = Ret match fetch_page w url timeout with
        | Ret soup => article_result url soup
        | Raise e => article_failure url e
        end
  /\ calls (trace (WebScraper.scrape_article w url timeout))
     = [ArticleGet url timeout].
Proof.
  unfold WebScraper.scrape_article, article_result, article_failure, collapse.
  destruct (fetch_page w url timeout) as [soup|e];
    cbn [lift bind emit app try_except]; cbv zeta.
  - destruct (_ <? _)%Z; split; reflexivity.
  - destruct (cls e); split; reflexivity.
Qed.

(** X9.  [scrape_article] never raises and fetches the page exactly
    once.  A timeout, a connection error and any other exception each
    become an error result with their own message (the message of another
    exception cut to 100 characters); a page whose collapsed text is
    shorter than 100 characters is an error; any other page is a success
    with the collapsed text, the page title (["No title"] without a title
    element) and the type [article]. *)
Theorem scrape_article_spec :
  forall (w : env) (url : string) (timeout : Z),
    result (WebScraper.scrape_article w url timeout)
    = Ret match fetch_page w url timeout with
          | Ret soup => article_result url soup
          | Raise e => article_failure url e
          end
    /\ calls (trace (WebScraper.scrape_article w url timeout))
       = [ArticleGet url timeout]
    /\ (forall e msg,
           article_failure url e = WebScraper.error_result msg url ->
           (PyStr.len msg <= 126)%Z)
    /\ (forall soup title content type,
           article_result url soup = extraction_success title content url type ->
           (100 <= PyStr.len content)%Z /\ type = JStr "article"
           /\ content = collapse (soup_text soup)).
Proof.
  intros w url timeout.
  destruct (scrape_article_eq w url timeout) as [H1 H2].
  split; [exact H1|]. split; [exact H2|]. split.
  - intros e msg. unfold article_failure, WebScraper.error_result.
    destruct (cls e); intros [= <-]; try (vm_compute; intro; discriminate).
    all: destruct (slice_to_prefix 100 (message e) ltac:(lia)) as [_ Hl].
    all: unfold PyStr.len in *; cbn [String.length]; lia.
  - intros soup title content type. unfold article_result.
    destruct (Z.ltb_spec (PyStr.len (collapse (soup_text soup))) 100) as [H|H].
    + unfold WebScraper.error_result, extraction_success. discriminate.
    + unfold extraction_success. intros [= _ <- <-]. auto.
Qed.

(** X10.  The content of a scraped article is its own words joined by
    single spaces: the words are non-empty and free of whitespace, so the
    content has no leading, trailing or repeated whitespace and no
    whitespace other than the space; and it has at least 100
    characters. *)
Theorem scraped_content_collapsed :
  forall (w : env) (url : string) (timeout : Z) (title : json)
         (content : string) (type : json),
    result (WebScraper.scrape_article w url timeout)
    = Ret (extraction_success title content url type) ->
    Forall word (PyStr.words content)
    /\ PyStr.join " " (PyStr.words content) = content
    /\ (100 <= PyStr.len content)%Z.
Proof.
  intros w url timeout title content type H.
  rewrite (proj1 (scrape_article_eq w url timeout)) in H.
  injection H as H.
  destruct (fetch_page w url timeout) as [soup|e].
  - unfold article_result in H.
    destruct (Z.ltb_spec (PyStr.len (collapse (soup_text soup))) 100) as [Hl|Hl].
    + discriminate H.
    + injection H as _ <- _.
      destruct (collapse_words (soup_text soup)) as [H1 H2].
      change (PyStr.join " " (PyStr.words (collapse (soup_text soup))))
        with (collapse (collapse (soup_text soup))).
      unfold collapse at 2. rewrite H2.
      split; [exact H1|]. split; [reflexivity | exact Hl].
  - unfold article_failure in H. destruct (cls e); discriminate H.
Qed.

Lemma scraped_content_collapsed_witness :
  Forall word (PyStr.words article_text)
  /\ PyStr.join " " (PyStr.words article_text) = article_text
  /\ (100 <= PyStr.len article_text)%Z.
Proof.
  exact (scraped_content_collapsed empty_env "https://example.com/article" 10%Z
           (JStr "Rivers") article_text (JStr "article") eq_refl).
Defined.
(** ** The video path *)

Lemma calls_bind {A B} (m : M A) (f : A -> M B) :
  calls (trace (bind m f))
  = (calls (trace m) ++ match result m with
                        | Ret a => calls (trace (f a))
                        | Raise _ => []
                        end)%list.
Proof. rewrite trace_bind, calls_app. now destruct (result m). Qed.

Lemma calls_try {A} (m : M A) (h : exn -> M A) :
  calls (trace (try_except m h))
  = (calls (trace m) ++ match result m with
                        | Ret _ => []
                        | Raise e => calls (trace (h e))
                        end)%list.
Proof. rewrite trace_try, calls_app. now destruct (result m). Qed.

Lemma sat_quiet {A} (m : M A) (Q : A -> Prop) (E : exn -> Prop) :
  sat m Q E is_log -> calls (trace m) = [].
Proof. intros [H _]. now apply calls_logs. Qed.

Lemma transcript_handler_quiet (url : string) (e : exn) :
  calls (trace (WebScraper.transcript_handler url e)) = [].
Proof.
  apply sat_quiet with (Q := path_result url) (E := never).
  apply transcript_handler_sat. intros l msg. exact I.
Qed.

(** the video path asks the transcript service once when it has an
    identifier and a key, and not at all otherwise *)
Lemma transcript_body_calls (w : env) (url video_id : string) :
  calls (trace (WebScraper.transcript_body w url video_id))
  = if configured w then [TranscriptPost video_id] else [].
Proof.
  unfold WebScraper.transcript_body, configured.
  destruct (YOUTUBE_TRANSCRIPT_IO_API_KEY w) as [[|k0 k]|]; [reflexivity| |reflexivity].
  rewrite calls_bind, result_log, trace_log.
  rewrite calls_bind, result_emit, trace_emit. cbn [calls filter app].
  match goal with
  | |- (_ :: calls (trace ?m))%list = _ =>
      assert (H : sat m any any is_log)
  end.
  { repeat (first [ apply select_content_sat; intros; exact I
                  | sat_step ]; try exact I). }
  now rewrite (sat_quiet _ _ _ H).
Qed.

Lemma get_youtube_transcript_calls (w : env) (url : string) :
  calls (trace (WebScraper.get_youtube_transcript w url))
  = match WebScraper.extract_youtube_id url with
    | Some video_id =>
        if configured w then [TranscriptPost video_id] else []
    | None => []
    end.
Proof.
  unfold WebScraper.get_youtube_transcript.
  destruct (WebScraper.extract_youtube_id url) as [id|] eqn:Hid;
    [|reflexivity].
  destruct (first_match_sound url id Hid) as [Hne _].
  destruct id as [|c id]; [now elim Hne|].
  rewrite calls_try, calls_bind, result_log, trace_log.
  cbn [calls filter app].
  rewrite calls_try, transcript_body_calls.
  assert (Hr : exists v,
             result (try_except
                       (WebScraper.transcript_body w url (String c id))
                       (WebScraper.transcript_handler url)) = Ret v).
  { rewrite result_try.
    destruct (result (WebScraper.transcript_body w url (String c id)))
      as [v|e]; [now exists v|].
    destruct (transcript_handler_sat url e any (fun _ _ => I)) as [_ H].
    destruct (result (WebScraper.transcript_handler url e)) as [v|x];
      [now exists v | elim H]. }
  rewrite result_bind, result_log.
  destruct Hr as [v ->].
  destruct (result (WebScraper.transcript_body w url (String c id))) as [a|e].
  - now rewrite !app_nil_r.
  - rewrite transcript_handler_quiet. now rewrite !app_nil_r.
Qed.

(** one step through straight-line code, keeping what each test found *)
Ltac sat_keep :=
  lazymatch goal with
  | |- sat (ret _) _ _ _ => apply sat_ret
  | |- sat (log _ _) _ _ _ => apply sat_log
  | |- sat (emit _) _ _ _ => apply sat_emit
  | |- sat (lift _) any any _ => apply sat_lift_any
  | |- sat (bind _ _) _ _ _ => apply sat_bind with (Q1 := any); [|intros ? _]
  | |- sat (if ?c then _ else _) _ _ _ => destruct c eqn:?
  | |- sat (match ?x with _ => _ end) _ _ _ => destruct x
  | |- sat (let x := _ in _) _ _ _ => cbv zeta
  end.

Lemma transcript_body_checked (w : env) (url video_id : string) :
  sat (WebScraper.transcript_body w url video_id)
      (checked_transcript url video_id) any any.
Proof.
  unfold WebScraper.transcript_body, checked_transcript.
  repeat (first [ apply select_content_sat; intros; exact I
                | sat_keep ];
          try first [ exact I | left; eexists; reflexivity ]).
  right. eexists. split; [reflexivity|].
  match goal with
  | H : (_ || _) = false |- _ =>
      apply orb_false_iff in H; destruct H as [_ H]; apply Z.ltb_ge in H
  end.
  split; [assumption | apply strip_idem].
Qed.

Lemma transcript_handler_error (url : string) (e : exn) :
  exists msg,
    result (WebScraper.transcript_handler url e)
    = Ret (WebScraper.error_result msg url).
Proof.
  unfold WebScraper.transcript_handler.
  destruct (cls e); autorewrite with run; cbv zeta;
    try (eexists; reflexivity);
    autorewrite with run;
    repeat match goal with
           | |- context [if ?c then _ else _] => destruct c
           end; autorewrite with run; eexists; reflexivity.
Qed.

Lemma get_youtube_transcript_checked (w : env) (url : string) :
  exists v,
    result (WebScraper.get_youtube_transcript w url) = Ret v
    /\ ((exists msg, v = WebScraper.error_result msg url)
        \/ (exists video_id,
               WebScraper.extract_youtube_id url = Some video_id
               /\ checked_transcript url video_id v)).
Proof.
  unfold WebScraper.get_youtube_transcript.
  destruct (WebScraper.extract_youtube_id url) as [[|c id]|] eqn:Hid.
  - eexists. split; [reflexivity|]. left. eexists. reflexivity.
  - rewrite result_try, result_bind, result_log, result_try.
    destruct (transcript_body_checked w url (String c id)) as [_ Hb].
    destruct (result (WebScraper.transcript_body w url (String c id)))
      as [v|e].
    + exists v. split; [reflexivity|]. right. exists (String c id). auto.
    + destruct (transcript_handler_error url e) as [msg ->].
      eexists. split; [reflexivity|]. left. now exists msg.
  - eexists. split; [reflexivity|]. left. eexists. reflexivity.
Qed.

Lemma transcript_unconfigured (w : env) (url video_id : string) :
  WebScraper.extract_youtube_id url = Some video_id ->
  configured w = false ->
  result (WebScraper.get_youtube_transcript w url) = Ret (not_configured url).
Proof.
  intros Hid Hc. destruct (first_match_sound url video_id Hid) as [Hne _].
  unfold WebScraper.get_youtube_transcript. rewrite Hid.
  destruct video_id as [|c id]; [now elim Hne|].
  rewrite result_try, result_bind, result_log, result_try.
  unfold WebScraper.transcript_body. unfold configured in Hc.
  destruct (YOUTUBE_TRANSCRIPT_IO_API_KEY w) as [[|k0 k]|];
    [reflexivity | discriminate Hc | reflexivity].
Qed.

Lemma transcript_service_raises (w : env) (url video_id : string) (e : exn) :
  WebScraper.extract_youtube_id url = Some video_id ->
  configured w = true ->
  service_raises w video_id e ->
  result (WebScraper.get_youtube_transcript w url)
  = result (WebScraper.transcript_handler url e).
Proof.
  intros Hid Hc Hs. destruct (first_match_sound url video_id Hid) as [Hne _].
  unfold WebScraper.get_youtube_transcript. rewrite Hid.
  destruct video_id as [|c id] eqn:Ev; [now elim Hne|]. rewrite <- Ev in *.
  rewrite result_try, result_bind, result_log, result_try.
  destruct (transcript_handler_error url e) as [msg Hh].
  assert (Hb : result (WebScraper.transcript_body w url video_id) = Raise e).
  { unfold WebScraper.transcript_body. unfold configured in Hc.
    destruct (YOUTUBE_TRANSCRIPT_IO_API_KEY w) as [[|k0 k]|];
      try discriminate Hc.
    destruct Hs as [Hs | [resp [Hs [Hcode Hbody]]]].
    - autorewrite with run. rewrite Hs. reflexivity.
    - autorewrite with run. rewrite Hs. rewrite Hcode.
      cbn [Z.eqb Pos.eqb negb]. autorewrite with run. rewrite Hbody.
      reflexivity. }
  rewrite Hb, Hh. reflexivity.
Qed.

Lemma transcript_success_shape :
  forall (w : env) (url : string) (title : json) (content : string)
         (type : json),
    result (WebScraper.get_youtube_transcript w url)
    = Ret (extraction_success title content url type) ->
    exists video_id,
      WebScraper.extract_youtube_id url = Some video_id
      /\ title = JStr ("YouTube Video: " ++ video_id)
      /\ type = JStr "video"
      /\ (50 <= PyStr.len content)%Z
      /\ PyStr.strip content = content
      /\ configured w = true
      /\ calls (trace (WebScraper.get_youtube_transcript w url))
         = [TranscriptPost video_id].
Proof.
  intros w url title content type H.
  destruct (get_youtube_transcript_checked w url) as [v [Hv Hq]].
  rewrite Hv in H. injection H as ->.
  destruct Hq as [[msg Hq] | [id [Hid [[msg Hq] | [c [Hq [Hl Hs]]]]]]];
    try discriminate Hq.
  injection Hq as -> -> ->.
  exists id. repeat (split; [assumption || reflexivity|]).
  destruct (configured w) eqn:Hc.
  - split; [reflexivity|].
    now rewrite get_youtube_transcript_calls, Hid, Hc.
  - rewrite (transcript_unconfigured w url id Hid Hc) in Hv. discriminate Hv.
Qed.

(** X11.  A success of [get_youtube_transcript] always has this shape: the
    URL held an identifier, the title is ["YouTube Video: "] and the
    identifier, the type is [video], the transcript is stripped of
    surrounding whitespace and has 50 characters or more; the key was
    configured and the transcript service was asked once, for that
    identifier. *)
Theorem transcript_success_checked :
  forall (w : env) (url : string) (title : json) (content : string)
         (type : json),
    result (WebScraper.get_youtube_transcript w url)
    = Ret (extraction_success title content url type) ->
    exists video_id,
      WebScraper.extract_youtube_id url = Some video_id
      /\ title = JStr ("YouTube Video: " ++ video_id)
      /\ type = JStr "video"
      /\ (50 <= PyStr.len content)%Z
      /\ PyStr.strip content = content
      /\ configured w = true
      /\ calls (trace (WebScraper.get_youtube_transcript w url))
         = [TranscriptPost video_id].
Proof. exact transcript_success_shape. Qed.

Lemma transcript_success_checked_witness :
  exists video_id,
    WebScraper.extract_youtube_id "https://youtu.be/abc" = Some video_id
    /\ JStr "YouTube Video: abc" = JStr ("YouTube Video: " ++ video_id)
    /\ JStr "video" = JStr "video"
    /\ (50 <= PyStr.len sample_text)%Z
    /\ PyStr.strip sample_text = sample_text
    /\ configured (transcripts (JArr [JObj [("text", JStr sample_text)]])) = true
    /\ calls (trace (WebScraper.get_youtube_transcript
                       (transcripts (JArr [JObj [("text", JStr sample_text)]]))
                       "https://youtu.be/abc"))
       = [TranscriptPost video_id].
Proof.
  exact (transcript_success_checked
           (transcripts (JArr [JObj [("text", JStr sample_text)]]))
           "https://youtu.be/abc" (JStr "YouTube Video: abc") sample_text
           (JStr "video") eq_refl).
Defined.

(** X12.  An exception of the POST to the transcript service, or of
    decoding the body of its 200 response, never leaves
    [get_youtube_transcript].  It becomes an error result chosen in this
    order: a timeout; a JSON decoding error; any other exception whose
    message holds [disabled], in any letter case; one whose message holds
    [not found] or [no transcript]; and otherwise ["Failed: "] with the
    first 100 characters of the message.  The service was asked once. *)
Theorem transcript_service_failure :
  forall (w : env) (url video_id : string) (e : exn),
    WebScraper.extract_youtube_id url = Some video_id ->
    configured w = true ->
    service_raises w video_id e ->
    let answer := result (WebScraper.get_youtube_transcript w url) in
    let said := fun p => occurs p (PyStr.lower (message e)) in
    calls (trace (WebScraper.get_youtube_transcript w url))
    = [TranscriptPost video_id]
    /\ (cls e = Timeout ->
        answer = Ret (WebScraper.error_result
                        "Request timed out. Please try again." url))
    /\ (cls e = JSONDecodeError ->
        answer = Ret (WebScraper.error_result
                        "Failed to parse API response." url))
    /\ (cls e <> Timeout -> cls e <> JSONDecodeError ->
        (said "disabled" ->
         answer = Ret (WebScraper.error_result
                         "❌ Transcripts are disabled for this video." url))
        /\ (~ said "disabled" -> said "not found" \/ said "no transcript" ->
            answer = Ret (WebScraper.error_result
                            "⚠️ No captions found. Try another video or use an article URL."
                            url))
        /\ (~ said "disabled" -> ~ said "not found" -> ~ said "no transcript" ->
            answer = Ret (WebScraper.error_result
                            ("Failed: " ++ PyStr.slice_to 100 (message e))
                            url))).
Proof.
  intros w url video_id e Hid Hc Hs answer said. subst answer said.
  rewrite (transcript_service_raises w url video_id e Hid Hc Hs).
  rewrite get_youtube_transcript_calls, Hid, Hc.
  split; [reflexivity|].
  unfold WebScraper.transcript_handler.
  split; [intros ->; reflexivity|]. split; [intros ->; reflexivity|].
  intros H1 H2.
  assert (Hd := contains_spec "disabled" (PyStr.lower (message e))).
  assert (Hn := contains_spec "not found" (PyStr.lower (message e))).
  assert (Ht := contains_spec "no transcript" (PyStr.lower (message e))).
  destruct (cls e); try (now elim H1); try (now elim H2);
    cbv zeta; rewrite result_bind, result_log;
    destruct (PyStr.contains "disabled" _);
    destruct (PyStr.contains "not found" _);
    destruct (PyStr.contains "no transcript" _);
    cbn [orb]; rewrite result_ret;
    (split; [intros Hx | split; [intros Hx [Hy|Hy] | intros Hx Hy Hz]]);
    try reflexivity;
    try (apply Hd in Hx; discriminate Hx);
    try (elim Hx; apply Hd; reflexivity);
    try (apply Hn in Hy; discriminate Hy);
    try (apply Ht in Hy; discriminate Hy);
    try (elim Hy; apply Hn; reflexivity);
    try (elim Hz; apply Ht; reflexivity).
Qed.

Lemma transcript_service_failure_witness :
  result (WebScraper.get_youtube_transcript
            (raising (Exn OtherException "Subtitles are DISABLED here"))
            "https://youtu.be/abc")
  = Ret (WebScraper.error_result
           "❌ Transcripts are disabled for this video." "https://youtu.be/abc").
Proof.
  exact (proj1 (proj2 (proj2 (proj2
           (transcript_service_failure
              (raising (Exn OtherException "Subtitles are DISABLED here"))
              "https://youtu.be/abc" "abc"
              (Exn OtherException "Subtitles are DISABLED here")
              eq_refl eq_refl (or_introl eq_refl))))
           ltac:(discriminate) ltac:(discriminate))
           (proj1 (contains_spec "disabled"
                      (PyStr.lower "Subtitles are DISABLED here")) eq_refl)).
Defined.

(** X13.  [get_youtube_transcript] asks the transcript service at most
    once: once, for the identifier of the URL, when the URL holds one and
    the key is configured; not at all when the URL holds none (the answer
    is the invalid-URL error) or when the key is missing or empty (the
    answer is the not-configured error). *)
Theorem transcript_calls :
  forall (w : env) (url : string),
    calls (trace (WebScraper.get_youtube_transcript w url))
    = match WebScraper.extract_youtube_id url with
      | Some video_id =>
          if configured w then [TranscriptPost video_id] else []
      | None => []
      end
    /\ (WebScraper.extract_youtube_id url = None ->
        result (WebScraper.get_youtube_transcript w url)
        = Ret (WebScraper.error_result
                 "❌ Invalid YouTube URL format. Please check the URL." url))
    /\ (forall video_id,
           WebScraper.extract_youtube_id url = Some video_id ->
           configured w = false ->
           result (WebScraper.get_youtube_transcript w url)
           = Ret (not_configured url)).
Proof.
  intros w url. split; [apply get_youtube_transcript_calls|]. split.
  - intros H. unfold WebScraper.get_youtube_transcript. now rewrite H.
  - intros id. apply transcript_unconfigured.
Qed.

(** ** The request handler: answers and calls *)

Lemma request_raises (w : env) (data : json) (e : exn) :
  request_url data = Raise e ->
  main.process_url w data
  = (Ret (internal_error, 500%Z),
     [Log ERROR ("Unexpected error in process_url: " ++ message e)]).
Proof.
  intros Hreq. rewrite (M_eta (main.process_url w data)).
  unfold main.process_url. unfold request_url in Hreq.
  destruct (main.get_url data) as [v|e'].
  - pipe. rewrite Hreq. pipe. reflexivity.
  - injection Hreq as ->. pipe. reflexivity.
Qed.

(** the quiz guardrail raises: the handler answers the internal error *)
Lemma quiz_raises_stops (w : env) (data : json) (url : string)
      (title content_type : json)
      (content extracted_url summary summary_model summary_msg : string)
      (quiz : json) (quiz_model : string) (e : exn) :
  request_url data = Ret url ->
  url <> EmptyString ->
  fst (ContentGuardrails.validate_url url) = true ->
  result (main.extract_content w (JStr url))
  = Ret (extraction_success title content extracted_url content_type) ->
  result (main.summarize w content)
  = Ret (summary_success summary summary_model) ->
  result (ContentGuardrails.validate_summary summary)
  = Ret (true, summary_msg) ->
  result (main.generate w summary content)
  = Ret (generation_success quiz quiz_model) ->
  ContentGuardrails.validate_quiz quiz = Raise e ->
  main.process_url w data
  = (Ret (internal_error, 500%Z),
     (until_quiz w url content_type content summary
        ++ [Log ERROR ("Unexpected error in process_url: " ++ message e)])%list).
Proof.
  intros Hreq Hne Hsafe HE HS HV HG HQ.
  rewrite (M_eta (main.process_url w data)).
  unfold main.process_url. unfold request_url in Hreq.
  destruct (main.get_url data) as [v|e']; [|discriminate].
  pipe. rewrite Hreq. pipe.
  destruct (String.eqb_spec url EmptyString) as [->|_]; [now elim Hne|].
  destruct (ContentGuardrails.validate_url url) as [safe m].
  cbn [fst] in Hsafe. subst. pipe.
  rewrite HE. unfold extraction_success. pipe.
  rewrite HS. unfold summary_success. pipe.
  rewrite HV. pipe. rewrite HG. unfold generation_success. pipe.
  rewrite HQ. pipe.
  unfold until_quiz, until_summary, internal_error. flat.
Qed.

Lemma calls_until_summary (w : env) (url : string) (type : json)
      (content : string) :
  calls (until_summary w url type content)
  = (calls (trace (main.extract_content w (JStr url)))
       ++ calls (trace (main.summarize w content)))%list.
Proof.
  unfold until_summary. cbn [calls filter]. fold (calls).
  change (filter _ ?t) with (calls t).
  rewrite calls_app. reflexivity.
Qed.

Lemma calls_until_quiz (w : env) (url : string) (type : json)
      (content summary : string) :
  calls (until_quiz w url type content summary)
  = (calls (trace (main.extract_content w (JStr url)))
       ++ calls (trace (main.summarize w content))
       ++ calls (trace (main.generate w summary content)))%list.
Proof.
  unfold until_quiz. rewrite !calls_app, calls_until_summary.
  rewrite (calls_logs _ (validate_summary_logs summary)).
  cbn [calls filter app]. change (filter _ ?t) with (calls t).
  now rewrite <- app_assoc.
Qed.

(** what extraction asks: one service for a video URL with an identifier
    and a key, one page for any other URL *)
Lemma extract_content_calls (w : env) (url : string) :
  url <> EmptyString ->
  calls (trace (main.extract_content w (JStr url)))
  = if WebScraper.is_youtube_url (PyStr.strip url)
    then match WebScraper.extract_youtube_id (PyStr.strip url) with
         | Some video_id =>
             if configured w then [TranscriptPost video_id] else []
         | None => []
         end
    else [ArticleGet (PyStr.strip url) 10%Z].
Proof.
  intros Hne. unfold main.extract_content, WebScraper.extract_content.
  cbn [Py.truthy WebScraper.is_str Py.str negb orb].
  destruct (String.eqb_spec url EmptyString) as [->|_]; [now elim Hne|].
  cbn [negb]. destruct (WebScraper.is_youtube_url (PyStr.strip url)).
  - apply get_youtube_transcript_calls.
  - apply scrape_article_eq.
Qed.

Lemma extract_content_asks (w : env) (url : string) :
  url <> EmptyString ->
  (calls (trace (main.extract_content w (JStr url))) = []
   /\ exists msg, result (main.extract_content w (JStr url))
                  = Ret (WebScraper.error_result msg (PyStr.strip url)))
  \/ (exists ev, asks_extractor ev
                 /\ calls (trace (main.extract_content w (JStr url))) = [ev]).
Proof.
  intros Hne. rewrite (extract_content_calls w url Hne).
  unfold main.extract_content, WebScraper.extract_content.
  cbn [Py.truthy WebScraper.is_str Py.str negb orb].
  destruct (String.eqb_spec url EmptyString) as [->|_]; [now elim Hne|].
  cbn [negb]. destruct (WebScraper.is_youtube_url (PyStr.strip url)).
  - destruct (WebScraper.extract_youtube_id (PyStr.strip url)) as [id|] eqn:Hid.
    + destruct (configured w) eqn:Hc.
      * right. exists (TranscriptPost id). now split.
      * left. split; [reflexivity|]. eexists.
        apply (transcript_unconfigured w _ id Hid Hc).
    + left. split; [reflexivity|]. eexists.
      unfold WebScraper.get_youtube_transcript. rewrite Hid. reflexivity.
  - right. eexists. split; [|reflexivity]. exact I.
Qed.

(** what the handler's summarizer asks *)
Lemma main_summarize_cases (w : env) (content : string) :
  ((content = EmptyString \/ (PyStr.len content < 100)%Z)
   /\ main.summarize w content
      = (Ret (stage_error "Content too short for summarization"), []))
  \/ ((100 <= PyStr.len content)%Z
      /\ calls (trace (main.summarize w content))
         = [SummaryBackend "gemini-2.5-flash" (PyStr.slice_to 300000 content)]
      /\ ((exists msg, result (main.summarize w content) = Ret (stage_error msg))
          \/ (exists summary model,
                 result (main.summarize w content)
                 = Ret (summary_success summary model)))).
Proof.
  unfold main.summarize, LLMSummarizer.summarize.
  destruct (String.eqb_spec content EmptyString) as [->|Hne].
  { left. split; [now left | reflexivity]. }
  destruct (Z.ltb_spec (PyStr.len content) 100) as [Hl|Hl].
  { left. split; [now right|].
    destruct content; [now elim Hne | reflexivity]. }
  right. split; [exact Hl|].
  cbn [config.SUMMARIZATION_MODEL String.eqb Ascii.eqb Bool.eqb].
  unfold LLMSummarizer.summarize_with_google. cbv zeta.
  destruct (summary_backend w _ _) as [text|e]; (split; [reflexivity|]).
  - right. do 2 eexists. reflexivity.
  - left. eexists. reflexivity.
Qed.

(** what the handler's quiz generator asks *)
Lemma main_generate_cases (w : env) (summary content : string) :
  calls (trace (main.generate w summary content))
  = [quiz_call config.NUM_QUIZ_QUESTIONS summary content]
  /\ ((exists msg, result (main.generate w summary content)
                   = Ret (stage_error msg))
      \/ (exists quiz model,
             result (main.generate w summary content)
             = Ret (generation_success quiz model))).
Proof.
  split.
  - unfold main.generate, QuizGenerator.generate.
    cbn [config.SUMMARIZATION_MODEL String.eqb Ascii.eqb Bool.eqb].
    destruct (generate_with_google_trace w config.NUM_QUIZ_QUESTIONS
                summary content) as [logs [-> Hl]].
    unfold quiz_call at 1. cbn [calls filter].
    change (filter _ logs) with (calls logs). now rewrite (calls_logs _ Hl).
  - destruct (generate_stage w summary content) as [_ H].
    destruct (result (main.generate w summary content)) as [v|e]; [|elim H].
    destruct H as [[msg ->]|[quiz [model ->]]]; [left | right]; eauto.
Qed.

Lemma error_result_response (msg url : string) :
  error_response (WebScraper.error_result msg url).
Proof. split; [reflexivity | now exists msg]. Qed.

Lemma stage_error_response (msg : string) : error_response (stage_error msg).
Proof. split; [reflexivity | now exists msg]. Qed.

(** every request is answered, and what was asked on the way *)
Lemma process_url_cases (w : env) (data : json) :
  exists body code,
    result (main.process_url w data) = Ret (body, code)
    /\ answered body code
    /\ call_chain code (calls (trace (main.process_url w data))).
Proof.
  destruct (request_url data) as [url|e] eqn:Hreq.
  2: { rewrite (request_raises w data e Hreq).
       exists internal_error, 500%Z. split; [reflexivity|]. split.
       - right. split; [now right | apply stage_error_response].
       - cbn. discriminate. }
  destruct (String.eqb_spec url EmptyString) as [Hemp|Hne].
  { rewrite (process_url_empty w data url Hreq Hemp).
    do 2 eexists. split; [reflexivity|]. split.
    - right. split; [now left | apply stage_error_response].
    - cbn. discriminate. }
  destruct (ContentGuardrails.validate_url url) as [[|] umsg] eqn:Hu.
  2: { rewrite (process_url_unsafe w data url Hreq Hne umsg Hu).
       do 2 eexists. split; [reflexivity|]. split.
       - right. split; [now left | apply stage_error_response].
       - cbn. discriminate. }
  assert (Hsafe : fst (ContentGuardrails.validate_url url) = true)
    by now rewrite Hu.
  destruct (extract_content_stage w url Hne) as [_ HQ].
  destruct (result (main.extract_content w (JStr url))) as [er|] eqn:HE;
    [|elim HQ].
  destruct HQ as [[emsg ->] | [title [content [type ->]]]].
  { rewrite (process_url_extraction_failed w data url Hreq Hne Hsafe _ HE
               (error_result_failed _ _)).
    do 2 eexists. split; [reflexivity|]. split.
    - right. split; [now left | apply error_result_response].
    - cbn [trace snd calls filter]. change (filter _ ?t) with (calls t).
      destruct (extract_content_asks w url Hne) as [[-> _] | [ev [Hev ->]]];
        cbn; [discriminate | split; [exact Hev | discriminate]]. }
  assert (Hasked : exists ev, asks_extractor ev
                   /\ calls (trace (main.extract_content w (JStr url))) = [ev]).
  { destruct (extract_content_asks w url Hne) as [[_ [m Hm]] | H];
      [|exact H].
    rewrite Hm in HE. discriminate HE. }
  destruct Hasked as [ev [Hev Hcalls]].
  destruct (main_summarize_cases w content)
    as [[_ Hshort] | [Hlen [Hsc [[smsg HS] | [summary [smodel HS]]]]]].
  { assert (HS : result (main.summarize w content)
                 = Ret (stage_error "Content too short for summarization"))
      by now rewrite Hshort.
    rewrite (process_url_summarization_failed w data url Hreq Hne Hsafe
               title (JStr type) content _ HE _ HS (stage_error_failed _)).
    do 2 eexists. split; [reflexivity|]. split.
    - right. split; [now right | apply stage_error_response].
    - cbn [trace snd]. rewrite calls_until_summary, Hcalls, Hshort.
      cbn. split; [exact Hev | discriminate]. }
  { rewrite (process_url_summarization_failed w data url Hreq Hne Hsafe
               title (JStr type) content _ HE _ HS (stage_error_failed _)).
    do 2 eexists. split; [reflexivity|]. split.
    - right. split; [now right | apply stage_error_response].
    - cbn [trace snd]. rewrite calls_until_summary, Hcalls, Hsc.
      cbn. split; [exact Hev|]. split; [exact I | discriminate]. }
  destruct (validate_summary_total summary) as [[vmsg HV] | [vmsg HV]].
  2: { rewrite (process_url_summary_rejected w data url Hreq Hne Hsafe
                  title (JStr type) content _ HE summary smodel HS vmsg HV).
       do 2 eexists. split; [reflexivity|]. split.
       - right. split; [now left | apply stage_error_response].
       - cbn [trace snd]. rewrite !calls_app, calls_until_summary, Hcalls, Hsc.
         rewrite (calls_logs _ (validate_summary_logs summary)).
         cbn. split; [exact Hev|]. split; [exact I | discriminate]. }
  destruct (main_generate_cases w summary content)
    as [Hgc [[gmsg HG] | [quiz [qmodel HG]]]].
  { rewrite (process_url_generation_failed w data url Hreq Hne Hsafe
               title (JStr type) content _ HE summary smodel HS vmsg HV
               _ HG (stage_error_failed _)).
    do 2 eexists. split; [reflexivity|]. split.
    - right. split; [now right | apply stage_error_response].
    - cbn [trace snd]. rewrite calls_until_quiz, Hcalls, Hsc, Hgc.
      cbn. auto. }
  destruct (ContentGuardrails.validate_quiz quiz) as [[ok qmsg]|qe] eqn:HQ.
  2: { rewrite (quiz_raises_stops w data url title (JStr type) content _
                  summary smodel vmsg quiz qmodel qe
                  Hreq Hne Hsafe HE HS HV HG HQ).
       do 2 eexists. split; [reflexivity|]. split.
       - right. split; [now right | apply stage_error_response].
       - cbn [trace snd]. rewrite calls_app, calls_until_quiz, Hcalls, Hsc, Hgc.
         cbn. auto. }
  destruct (PyExc.len quiz) as [n|le] eqn:Hn.
  - rewrite (process_url_done w data url Hreq Hne Hsafe
               title (JStr type) content _ HE summary smodel HS vmsg HV
               quiz qmodel HG ok qmsg n HQ Hn).
    do 2 eexists. split; [reflexivity|]. split.
    + left. split; [reflexivity|]. do 5 eexists. reflexivity.
    + cbn [trace snd]. rewrite !calls_app, calls_until_quiz, Hcalls, Hsc, Hgc.
      destruct ok; cbn; auto.
  - rewrite (process_url_unsized w data url Hreq Hne Hsafe
               title (JStr type) content _ HE summary smodel HS vmsg HV
               quiz qmodel HG ok qmsg le HQ Hn).
    do 2 eexists. split; [reflexivity|]. split.
    + right. split; [now right | apply stage_error_response].
    + cbn [trace snd]. rewrite !calls_app, calls_until_quiz, Hcalls, Hsc, Hgc.
      destruct ok; cbn; auto.
Qed.

(** X14.  [process_url] answers every request, whatever the body and
    whatever the collaborators do: it never raises.  The answer is the
    success envelope with 200, or a body whose [status] is [error] and
    whose [message] is a string, with 400 or 500. *)
Theorem process_url_answers :
  forall (w : env) (data : json),
  exists body code,
    result (main.process_url w data) = Ret (body, code)
    /\ answered body code.
Proof.
  intros w data.
  destruct (process_url_cases w data) as [body [code [H1 [H2 _]]]].
  now exists body, code.
Qed.

(** X15.  One request asks each collaborator at most once and in the
    order of the stages: the extractor (the transcript service or the
    page fetch, never both), then the summary backend, then the quiz
    backend; a later one is asked only after the earlier ones were, and a
    200 answer has asked all three. *)
Theorem process_url_call_chain :
  forall (w : env) (data : json),
  exists body code,
    result (main.process_url w data) = Ret (body, code)
    /\ call_chain code (calls (trace (main.process_url w data))).
Proof.
  intros w data.
  destruct (process_url_cases w data) as [body [code [H1 [_ H2]]]].
  now exists body, code.
Qed.

(** the shape of a success of [extract_content] *)
Lemma extract_content_success (w : env) (url : string) (title : json)
      (content extracted_url : string) (type : json) :
  url <> EmptyString ->
  result (main.extract_content w (JStr url))
  = Ret (extraction_success title content extracted_url type) ->
  (WebScraper.is_youtube_url (PyStr.strip url) = true
   /\ type = JStr "video" /\ (50 <= PyStr.len content)%Z)
  \/ (WebScraper.is_youtube_url (PyStr.strip url) = false
      /\ type = JStr "article" /\ (100 <= PyStr.len content)%Z).
Proof.
  intros Hne. unfold main.extract_content, WebScraper.extract_content.
  cbn [Py.truthy WebScraper.is_str Py.str negb orb].
  destruct (String.eqb_spec url EmptyString) as [->|_]; [now elim Hne|].
  cbn [negb]. destruct (WebScraper.is_youtube_url (PyStr.strip url)); intros H;
    cbn [orb] in H.
  - left. split; [reflexivity|].
    destruct (get_youtube_transcript_checked w (PyStr.strip url))
      as [v [Hv Hq]].
    rewrite Hv in H. injection H as ->.
    destruct Hq as [[msg Hq] | [id [Hid [[msg Hq] | [c [Hq [Hl Hs]]]]]]];
      try discriminate Hq.
    injection Hq as _ -> _ ->. auto.
  - right. split; [reflexivity|].
    rewrite (proj1 (scrape_article_eq w (PyStr.strip url) 10%Z)) in H.
    injection H as H.
    destruct (fetch_page w (PyStr.strip url) 10%Z) as [soup|e].
    + unfold article_result in H.
      destruct (Z.ltb_spec (PyStr.len (collapse (soup_text soup))) 100)
        as [Hl|Hl]; [discriminate H|].
      injection H as _ <- _ <-. auto.
    + unfold article_failure in H. destruct (cls e); discriminate H.
Qed.

(** X16.  The two length thresholds do not agree: extraction lets a
    transcript of 50 characters through, the summarizer wants 100.  When
    extraction succeeds with content shorter than 100 characters, which
    only a video transcript of 50 to 99 characters can be, the handler
    answers 500 with [Content too short for summarization], and no
    backend is asked. *)
Theorem short_transcript_internal_error :
  forall (w : env) (data : json) (url : string) (title : json)
         (content extracted_url : string) (type : json),
    request_url data = Ret url ->
    url <> EmptyString ->
    fst (ContentGuardrails.validate_url url) = true ->
    result (main.extract_content w (JStr url))
    = Ret (extraction_success title content extracted_url type) ->
    (PyStr.len content < 100)%Z ->
    result (main.process_url w data)
    = Ret (stage_error "Content too short for summarization", 500%Z)
    /\ Forall not_backend (trace (main.process_url w data))
    /\ type = JStr "video"
    /\ (50 <= PyStr.len content)%Z.
Proof.
  intros w data url title content extracted_url type Hreq Hne Hsafe HE Hl.
  destruct (main_summarize_cases w content) as [[_ Hs] | [Hge _]]; [|lia].
  assert (HS : result (main.summarize w content)
               = Ret (stage_error "Content too short for summarization"))
    by now rewrite Hs.
  rewrite (process_url_summarization_failed w data url Hreq Hne Hsafe
             title type content _ HE _ HS (stage_error_failed _)).
  split; [reflexivity|]. split.
  - cbn [trace snd]. unfold until_summary. rewrite Hs. cbn [trace snd].
    constructor; [exact I|]. apply Forall_app. split.
    + now apply extract_content_quiet.
    + repeat constructor.
  - destruct (extract_content_success w url title content extracted_url type
                Hne HE) as [[_ [Ht Hc]] | [_ [_ Hc]]]; [auto | lia].
Qed.

Lemma short_transcript_internal_error_witness :
  result (main.process_url short_video video_request)
  = Ret (stage_error "Content too short for summarization", 500%Z)
  /\ Forall not_backend (trace (main.process_url short_video video_request))
  /\ JStr "video" = JStr "video"
  /\ (50 <= PyStr.len sample_text)%Z.
Proof.
  refine (short_transcript_internal_error short_video video_request
            "https://youtu.be/abc" (JStr "YouTube Video: abc") sample_text
            "https://youtu.be/abc" (JStr "video") eq_refl _ eq_refl eq_refl _).
  - discriminate.
  - vm_compute. reflexivity.
Defined.

(** X17.  The content of a scraped article always passes the length test
    of the summarizer: after a successful extraction of an article the
    summary backend is asked, with the first 300000 characters of the
    content. *)
Theorem article_reaches_backend :
  forall (w : env) (url : string) (title : json)
         (content extracted_url : string) (type : json),
    url <> EmptyString ->
    WebScraper.is_youtube_url (PyStr.strip url) = false ->
    result (main.extract_content w (JStr url))
    = Ret (extraction_success title content extracted_url type) ->
    calls (trace (main.summarize w content))
    = [SummaryBackend "gemini-2.5-flash" (PyStr.slice_to 300000 content)].
Proof.
  intros w url title content extracted_url type Hne Hart HE.
  destruct (extract_content_success w url title content extracted_url type
              Hne HE) as [[Hv _] | [_ [_ Hc]]].
  - rewrite Hart in Hv. discriminate Hv.
  - destruct (main_summarize_cases w content) as [[[->|Hl] _] | [_ [H _]]];
      [unfold PyStr.len in Hc; cbn in Hc; lia | lia | exact H].
Qed.

Lemma article_reaches_backend_witness :
  calls (trace (main.summarize empty_env article_text))
  = [SummaryBackend "gemini-2.5-flash" (PyStr.slice_to 300000 article_text)].
Proof.
  refine (article_reaches_backend empty_env "https://example.com/article"
            (JStr "Rivers") article_text "https://example.com/article"
            (JStr "article") _ eq_refl eq_refl).
  discriminate.
Defined.
(** ** Guardrails: reasons *)

Lemma scan_patterns_first (ps : list string) (p u : string) :
  first_found ps p u ->
  ContentGuardrails.scan_patterns ps u
  = (Ret (false, "Content contains inappropriate material"),
     [Log WARNING ("Potentially harmful content detected: " ++ p)]).
Proof.
  intros [before [after [-> [Hb Hp]]]].
  induction before as [|q before IH]; cbn [app ContentGuardrails.scan_patterns].
  - apply contains_spec in Hp. rewrite Hp. reflexivity.
  - assert (Hq : PyStr.contains q u = false)
      by (apply contains_false; apply Hb; now left).
    rewrite Hq. apply IH. intros g Hg. apply Hb. now right.
Qed.

Lemma scan_patterns_clean (ps : list string) (u : string) :
  (forall p, In p ps -> ~ occurs p u) ->
  ContentGuardrails.scan_patterns ps u
  = (Ret (true, "Summary passed validation"), []).
Proof.
  induction ps as [|q ps IH]; intros H; [reflexivity|].
  cbn [ContentGuardrails.scan_patterns].
  assert (Hq : PyStr.contains q u = false)
    by (apply contains_false; apply H; now left).
  rewrite Hq. apply IH. intros g Hg. apply H. now right.
Qed.

(** X18.  The checks of [validate_summary] run in a fixed order and each
    has its own reason: an empty summary; then one shorter than 100
    characters; then one longer than 200000; only then the keywords, in
    the order of the list, of which the first one found is named in the
    one warning that is logged.  So a summary that is too short is
    refused for its length, keyword or not, and nothing is logged; and
    nothing is logged for an accepted summary. *)
Theorem validate_summary_reasons :
  forall summary : string,
    (summary = EmptyString ->
     ContentGuardrails.validate_summary summary
     = (Ret (false, "Summary is empty"), []))
    /\ (summary <> EmptyString -> (PyStr.len summary < 100)%Z ->
        ContentGuardrails.validate_summary summary
        = (Ret (false, "Summary too short (min 100 chars)"), []))
    /\ ((200000 < PyStr.len summary)%Z ->
        ContentGuardrails.validate_summary summary
        = (Ret (false, "Summary too long (max 200000 chars)"), []))
    /\ ((100 <= PyStr.len summary <= 200000)%Z ->
        (forall p,
            first_found ContentGuardrails.forbidden_patterns p
              (PyStr.lower summary) ->
            ContentGuardrails.validate_summary summary
            = (Ret (false, "Content contains inappropriate material"),
               [Log WARNING ("Potentially harmful content detected: " ++ p)]))
        /\ (clean summary ->
            ContentGuardrails.validate_summary summary
            = (Ret (true, "Summary passed validation"), []))).
Proof.
  intros summary. unfold ContentGuardrails.validate_summary.
  split; [intros ->; reflexivity|].
  split.
  { intros Hne Hl.
    destruct (String.eqb_spec summary EmptyString) as [E|_]; [now elim Hne|].
    destruct (Z.ltb_spec (PyStr.len summary) config.MIN_SUMMARY_LENGTH)
      as [_|H]; [reflexivity|].
    unfold config.MIN_SUMMARY_LENGTH in H. lia. }
  split.
  { intros Hl.
    destruct (String.eqb_spec summary EmptyString) as [E|_].
    { subst. unfold PyStr.len in Hl. cbn in Hl. lia. }
    destruct (Z.ltb_spec (PyStr.len summary) config.MIN_SUMMARY_LENGTH)
      as [H|_]; [unfold config.MIN_SUMMARY_LENGTH in H; lia|].
    rewrite Z.gtb_ltb.
    destruct (Z.ltb_spec config.MAX_SUMMARY_LENGTH (PyStr.len summary))
      as [_|H]; [reflexivity|].
    unfold config.MAX_SUMMARY_LENGTH in H. lia. }
  intros [Hmin Hmax].
  destruct (String.eqb_spec summary EmptyString) as [E|_].
  { subst. unfold PyStr.len in Hmin. cbn in Hmin. lia. }
  destruct (Z.ltb_spec (PyStr.len summary) config.MIN_SUMMARY_LENGTH)
    as [H|_]; [unfold config.MIN_SUMMARY_LENGTH in H; lia|].
  rewrite Z.gtb_ltb.
  destruct (Z.ltb_spec config.MAX_SUMMARY_LENGTH (PyStr.len summary))
    as [H|_]; [unfold config.MAX_SUMMARY_LENGTH in H; lia|].
  cbv zeta. split.
  - intros p Hp. now apply scan_patterns_first.
  - intros Hc. apply scan_patterns_clean. exact Hc.
Qed.

Lemma check_questions_skip (good rest : list json) :
  Forall well_formed good ->
  ContentGuardrails.check_questions (good ++ rest)
  = ContentGuardrails.check_questions rest.
Proof.
  induction 1 as [|q good Hq _ IH]; [reflexivity|].
  cbn [app].
  destruct (check_questions_step q (good ++ rest))
    as [[_ E]|[[Hn _]|[Hn _]]]; [|contradiction|contradiction].
  now rewrite E.
Qed.

Lemma validate_quiz_skip (good : list json) (q : json) (rest : list json) :
  Forall well_formed good ->
  ContentGuardrails.validate_quiz (JArr (good ++ q :: rest))
  = ContentGuardrails.check_questions (q :: rest).
Proof.
  intros Hg. destruct good as [|g good].
  - apply validate_quiz_list.
  - cbn [app]. rewrite validate_quiz_list.
    change (g :: good ++ q :: rest)%list with ((g :: good) ++ q :: rest)%list.
    now apply check_questions_skip.
Qed.

Lemma missing_field_first (fs : list string) (f : string)
      (kv : list (string * json)) :
  first_missing fs f kv -> ContentGuardrails.missing_field fs kv = Some f.
Proof.
  intros [before [after [-> [Hb Hf]]]].
  induction before as [|g before IH]; cbn [app ContentGuardrails.missing_field].
  - now rewrite Hf.
  - rewrite (Hb g (or_introl eq_refl)). cbn [negb]. apply IH.
    intros h Hh. apply Hb. now right.
Qed.

(** X19.  [validate_quiz] stops at the first question that is not well
    formed, and that question alone decides the answer, whatever comes
    after it: a dict without [type] is refused as type [unknown]; a dict
    whose [type] is not one of the three known strings is refused with
    that type printed; a dict of a known type is refused for the first
    required field it lacks, in the order of the field list; a [type]
    that is a list or a dict makes the lookup raise [TypeError]; a
    question that is no dict makes [q.get] raise [AttributeError]. *)
Theorem validate_quiz_first_bad :
  forall (good : list json) (q : json) (rest : list json),
    Forall well_formed good ->
    let answer := ContentGuardrails.validate_quiz (JArr (good ++ q :: rest)) in
    (is_dict q = false -> answer = Raise (no_get q))
    /\ (forall kv,
           q = JObj kv ->
           (Py.assoc "type" kv = None ->
            answer = Ret (false, "Unknown question type: unknown"))
           /\ (forall v,
                  Py.assoc "type" kv = Some v ->
                  (Py.hashable v = false -> answer = Raise (unhashable v))
                  /\ (Py.hashable v = true ->
                      (forall t, v = JStr t -> ~ In t known_types) ->
                      answer = Ret (false, "Unknown question type: " ++ Py.str v)))
           /\ (forall t f,
                  Py.assoc "type" kv = Some (JStr t) ->
                  In t known_types ->
                  first_missing (required_of t) f kv ->
                  answer
                  = Ret (false, "Missing field '" ++ f ++ "' in question"))).
Proof.
  intros good q rest Hg answer. subst answer.
  rewrite (validate_quiz_skip good q rest Hg).
  split.
  { destruct q; try discriminate; intros _; reflexivity. }
  intros kv ->. cbn [ContentGuardrails.check_questions].
  split; [intros ->; reflexivity|]. split.
  - intros v ->. split.
    + destruct v; try discriminate; intros _; reflexivity.
    + destruct v as [| b | z | t | l | kv']; try discriminate;
        intros _ Hk; try reflexivity.
      rewrite (in_dict_unknown t (Hk t eq_refl)). reflexivity.
  - intros t f -> Hk Hm.
    destruct (fields_of_known t Hk) as [H1 H2]. rewrite H1.
    cbn [Py.str]. rewrite H2. now rewrite (missing_field_first _ _ _ Hm).
Qed.

Lemma validate_quiz_first_bad_witness :
  ContentGuardrails.validate_quiz
    (JArr ([JObj [("id", JNum 1); ("question", JStr "Is water wet?");
                  ("type", JStr "true_false");
                  ("correct_answer", JBool true)]]
             ++ JObj [("id", JNum 2); ("type", JStr "multiple_choice");
                      ("options", JArr [])]
             :: [JStr "never looked at"]))
  = Ret (false, "Missing field 'question' in question").
Proof.
  refine (proj2 (proj2 (proj2
            (validate_quiz_first_bad
               [JObj [("id", JNum 1); ("question", JStr "Is water wet?");
                      ("type", JStr "true_false");
                      ("correct_answer", JBool true)]]
               (JObj [("id", JNum 2); ("type", JStr "multiple_choice");
                      ("options", JArr [])])
               [JStr "never looked at"] _)
            _ eq_refl)) "multiple_choice" "question" eq_refl _ _).
  - constructor; [|constructor]. exists "true_false".
    split; [reflexivity|]. split; [simpl; auto|].
    intros f [<-|[<-|[<-|[]]]]; reflexivity.
  - simpl. auto.
  - exists ["id"], ["options"; "correct_answer"].
    split; [reflexivity|]. split; [|reflexivity].
    intros g [<-|[]]. reflexivity.
Defined.


(** ** Items and quizzes of the wrong type *)

(** X2, in general.  When the transcript service answers 200 with a
    non-empty list whose first item is no dict (a bare string, a list, a
    number, [None]), no shape is tried: the log line that prints
    [transcript_item.keys()] raises [AttributeError], and the generic
    [except] clause answers with ["Failed: "] and that exception's
    message.  So Method 3, the bare string, can never be reached. *)
Theorem non_dict_item :
  forall (w : env) (url video_id txt : string) (item : json)
         (more : list json),
    WebScraper.extract_youtube_id url = Some video_id ->
    configured w = true ->
    transcript_service w video_id
    = Ret {| status_code := 200; text := txt;
             json_body := Ret (JArr (item :: more)) |} ->
    is_dict item = false ->
    result (WebScraper.get_youtube_transcript w url)
    = Ret (WebScraper.error_result
             ("Failed: '" ++ Py.type_name item
                ++ "' object has no attribute 'keys'") url).
Proof.
  intros w url video_id txt item more Hid Hc Hs Hd.
  destruct (first_match_sound url video_id Hid) as [Hne _].
  unfold configured in Hc.
  destruct (YOUTUBE_TRANSCRIPT_IO_API_KEY w) as [[|k0 k]|] eqn:Hk;
    try discriminate Hc.
  assert (Hkne : String k0 k <> EmptyString) by discriminate.
  rewrite (transcript_of_item w url video_id (String k0 k) txt item more
             Hid Hne Hk Hkne Hs).
  destruct item; try discriminate Hd; reflexivity.
Qed.

Lemma non_dict_item_witness :
  result (WebScraper.get_youtube_transcript
            (transcripts (JArr [JStr sample_text])) "https://youtu.be/abc")
  = Ret (WebScraper.error_result
           ("Failed: '" ++ Py.type_name (JStr sample_text)
              ++ "' object has no attribute 'keys'")
           "https://youtu.be/abc").
Proof.
  exact (non_dict_item (transcripts (JArr [JStr sample_text]))
           "https://youtu.be/abc" "abc" "" (JStr sample_text) []
           eq_refl eq_refl eq_refl eq_refl).
Defined.

(** X3, in general.  When extraction, summarization and quiz generation
    have all succeeded and the summary was accepted, a quiz on which
    [validate_quiz] raises (a list that holds a value that is no dict,
    a question whose [type] is a list or a dict, a quiz that is a
    number or a non-empty string or dict) makes the handler answer 500
    with [Internal server error]; the exception is logged. *)
Theorem process_url_quiz_raises :
  forall (w : env) (data : json) (url : string) (title content_type : json)
         (content extracted_url summary summary_model summary_msg : string)
         (quiz : json) (quiz_model : string) (e : exn),
    request_url data = Ret url ->
    url <> EmptyString ->
    fst (ContentGuardrails.validate_url url) = true ->
    result (main.extract_content w (JStr url))
    = Ret (extraction_success title content extracted_url content_type) ->
    result (main.summarize w content)
    = Ret (summary_success summary summary_model) ->
    result (ContentGuardrails.validate_summary summary)
    = Ret (true, summary_msg) ->
    result (main.generate w summary content)
    = Ret (generation_success quiz quiz_model) ->
    ContentGuardrails.validate_quiz quiz = Raise e ->
    main.process_url w data
    = (Ret (internal_error, 500%Z),
       (until_quiz w url content_type content summary
          ++ [Log ERROR ("Unexpected error in process_url: " ++ message e)])%list).
Proof. exact quiz_raises_stops. Qed.

Lemma process_url_quiz_raises_witness :
  main.process_url
    (answering string_questions
       (JObj [("questions", JArr [JStr "What is a river?"])]))
    article_request
  = (Ret (internal_error, 500%Z),
     (until_quiz
        (answering string_questions
           (JObj [("questions", JArr [JStr "What is a river?"])]))
        "https://example.com/article" (JStr "article") article_text summary_text
        ++ [Log ERROR
              ("Unexpected error in process_url: "
                 ++ message (no_get (JStr "What is a river?")))])%list).
Proof.
  refine (process_url_quiz_raises
            (answering string_questions
               (JObj [("questions", JArr [JStr "What is a river?"])]))
            article_request "https://example.com/article"
            (JStr "Rivers") (JStr "article") article_text
            "https://example.com/article" summary_text
            "google-gemini-2.5-flash" "Summary passed validation"
            (JArr [JStr "What is a river?"]) "google-gemini-2.5-flash"
            (no_get (JStr "What is a river?"))
            eq_refl _ eq_refl eq_refl eq_refl eq_refl eq_refl eq_refl).
  discriminate.
Defined.
(** ** Video URLs without an identifier *)

Lemma search_matches (r : Re.regex) (url : string) (caps : Re.captures) :
  Re.search r url = Some caps ->
  exists pre suffix rest, url = pre ++ suffix /\ matches r suffix rest.
Proof.
  intros H. apply search_sound in H. destruct H as [pre [suffix [-> H]]].
  assert (Hn : Re.rmatch r suffix <> None) by (rewrite H; discriminate).
  apply rmatch_spec in Hn. destruct Hn as [rest Hm].
  now exists pre, suffix, rest.
Qed.

Lemma occurs_inside (p pre post : string) : occurs p (pre ++ p ++ post).
Proof. now exists pre, post. Qed.

Lemma occurs_trans (a b c : string) : occurs a b -> occurs b c -> occurs a c.
Proof.
  intros [x [y ->]] [u [v ->]]. exists (u ++ x), (y ++ v).
  now rewrite !append_assoc.
Qed.

(** an identifier is found only behind one of the three forms *)
Lemma first_match_form (url id : string) :
  WebScraper.extract_youtube_id url = Some id ->
  exists form, In form id_forms /\ occurs form url.
Proof.
  unfold WebScraper.extract_youtube_id, WebScraper.patterns.
  cbn [WebScraper.first_match].
  match goal with
  | |- context [Re.search ?p url] =>
      destruct (Re.search p url) as [caps|] eqn:E1
  end.
  { intros _. apply search_matches in E1.
    destruct E1 as [pre [suffix [rest [-> Hm]]]].
    cbn [matches] in Hm. destruct Hm as [mid [[-> | [-> | ->]] _]].
    - exists "youtube.com/watch?". split; [simpl; auto|].
      exists pre, ("v=" ++ mid). reflexivity.
    - exists "youtu.be/". split; [simpl; auto|]. apply occurs_inside.
    - exists "youtube.com/embed/". split; [simpl; auto|]. apply occurs_inside. }
  match goal with
  | |- context [Re.search ?p url] =>
      destruct (Re.search p url) as [caps|] eqn:E2
  end.
  { intros _. apply search_matches in E2.
    destruct E2 as [pre [suffix [rest [-> Hm]]]].
    cbn [matches] in Hm. destruct Hm as [mid [[m1 [-> _]] _]].
    exists "youtube.com/watch?". split; [simpl; auto|]. apply occurs_inside. }
  match goal with
  | |- context [Re.search ?p url] =>
      destruct (Re.search p url) as [caps|] eqn:E3
  end.
  { intros _. apply search_matches in E3.
    destruct E3 as [pre [suffix [rest [-> Hm]]]].
    cbn [matches] in Hm. destruct Hm as [mid [-> _]].
    exists "youtu.be/". split; [simpl; auto|]. apply occurs_inside. }
  match goal with
  | |- context [Re.search ?p url] =>
      destruct (Re.search p url) as [caps|] eqn:E4; [|discriminate]
  end.
  intros _. apply search_matches in E4.
  destruct E4 as [pre [suffix [rest [-> Hm]]]].
  cbn [matches] in Hm. destruct Hm as [mid [-> _]].
  exists "youtube.com/embed/". split; [simpl; auto|]. apply occurs_inside.
Qed.

(** X21.  [extract_youtube_id] finds an identifier only in a URL that
    holds [youtu.be/], [youtube.com/embed/] or [youtube.com/watch?]
    somewhere; any other URL gives [None], whatever its host. *)
Theorem extract_youtube_id_needs_form :
  forall url id : string,
    WebScraper.extract_youtube_id url = Some id ->
    exists form, In form id_forms /\ occurs form url.
Proof. exact first_match_form. Qed.

Lemma extract_youtube_id_needs_form_witness :
  exists form, In form id_forms /\ occurs form "https://youtu.be/abc?t=5".
Proof.
  exact (extract_youtube_id_needs_form "https://youtu.be/abc?t=5" "abc" eq_refl).
Defined.

Lemma contains_skip (p : string) (c : ascii) (s : string) :
  PyStr.startswith p (String c s) = false ->
  PyStr.contains p (String c s) = PyStr.contains p s.
Proof. intros H. cbn [PyStr.contains]. now rewrite H. Qed.

Lemma no_form_in_segment (form id : string) :
  In form id_forms -> PyStr.contains "/" id = false ->
  PyStr.contains form id = false.
Proof.
  intros Hf Hs. apply contains_false. apply contains_false in Hs.
  intros Ho. apply Hs. apply (occurs_trans _ form); [|exact Ho].
  apply contains_spec.
  destruct Hf as [<-|[<-|[<-|[]]]]; reflexivity.
Qed.

(** X22.  Shorts, live and [/v/] pages and embeds of
    [youtube-nocookie.com] are taken for videos by [is_youtube_url], but
    no pattern of [extract_youtube_id] knows them: the video path
    answers with the invalid-URL error, without a log line and without
    asking the transcript service, and the page is not scraped as an
    article either. *)
Theorem unknown_video_form :
  forall (w : env) (pre form id : string),
    In pre url_prefixes ->
    In form unknown_forms ->
    PyStr.contains "/" id = false ->
    let url := pre ++ form ++ id in
    WebScraper.is_youtube_url url = true
    /\ WebScraper.extract_youtube_id url = None
    /\ WebScraper.get_youtube_transcript w url
       = (Ret (invalid_video_url url), []).
Proof.
  intros w pre form id Hp Hf Hs url.
  assert (Hv : WebScraper.is_youtube_url url = true).
  { subst url. simpl in Hp, Hf.
    destruct Hp as [<-|[<-|[<-|[<-|[<-|[<-|[]]]]]]];
      destruct Hf as [<-|[<-|[<-|[<-|[]]]]]; reflexivity. }
  assert (Hn : WebScraper.extract_youtube_id url = None).
  { destruct (WebScraper.extract_youtube_id url) as [x|] eqn:E; [|reflexivity].
    exfalso. destruct (first_match_form url x E) as [f [Hin Ho]].
    apply contains_spec in Ho.
    assert (Hc : PyStr.contains f url = false); [|congruence].
    pose proof (no_form_in_segment f id Hin Hs) as Hid.
    subst url. simpl in Hp, Hf, Hin.
    destruct Hp as [<-|[<-|[<-|[<-|[<-|[<-|[]]]]]]];
      destruct Hf as [<-|[<-|[<-|[<-|[]]]]];
      destruct Hin as [<-|[<-|[<-|[]]]];
      cbn [append];
      repeat (rewrite contains_skip by reflexivity);
      exact Hid. }
  split; [exact Hv|]. split; [exact Hn|].
  unfold WebScraper.get_youtube_transcript. rewrite Hn. reflexivity.
Qed.

Lemma unknown_video_form_witness :
  WebScraper.is_youtube_url "https://www.youtube.com/shorts/abc" = true
  /\ WebScraper.extract_youtube_id "https://www.youtube.com/shorts/abc" = None
  /\ WebScraper.get_youtube_transcript demo "https://www.youtube.com/shorts/abc"
     = (Ret (invalid_video_url "https://www.youtube.com/shorts/abc"), []).
Proof.
  refine (unknown_video_form demo "https://www." "youtube.com/shorts/" "abc"
            _ _ eq_refl); simpl; auto 10.
Defined.
(** ** What a 200 response holds *)

Lemma process_url_served (w : env) (data body : json) :
  result (main.process_url w data) = Ret (body, 200%Z) ->
  served w data body.
Proof.
  destruct (request_url data) as [url|e] eqn:Hreq.
  2: { rewrite (request_raises w data e Hreq). discriminate. }
  destruct (String.eqb_spec url EmptyString) as [Hemp|Hne].
  { rewrite (process_url_empty w data url Hreq Hemp). discriminate. }
  destruct (ContentGuardrails.validate_url url) as [[|] umsg] eqn:Hu.
  2: { rewrite (process_url_unsafe w data url Hreq Hne umsg Hu).
       discriminate. }
  assert (Hsafe : fst (ContentGuardrails.validate_url url) = true)
    by now rewrite Hu.
  destruct (extract_content_stage w url Hne) as [_ HQ].
  destruct (result (main.extract_content w (JStr url))) as [er|] eqn:HE;
    [|elim HQ].
  rewrite (request_url_stripped data url Hreq) in HQ.
  destruct HQ as [[emsg ->] | [title [content [type ->]]]].
  { rewrite (process_url_extraction_failed w data url Hreq Hne Hsafe _ HE
               (error_result_failed _ _)). discriminate. }
  destruct (summarize_stage w content) as [_ HS'].
  destruct (result (main.summarize w content)) as [sr|] eqn:HS; [|elim HS'].
  destruct HS' as [[smsg ->] | [summary [smodel ->]]].
  { rewrite (process_url_summarization_failed w data url Hreq Hne Hsafe
               title (JStr type) content _ HE _ HS (stage_error_failed _)).
    discriminate. }
  destruct (validate_summary_total summary) as [[vmsg HV] | [vmsg HV]].
  2: { rewrite (process_url_summary_rejected w data url Hreq Hne Hsafe
                  title (JStr type) content _ HE summary smodel HS vmsg HV).
       discriminate. }
  destruct (generate_stage w summary content) as [_ HG'].
  destruct (result (main.generate w summary content)) as [gr|] eqn:HG;
    [|elim HG'].
  destruct HG' as [[gmsg ->] | [quiz [qmodel ->]]].
  { rewrite (process_url_generation_failed w data url Hreq Hne Hsafe
               title (JStr type) content _ HE summary smodel HS vmsg HV
               _ HG (stage_error_failed _)). discriminate. }
  destruct (ContentGuardrails.validate_quiz quiz) as [[ok qmsg]|qe] eqn:HQ.
  2: { rewrite (quiz_raises_stops w data url title (JStr type) content _
                  summary smodel vmsg quiz qmodel qe
                  Hreq Hne Hsafe HE HS HV HG HQ). discriminate. }
  destruct (PyExc.len quiz) as [n|le] eqn:Hn.
  - rewrite (process_url_done w data url Hreq Hne Hsafe
               title (JStr type) content _ HE summary smodel HS vmsg HV
               quiz qmodel HG ok qmsg n HQ Hn).
    cbn [result fst]. intros [= <-].
    exists url, title, (JStr type), content, summary, smodel, quiz, qmodel.
    repeat (split; [assumption || reflexivity|]).
    split; [now exists vmsg|]. split; [exact HG | reflexivity].
  - rewrite (process_url_unsized w data url Hreq Hne Hsafe
               title (JStr type) content _ HE summary smodel HS vmsg HV
               quiz qmodel HG ok qmsg le HQ Hn). discriminate.
Qed.

(** X24.  A 200 response is only given to a request that went through
    every stage: its body is the envelope with the stripped URL of the
    request, the title and type of the extraction, the summarizer's
    summary and the generator's quiz.  The summary in it has passed the
    guardrail: it has between 100 and 200000 characters and holds no
    keyword of the deny list, in any letter case.  (Nothing of the kind
    holds for the quiz, whose validation is only logged.) *)
Theorem ok_response_served :
  forall (w : env) (data body : json),
    result (main.process_url w data) = Ret (body, 200%Z) ->
    served w data body
    /\ exists title content_type summary quiz url,
         body = envelope title content_type summary quiz url
         /\ (100 <= PyStr.len summary <= 200000)%Z
         /\ clean summary
         /\ PyStr.strip url = url.
Proof.
  intros w data body H. pose proof (process_url_served w data body H) as Hs.
  split; [exact Hs|].
  destruct Hs as [url [title [type [content [summary [smodel [quiz [qmodel
                 [Hreq [_ [_ [_ [_ [Ha [_ ->]]]]]]]]]]]]]]].
  exists title, type, summary, quiz, url. split; [reflexivity|].
  apply validate_summary_accepts in Ha. destruct Ha as [_ [Hl Hc]].
  split; [exact Hl|]. split; [exact Hc|].
  exact (request_url_stripped data url Hreq).
Qed.

Lemma ok_response_served_witness :
  served empty_env article_request
    (envelope (JStr "Rivers") (JStr "article") summary_text (JArr [])
       "https://example.com/article")
  /\ exists title content_type summary quiz url,
       envelope (JStr "Rivers") (JStr "article") summary_text (JArr [])
         "https://example.com/article"
       = envelope title content_type summary quiz url
       /\ (100 <= PyStr.len summary <= 200000)%Z
       /\ clean summary
       /\ PyStr.strip url = url.
Proof.
  exact (ok_response_served empty_env article_request
           (envelope (JStr "Rivers") (JStr "article") summary_text (JArr [])
              "https://example.com/article") eq_refl).
Defined.

(** ** The fence around a quiz answer *)

(** X23.  [clean_markdown] never raises: behind a leading fence the
    split always has a second piece, so the index [1] is never out of
    range.  What it returns for a fenced answer is stripped, and an
    answer whose fence is never closed is cleaned like a closed one. *)
Theorem clean_markdown_spec :
  forall t : string,
    (exists t', QuizGenerator.clean_markdown t = Ret t')
    /\ (PyStr.startswith QuizGenerator.fence t = true ->
        forall t', QuizGenerator.clean_markdown t = Ret t' ->
                   PyStr.strip t' = t')
    /\ (forall inner,
           plain inner -> t = QuizGenerator.fence ++ inner ->
           QuizGenerator.clean_markdown t = Ret (PyStr.strip (untag inner))).
Proof.
  intros t. split; [apply clean_markdown_total|]. split.
  - intros E t'. unfold QuizGenerator.clean_markdown. rewrite E.
    destruct (nth_error _ 1) as [piece|]; [|discriminate].
    cbv zeta. intros [= <-]. apply strip_idem.
  - intros inner Hp ->. now apply clean_markdown_open.
Qed.

(** ** The later patterns *)

Lemma search_complete (r : Re.regex) (pre suffix : string) :
  Re.rmatch r suffix <> None -> Re.search r (pre ++ suffix) <> None.
Proof.
  intros H. induction pre as [|c pre IH]; cbn [append].
  - destruct (Re.rmatch r suffix) as [x|] eqn:E; [|now elim H].
    rewrite (search_hit _ _ _ E). discriminate.
  - cbn [Re.search].
    destruct (Re.rmatch r (String c (pre ++ suffix)));
      [discriminate | exact IH].
Qed.

(** where a pattern that ends in a group found its identifier *)
Lemma tail_group_at (r : Re.regex) (c : Re.cset) (url : string)
      (caps : Re.captures) :
  Re.search (Re.Seq r (Re.Group 1 (Re.Plus c))) url = Some caps ->
  exists pre suffix a w rest,
    url = pre ++ suffix
    /\ matches r suffix (String a w ++ rest)
    /\ Re.mem c a = true /\ all_in c w
    /\ Re.group 1 caps = Some (String a w).
Proof.
  intros H. apply search_sound in H. destruct H as [pre [suffix [-> H]]].
  unfold Re.rmatch in H. cbn [Re.run] in H.
  destruct (run_sound _ r suffix []
              (fun rest caps' =>
                 Re.run (Re.Plus c) rest caps'
                   (fun rest0 caps'0 =>
                      Some ((1, Re.taken rest rest0) :: caps'0)))
              caps H) as [mid [caps' [Hm Hg]]].
  pose proof (group_plus_sound 1 c mid caps' caps) as Hs.
  cbn [Re.run] in Hs. destruct (Hs Hg) as [id [rest [-> [Hne [Hall ->]]]]].
  destruct id as [|a w]; [now elim Hne|]. destruct Hall as [Ha Hw].
  exists pre, suffix, a, w, rest. auto.
Qed.

Lemma ends_identifier (a : ascii) :
  Re.mem WebScraper.id_chars a = false ->
  Re.mem WebScraper.id_chars' a = true ->
  a = WebScraper.hash \/ a = Re.newline.
Proof.
  unfold Re.mem, WebScraper.id_chars, WebScraper.id_chars'.
  cbn [existsb].
  destruct (Ascii.eqb_spec a WebScraper.amp) as [->|_]; [discriminate|].
  destruct (Ascii.eqb_spec a Re.newline) as [->|_]; [now right|].
  destruct (Ascii.eqb_spec a WebScraper.qmark) as [->|_]; [discriminate|].
  destruct (Ascii.eqb_spec a WebScraper.hash) as [->|_]; [now left|].
  discriminate.
Qed.

Lemma later_pattern_start (form url : string) (caps : Re.captures) :
  In form ["youtu.be/"; "youtube.com/embed/"] ->
  Re.search first_pattern url = None ->
  Re.search (Re.Seq (Re.Lit form) (Re.Group 1 (Re.Plus WebScraper.id_chars')))
            url = Some caps ->
  exists a w, Re.group 1 caps = Some (String a w)
              /\ (a = WebScraper.hash \/ a = Re.newline).
Proof.
  intros Hf H1 H. apply tail_group_at in H.
  destruct H as [pre [suffix [a [w [rest [-> [Hm [Ha [Hw Hg]]]]]]]]].
  exists a, w. split; [exact Hg|].
  destruct (Re.mem WebScraper.id_chars a) eqn:Ea;
    [|now apply ends_identifier].
  exfalso. apply (search_complete first_pattern pre suffix); [|exact H1].
  apply rmatch_spec. cbn [matches] in Hm. subst suffix.
  exists (w ++ rest). unfold first_pattern. cbn [matches append].
  exists (String a (w ++ rest)). split.
  - simpl in Hf. destruct Hf as [<-|[<-|[]]]; auto.
  - exists a, EmptyString. cbn [append all_in]. auto.
Qed.

(** X26.  The third and fourth pattern of [extract_youtube_id] repeat
    the short and the embed form of the first one with a wider
    character class, so they decide only where the first pattern stops:
    they are reached only for an identifier that begins with [#] or a
    newline.  For every other URL the first two patterns alone give the
    same answer. *)
Theorem later_patterns_rare :
  forall url : string,
    WebScraper.extract_youtube_id url
    = WebScraper.first_match leading_patterns url
    \/ exists a w,
         WebScraper.extract_youtube_id url = Some (String a w)
         /\ (a = WebScraper.hash \/ a = Re.newline).
Proof.
  intros url. unfold WebScraper.extract_youtube_id, leading_patterns,
                WebScraper.patterns.
  cbn [firstn WebScraper.first_match].
  fold first_pattern.
  destruct (Re.search first_pattern url) as [c1|] eqn:E1; [now left|].
  match goal with
  | |- context [Re.search ?p url] =>
      destruct (Re.search p url) as [c2|] eqn:E2; [now left|]
  end.
  match goal with
  | |- context [Re.search ?p url] =>
      destruct (Re.search p url) as [c3|] eqn:E3
  end.
  { right. apply (later_pattern_start "youtu.be/") in E3;
      [|simpl; auto | exact E1].
    destruct E3 as [a [w [Hg Ha]]]. exists a, w. now rewrite Hg. }
  match goal with
  | |- context [Re.search ?p url] =>
      destruct (Re.search p url) as [c4|] eqn:E4; [|now left]
  end.
  right. apply (later_pattern_start "youtube.com/embed/") in E4;
    [|simpl; auto | exact E1].
  destruct E4 as [a [w [Hg Ha]]]. exists a, w. now rewrite Hg.
Qed.

(** a greedy [.*] gives the continuation its rightmost chance: when the
    continuation takes [b] and nothing further to the right, [b] it is *)
Lemma star_here (c : Re.cset) (b : string) (caps : Re.captures)
      (k : string -> Re.captures -> option Re.captures) :
  (forall b1 b2, b = b1 ++ b2 -> b1 <> EmptyString -> k b2 caps = None) ->
  Re.star c b caps k = k b caps.
Proof.
  induction b as [|ch b IH]; intros H; [reflexivity|].
  cbn [Re.star]. destruct (Re.mem c ch); [|reflexivity].
  rewrite IH.
  - rewrite (H (String ch EmptyString) b eq_refl); [reflexivity | discriminate].
  - intros b1 b2 -> Hne. apply (H (String ch b1) b2 eq_refl). discriminate.
Qed.

Lemma star_rightmost (c : Re.cset) (a b : string) (caps x : Re.captures)
      (k : string -> Re.captures -> option Re.captures) :
  all_in c a ->
  k b caps = Some x ->
  (forall b1 b2, b = b1 ++ b2 -> b1 <> EmptyString -> k b2 caps = None) ->
  Re.star c (a ++ b) caps k = Some x.
Proof.
  intros Ha Hk Hn. induction a as [|ch a IH]; cbn [append].
  - now rewrite star_here.
  - destruct Ha as [Hc Ha]. cbn [Re.star]. rewrite Hc. now rewrite (IH Ha).
Qed.

Lemma group_plus_end (n : nat) (c : Re.cset) (id tail : string)
      (caps : Re.captures) :
  id <> EmptyString -> all_in c id ->
  match tail with
  | EmptyString => True
  | String d _ => Re.mem c d = false
  end ->
  Re.run (Re.Group n (Re.Plus c)) (id ++ tail) caps (fun _ caps' => Some caps')
  = Some ((n, id) :: caps).
Proof.
  intros Hne Hall Ht. destruct tail as [|d rest].
  - rewrite append_nil_r. now apply group_plus_all.
  - now apply group_plus_upto.
Qed.

Lemma no_later_value (x r : string) :
  ~ occurs "v=" x -> forall b1 b2,
  "v=" ++ x = b1 ++ b2 -> b1 <> EmptyString -> Re.after "v=" b2 = None.
Proof.
  intros Hx b1 b2 E Hne.
  destruct (Re.after "v=" b2) as [r'|] eqn:Ea; [|reflexivity].
  exfalso. apply after_spec in Ea. subst b2.
  destruct b1 as [|c1 b1]; [now elim Hne|].
  cbn [append] in E. injection E as <- E.
  destruct b1 as [|c2 b1].
  - cbn [append] in E. discriminate E.
  - cbn [append] in E. injection E as <- E.
    apply Hx. exists b1, r'. exact E.
Qed.

(** the second pattern at the place of [youtube.com/watch?] *)
Lemma second_pattern_last (q id tail : string) :
  all_in Re.Dot q -> identifier id -> id_end tail ->
  ~ occurs "v=" (id ++ tail) ->
  Re.rmatch (nth 1 WebScraper.patterns (Re.Lit ""))
            ("youtube.com/watch?" ++ q ++ "v=" ++ id ++ tail)
  = Some [(1, id)].
Proof.
  intros Hq [Hne Hall] Ht Hv. unfold Re.rmatch.
  cbn [nth WebScraper.patterns Re.run]. rewrite after_append.
  apply star_rightmost; [exact Hq | |].
  - rewrite after_append.
    exact (group_plus_end 1 WebScraper.id_chars id tail [] Hne Hall Ht).
  - intros b1 b2 E Hb.
    now rewrite (no_later_value (id ++ tail) EmptyString Hv b1 b2 E Hb).
Qed.

Lemma startswith_later (q x : string) :
  q <> EmptyString -> PyStr.startswith "v=" q = false ->
  PyStr.startswith "v=" (q ++ "v=" ++ x) = false.
Proof.
  intros Hne Hs. destruct q as [|a q]; [now elim Hne|].
  cbn [append PyStr.startswith] in *.
  destruct (Ascii.eqb "v" a); [|reflexivity].
  destruct q as [|b q]; [reflexivity|].
  cbn [append]. destruct (Ascii.eqb "=" b); [discriminate Hs | reflexivity].
Qed.

Lemma no_slash_no_form (form s : string) :
  In form ["youtube.com/watch?v="; "youtu.be/"; "youtube.com/embed/"] ->
  ~ occurs "/" s -> PyStr.contains form s = false.
Proof.
  intros Hf Hs. apply contains_false. intros Ho. apply Hs.
  apply (occurs_trans _ form); [|exact Ho].
  apply contains_spec.
  destruct Hf as [<-|[<-|[<-|[]]]]; reflexivity.
Qed.

Lemma first_pattern_needs (url : string) :
  (forall form,
      In form ["youtube.com/watch?v="; "youtu.be/"; "youtube.com/embed/"] ->
      PyStr.contains form url = false) ->
  Re.search first_pattern url = None.
Proof.
  intros H. destruct (Re.search first_pattern url) as [caps|] eqn:E;
    [|reflexivity].
  exfalso. apply search_matches in E.
  destruct E as [pre [suffix [rest [-> Hm]]]].
  unfold first_pattern in Hm. cbn [matches] in Hm.
  destruct Hm as [mid [[-> | [-> | ->]] _]];
    match goal with
    | H : forall form, _ -> PyStr.contains form (_ ++ ?lit ++ _) = false |- _ =>
        specialize (H lit ltac:(simpl; auto));
        apply contains_false in H; apply H; apply occurs_inside
    end.
Qed.

(** X27.  When [v] is not the first parameter of a watch URL, the second
    pattern decides, and its greedy [.*] makes the last [v=] of the URL
    the one that counts: the identifier is what follows that last [v=],
    up to the next [&], [?], [#], newline or the end, whatever
    parameters stand before it, a [v=] among them included (so the end
    of another parameter's name, as in [rv=], is taken for it). *)
Theorem extract_last_value :
  forall pre q id tail : string,
    In pre url_prefixes ->
    q <> EmptyString ->
    PyStr.startswith "v=" q = false ->
    all_in Re.Dot q ->
    identifier id ->
    id_end tail ->
    ~ occurs "v=" (id ++ tail) ->
    ~ occurs "/" (q ++ "v=" ++ id ++ tail) ->
    WebScraper.extract_youtube_id
      (pre ++ "youtube.com/watch?" ++ q ++ "v=" ++ id ++ tail)
    = Some id.
Proof.
  intros pre q id tail Hp Hne Hs Hq Hid Ht Hv Hsl.
  pose proof (startswith_later q (id ++ tail) Hne Hs) as Hst.
  assert (H1 : Re.search first_pattern
                 (pre ++ "youtube.com/watch?" ++ q ++ "v=" ++ id ++ tail)
               = None).
  { apply first_pattern_needs. intros form Hf.
    pose proof (no_slash_no_form form _ Hf Hsl) as Hno.
    simpl in Hp, Hf.
    destruct Hp as [<-|[<-|[<-|[<-|[<-|[<-|[]]]]]]];
      destruct Hf as [<-|[<-|[<-|[]]]];
      cbn [append];
      repeat (rewrite contains_skip by first [reflexivity | exact Hst]);
      exact Hno. }
  assert (H2 : Re.search (nth 1 WebScraper.patterns (Re.Lit ""))
                 (pre ++ "youtube.com/watch?" ++ q ++ "v=" ++ id ++ tail)
               = Some [(1, id)]).
  { pose proof (second_pattern_last q id tail Hq Hid Ht Hv) as Hm.
    simpl in Hp.
    destruct Hp as [<-|[<-|[<-|[<-|[<-|[<-|[]]]]]]];
      cbn [append] in *;
      repeat (rewrite search_skip by reflexivity);
      apply search_hit; exact Hm. }
  unfold WebScraper.extract_youtube_id, WebScraper.patterns.
  cbn [WebScraper.first_match]. fold first_pattern. rewrite H1.
  cbn [nth WebScraper.patterns] in H2. rewrite H2. reflexivity.
Qed.

Lemma extract_last_value_witness :
  WebScraper.extract_youtube_id
    ("https://www." ++ "youtube.com/watch?" ++ "list=PL1&v=abc&r" ++ "v="
       ++ "xyz" ++ "&t=5")
  = Some "xyz".
Proof.
  refine (extract_last_value "https://www." "list=PL1&v=abc&r" "xyz" "&t=5"
            _ _ eq_refl _ _ eq_refl _ _).
  - simpl. auto 10.
  - discriminate.
  - repeat split.
  - split; [discriminate | repeat split].
  - apply contains_false. reflexivity.
  - apply contains_false. reflexivity.
Defined.
(** ** Content that is no string *)

(** X25.  The transcript need not be a string.  Whatever value stands
    under [text] in the first item, if it is truthy it is turned into a
    string with [str] and stripped, and when that has 50 characters or
    more it is returned as the transcript: a list or a dict of segments
    under [text] is not refused, its printed form becomes the content. *)
Theorem transcript_of_any_value :
  forall (w : env) (url video_id txt : string) (kv : list (string * json))
         (more : list json) (v : json),
    WebScraper.extract_youtube_id url = Some video_id ->
    configured w = true ->
    transcript_service w video_id
    = Ret {| status_code := 200; text := txt;
             json_body := Ret (JArr (JObj kv :: more)) |} ->
    Py.assoc "text" kv = Some v ->
    Py.truthy v = true ->
    (50 <= PyStr.len (PyStr.strip (Py.str v)))%Z ->
    result (WebScraper.get_youtube_transcript w url)
    = Ret (extraction_success (JStr ("YouTube Video: " ++ video_id))
             (PyStr.strip (Py.str v)) url (JStr "video")).
Proof.
  intros w url video_id txt kv more v Hid Hc Hs Ht Hv Hl.
  destruct (first_match_sound url video_id Hid) as [Hne _].
  unfold configured in Hc.
  destruct (YOUTUBE_TRANSCRIPT_IO_API_KEY w) as [[|k0 k]|] eqn:Hk;
    try discriminate Hc.
  assert (Hkne : String k0 k <> EmptyString) by discriminate.
  rewrite (transcript_of_item w url video_id (String k0 k) txt (JObj kv) more
             Hid Hne Hk Hkne Hs).
  cbn [WebScraper.keys]. rewrite (select_text kv v Ht). cbn [result fst].
  unfold transcript_result. rewrite Hv. cbn [negb]. cbv zeta.
  destruct (String.eqb_spec (PyStr.strip (Py.str v)) EmptyString) as [E|_].
  { rewrite E in Hl. unfold PyStr.len in Hl. cbn in Hl. lia. }
  destruct (Z.ltb_spec (PyStr.len (PyStr.strip (Py.str v))) 50) as [H|_];
    [lia|].
  reflexivity.
Qed.

Lemma transcript_of_any_value_witness :
  result (WebScraper.get_youtube_transcript
            (transcripts
               (JArr [JObj [("text", JArr [JObj [("text", JStr sample_text)]])]]))
            "https://youtu.be/abc")
  = Ret (extraction_success (JStr ("YouTube Video: " ++ "abc"))
           (PyStr.strip (Py.str (JArr [JObj [("text", JStr sample_text)]])))
           "https://youtu.be/abc" (JStr "video")).
Proof.
  refine (transcript_of_any_value
            (transcripts
               (JArr [JObj [("text", JArr [JObj [("text", JStr sample_text)]])]]))
            "https://youtu.be/abc" "abc" ""
            [("text", JArr [JObj [("text", JStr sample_text)]])] []
            (JArr [JObj [("text", JStr sample_text)]])
            eq_refl eq_refl eq_refl eq_refl eq_refl _).
  vm_compute. discriminate.
Defined.
